(** * class-server: the broadcast substrate of the classroom extension

    A shallow embedding of [ConnectionManager.ts], [MessageBroker.ts]
    (which also holds [FileSyncManager]), [FileFilter.ts] and the
    acceptance path of [WebSocketServer], followed by the properties the
    specification states about them.

    Conventions of the embedding:
    - a method that reads or writes object fields is a computation in the
      monad [Js S], a state transformer that ends in a normal completion or
      in a thrown exception; [try_catch] is the [try { } catch { }] block;
    - [Date.now()] and [nanoid()] are inputs of the methods that call them;
    - a [WebSocket] is a handle into a store of socket objects, so that two
      references to one socket see the same [readyState];
    - a JavaScript [Map] is an association list in insertion order. *)

From Stdlib Require Import List String Ascii ZArith Lia Bool.
From Stdlib Require Import DecimalString.
Import ListNotations.
Local Open Scope string_scope.
Local Open Scope list_scope.
Local Open Scope Z_scope.

Set Implicit Arguments.
Set Warnings "-register-all".

(** ** Completions and the [Js] monad *)

Inductive Completion (A : Type) : Type :=
| Normal (a : A)
| Throw (e : string).
Arguments Normal {A} a.
Arguments Throw {A} e.

Definition Js (S A : Type) : Type := S -> Completion A * S.

Definition ret {S A} (a : A) : Js S A := fun s => (Normal a, s).

Definition bind {S A B} (m : Js S A) (k : A -> Js S B) : Js S B :=
  fun s => match m s with
           | (Normal a, s') => k a s'
           | (Throw e, s') => (Throw e, s')
           end.

Definition throw {S A} (e : string) : Js S A := fun s => (Throw e, s).

Definition try_catch {S A} (body : Js S A) (handler : string -> Js S A) : Js S A :=
  fun s => match body s with
           | (Normal a, s') => (Normal a, s')
           | (Throw e, s') => handler e s'
           end.

Definition get {S} : Js S S := fun s => (Normal s, s).
Definition modify {S} (f : S -> S) : Js S unit := fun s => (Normal tt, f s).

Declare Scope js_scope.
Delimit Scope js_scope with js.
Notation "x <- m ;; k" := (bind m (fun x => k))
  (at level 61, m at next level, right associativity) : js_scope.
Notation "m ;;; k" := (bind m (fun _ => k))
  (at level 61, right associativity) : js_scope.
Local Open Scope js_scope.

(** Running a computation: the final state and the completion. *)
Definition exec {S A} (m : Js S A) (s : S) : S := snd (m s).
Definition result {S A} (m : Js S A) (s : S) : Completion A := fst (m s).

Definition returns {S A} (m : Js S A) (s : S) : Prop :=
  exists a, result m s = Normal a.

(** ** A JavaScript [Map] with string keys *)

Module JsMap.
Section Ops.
Variable V : Type.

Definition t := list (string * V).

Fixpoint get (k : string) (m : t) : option V :=
  match m with
  | [] => None
  | (k', v) :: m' => if String.eqb k k' then Some v else get k m'
  end.

(** [set] keeps the position of a key that is already present and
    appends a new key at the end. *)
Fixpoint set (k : string) (v : V) (m : t) : t :=
  match m with
  | [] => [(k, v)]
  | (k', v') :: m' =>
      if String.eqb k k' then (k', v) :: m' else (k', v') :: set k v m'
  end.

Fixpoint delete (k : string) (m : t) : t :=
  match m with
  | [] => []
  | (k', v') :: m' =>
      if String.eqb k k' then m' else (k', v') :: delete k m'
  end.

Definition has (k : string) (m : t) : bool :=
  match get k m with Some _ => true | None => false end.

Definition size (m : t) : Z := Z.of_nat (List.length m).

Definition keys (m : t) : list string := map fst m.

Definition values (m : t) : list V := map snd m.

Definition clear (m : t) : t := [].
End Ops.
End JsMap.

(** ** Wire messages ([types/messages.ts]) *)

Inductive MessageType : Type :=
| CONNECTED | FILE_UPDATE | FILE_SWITCH | STATS | SERVER_CLOSING
| AUTH | PING | PONG.

(** The string value of each member of the enum. *)
Definition MessageType_value (t : MessageType) : string :=
  match t with
  | CONNECTED => "connected"
  | FILE_UPDATE => "file_update"
  | FILE_SWITCH => "file_switch"
  | STATS => "stats"
  | SERVER_CLOSING => "server_closing"
  | AUTH => "auth"
  | PING => "ping"
  | PONG => "pong"
  end.

Record CursorPosition : Type := mkCursor { line : Z; character : Z }.

(** What the code puts in the [language] field.  It reads the name off
    an object literal, [table[key]], and such a read also finds the
    members the literal inherits from [Object.prototype]: for those keys
    the field holds a function or an object and no string. *)
Inductive Language : Type :=
| LanguageName (name : string)
| Inherited (member : string).

Record FileInfo : Type := mkFileInfo {
  filePath : string;
  fileName : string;
  language : Language;
  content : string;
}.

(** [TeacherMessage]: every member carries [type] (here the constructor)
    and [timestamp]. *)
Inductive TeacherMessage : Type :=
| ConnectedMessage (timestamp : Z) (sessionId : string) (teacherName : option string)
| FileUpdateMessage (timestamp : Z) (file : FileInfo) (cursorPosition : option CursorPosition)
| FileSwitchMessage (timestamp : Z) (file : FileInfo) (cursorPosition : option CursorPosition)
| StatsMessage (timestamp : Z) (connectedStudents : Z)
| ServerClosingMessage (timestamp : Z) (message : string)
| PongMessage (timestamp : Z).

Definition type_of (m : TeacherMessage) : MessageType :=
  match m with
  | ConnectedMessage _ _ _ => CONNECTED
  | FileUpdateMessage _ _ _ => FILE_UPDATE
  | FileSwitchMessage _ _ _ => FILE_SWITCH
  | StatsMessage _ _ => STATS
  | ServerClosingMessage _ _ => SERVER_CLOSING
  | PongMessage _ => PONG
  end.

(** What [JSON.parse] yields. *)
Inductive Json : Type :=
| JNull
| JBool (b : bool)
| JNumber (n : Z)
| JString (s : string)
| JArray (items : list Json)
| JObject (fields : list (string * Json)).

(** ** Sockets and connections ([ConnectionManager.ts]) *)

Inductive ReadyState : Type := CONNECTING | OPEN | CLOSING | CLOSED.

Definition ReadyState_eqb (a b : ReadyState) : bool :=
  match a, b with
  | CONNECTING, CONNECTING | OPEN, OPEN | CLOSING, CLOSING | CLOSED, CLOSED => true
  | _, _ => false
  end.

(** The part of a [ws] socket object the server depends on: its
    [readyState] and whether a call of [send] on it throws. *)
Record WebSocket : Type := mkWebSocket {
  readyState : ReadyState;
  sendThrows : bool;
}.

Definition Handle := nat.

(** What the server does to its sockets, oldest first. *)
Inductive WireEvent : Type :=
| WSend (h : Handle) (data : string)
| WSendThrow (h : Handle) (data : string)
| WClose (h : Handle) (code : option Z)
| WPing (h : Handle).

Inductive LogEntry : Type :=
| LogError (about : string) (client : string)
| LogWarn (about : string) (client : string)
| LogInfo (about : string) (client : string).

Record ClientConnection : Type := mkClientConnection {
  id : string;
  ws : Handle;
  connectedAt : Z;
  lastPing : Z;
  isAlive : bool;
}.

Definition set_isAlive (b : bool) (c : ClientConnection) : ClientConnection :=
  mkClientConnection (id c) (ws c) (connectedAt c) (lastPing c) b.

Definition set_lastPing (t : Z) (c : ClientConnection) : ClientConnection :=
  mkClientConnection (id c) (ws c) (connectedAt c) t (isAlive c).

(** The state the server side runs in: the fields of [ConnectionManager],
    the socket objects, and three histories kept for the statements below:
    what was done to the sockets, what was logged, and which messages were
    handed to [MessageBroker.broadcast]. *)
Record Server : Type := mkServer {
  connections : JsMap.t ClientConnection;
  pingTimer : bool;
  timeoutTimer : bool;
  sockets : Handle -> WebSocket;
  wire : list WireEvent;
  console : list LogEntry;
  outbox : list TeacherMessage;
}.

Definition set_connections (m : JsMap.t ClientConnection) (s : Server) : Server :=
  mkServer m (pingTimer s) (timeoutTimer s) (sockets s) (wire s) (console s) (outbox s).

Definition set_timers (p t : bool) (s : Server) : Server :=
  mkServer (connections s) p t (sockets s) (wire s) (console s) (outbox s).

Definition set_sockets (f : Handle -> WebSocket) (s : Server) : Server :=
  mkServer (connections s) (pingTimer s) (timeoutTimer s) f (wire s) (console s) (outbox s).

Definition emit (e : WireEvent) (s : Server) : Server :=
  mkServer (connections s) (pingTimer s) (timeoutTimer s) (sockets s)
           (wire s ++ [e]) (console s) (outbox s).

Definition log (l : LogEntry) (s : Server) : Server :=
  mkServer (connections s) (pingTimer s) (timeoutTimer s) (sockets s)
           (wire s) (console s ++ [l]) (outbox s).

Definition record_broadcast (m : TeacherMessage) (s : Server) : Server :=
  mkServer (connections s) (pingTimer s) (timeoutTimer s) (sockets s)
           (wire s) (console s) (outbox s ++ [m]).

Definition update_socket (h : Handle) (w : WebSocket)
    (f : Handle -> WebSocket) : Handle -> WebSocket :=
  fun h' => if Nat.eqb h' h then w else f h'.

Module Ws.
(** [ws.readyState] *)
Definition getReadyState (h : Handle) : Js Server ReadyState :=
  fun s => (Normal (readyState (sockets s h)), s).

Definition isOpen (h : Handle) : Js Server bool :=
  st <- getReadyState h ;; ret (ReadyState_eqb st OPEN).

(** [ws.send(data)]: the call is recorded either way. *)
Definition send (h : Handle) (data : string) : Js Server unit :=
  fun s => if sendThrows (sockets s h)
           then (Throw "send failed", emit (WSendThrow h data) s)
           else (Normal tt, emit (WSend h data) s).

(** [ws.close(code?)]: an open socket starts its closing handshake. *)
Definition close (h : Handle) (code : option Z) : Js Server unit :=
  fun s =>
    let s1 := emit (WClose h code) s in
    match readyState (sockets s h) with
    | OPEN => (Normal tt,
               set_sockets (update_socket h
                 (mkWebSocket CLOSING (sendThrows (sockets s h))) (sockets s)) s1)
    | _ => (Normal tt, s1)
    end.

Definition ping (h : Handle) : Js Server unit := modify (emit (WPing h)).
End Ws.

Module ConnectionManager.

Definition maxConnections : Z := 50.
Definition pingInterval : Z := 30000.
Definition timeoutInterval : Z := 60000.

(** [new ConnectionManager()]: an empty table and, through
    [startHeartbeat], both interval timers. *)
Definition create (socks : Handle -> WebSocket) : Server :=
  mkServer [] true true socks [] [] [].

(** [this.connections.forEach(cb)]: the keys are visited in insertion
    order and an entry deleted before its turn is skipped.  No callback
    of this class adds an entry while it iterates.  [acc] carries the
    local variables the callback writes to. *)
Fixpoint forEachKey {A} (ks : list string)
    (cb : ClientConnection -> string -> A -> Js Server A) (acc : A)
    : Js Server A :=
  match ks with
  | [] => ret acc
  | k :: ks' =>
      fun s => match JsMap.get k (connections s) with
               | None => forEachKey ks' cb acc s
               | Some conn => bind (cb conn k acc)
                                   (fun acc' => forEachKey ks' cb acc') s
               end
  end.

Definition forEach {A}
    (cb : ClientConnection -> string -> A -> Js Server A) (acc : A)
    : Js Server A :=
  fun s => forEachKey (JsMap.keys (connections s)) cb acc s.

Definition removeConnection (clientId : string) : Js Server bool :=
  s <- get ;;
  match JsMap.get clientId (connections s) with
  | Some connection =>
      open <- Ws.isOpen (ws connection) ;;
      (if open then Ws.close (ws connection) None else ret tt) ;;;
      modify (fun s => set_connections (JsMap.delete clientId (connections s)) s) ;;;
      ret true
  | None => ret false
  end.

(** [addConnection(ws)], with the results of [nanoid()] and of
    [Date.now()] as [clientId] and [now]. *)
Definition addConnection (w : Handle) (clientId : string) (now : Z)
    : Js Server (option string) :=
  s <- get ;;
  if JsMap.size (connections s) >=? maxConnections then ret None
  else
    let connection := mkClientConnection clientId w now now true in
    modify (fun s => set_connections
                       (JsMap.set clientId connection (connections s)) s) ;;;
    ret (Some clientId).

(** The handlers [addConnection] registers on the socket. *)
Definition onPong (clientId : string) (now : Z) : Js Server unit :=
  s <- get ;;
  match JsMap.get clientId (connections s) with
  | Some conn =>
      modify (fun s => set_connections
        (JsMap.set clientId (set_lastPing now (set_isAlive true conn))
                   (connections s)) s)
  | None => ret tt
  end.

Definition onClose (clientId : string) : Js Server unit :=
  removeConnection clientId ;;; ret tt.

Definition onError (clientId : string) : Js Server unit :=
  removeConnection clientId ;;; ret tt.

Definition getConnectionCount : Js Server Z :=
  s <- get ;; ret (JsMap.size (connections s)).

Definition getAllConnections : Js Server (list ClientConnection) :=
  s <- get ;; ret (JsMap.values (connections s)).

Definition getConnection (clientId : string) : Js Server (option ClientConnection) :=
  s <- get ;; ret (JsMap.get clientId (connections s)).

(** The callback of [broadcast]; [dead] is [deadConnections]. *)
Definition broadcast_cb (message : string)
    (conn : ClientConnection) (clientId : string) (dead : list string)
    : Js Server (list string) :=
  open <- Ws.isOpen (ws conn) ;;
  if open then
    try_catch (Ws.send (ws conn) message ;;; ret dead)
              (fun _ =>
                 modify (log (LogError "Error sending message to client" clientId)) ;;;
                 ret (dead ++ [clientId]))
  else ret (dead ++ [clientId]).

(** [deadConnections.forEach((clientId) => this.removeConnection(clientId))] *)
Fixpoint removeAll (dead : list string) : Js Server unit :=
  match dead with
  | [] => ret tt
  | clientId :: rest => removeConnection clientId ;;; removeAll rest
  end.

(** The first loop of [broadcast], which yields [deadConnections]. *)
Definition deliver (message : string) : Js Server (list string) :=
  forEach (broadcast_cb message) [].

Definition broadcast (message : string) : Js Server unit :=
  deadConnections <- deliver message ;;
  removeAll deadConnections.

Definition sendToClient (clientId : string) (message : string) : Js Server bool :=
  s <- get ;;
  match JsMap.get clientId (connections s) with
  | Some connection =>
      open <- Ws.isOpen (ws connection) ;;
      if open then
        try_catch (Ws.send (ws connection) message ;;; ret true)
                  (fun _ =>
                     modify (log (LogError "Error sending message to client" clientId)) ;;;
                     removeConnection clientId ;;;
                     ret false)
      else ret false
  | None => ret false
  end.

Definition updatePing (clientId : string) (now : Z) : Js Server unit :=
  s <- get ;;
  match JsMap.get clientId (connections s) with
  | Some connection =>
      modify (fun s => set_connections
        (JsMap.set clientId (set_isAlive true (set_lastPing now connection))
                   (connections s)) s)
  | None => ret tt
  end.

(** The two interval callbacks of [startHeartbeat]. *)
Definition pingTick_cb (conn : ClientConnection) (key : string) (_ : unit)
    : Js Server unit :=
  if negb (isAlive conn) then removeConnection (id conn) ;;; ret tt
  else
    modify (fun s => set_connections
              (JsMap.set key (set_isAlive false conn) (connections s)) s) ;;;
    open <- Ws.isOpen (ws conn) ;;
    if open then Ws.ping (ws conn) else ret tt.

Definition pingTick : Js Server unit := forEach pingTick_cb tt.

Definition timeoutTick_cb (now : Z)
    (conn : ClientConnection) (key : string) (_ : unit) : Js Server unit :=
  if now - lastPing conn >? timeoutInterval
  then removeConnection (id conn) ;;; ret tt
  else ret tt.

Definition timeoutTick (now : Z) : Js Server unit :=
  forEach (timeoutTick_cb now) tt.

Definition stopHeartbeat : Js Server unit :=
  modify (set_timers false false).

Definition disconnectAll_cb (conn : ClientConnection) (key : string) (_ : unit)
    : Js Server unit :=
  open <- Ws.isOpen (ws conn) ;;
  if open then Ws.close (ws conn) None else ret tt.

Definition disconnectAll : Js Server unit :=
  forEach disconnectAll_cb tt ;;;
  modify (fun s => set_connections (JsMap.clear (connections s)) s) ;;;
  stopHeartbeat.

Definition dispose : Js Server unit := disconnectAll.

End ConnectionManager.

(** ** The libraries the code calls

    [JSON], [minimatch] and Node's [path] are not part of the repository;
    the embedding is parameterised by them.  [JSON_parse] is [None] where
    [JSON.parse] throws a [SyntaxError]; [minimatch path pattern] is the
    call with [{ dot: true }]. *)

Class Platform : Type := {
  JSON_parse : string -> option Json;
  JSON_stringify : TeacherMessage -> string;
  minimatch : string -> string -> bool;
  path_normalize : string -> string;
  path_relative : string -> string -> string;
  path_extname : string -> string;
  path_basename : string -> string;
  toLowerCase : string -> string;
}.

(** ** [MessageBroker] ([MessageBroker.ts]) *)

Module MessageBroker.
Section WithPlatform.
Context {P : Platform}.

(** [broadcast(message)]; the call is also entered in [outbox]. *)
Definition broadcast (message : TeacherMessage) : Js Server unit :=
  let json := JSON_stringify message in
  modify (record_broadcast message) ;;;
  ConnectionManager.broadcast json.

Definition sendConnected (clientId sessionId : string)
    (teacherName : option string) (now : Z) : Js Server unit :=
  let message := ConnectedMessage now sessionId teacherName in
  ConnectionManager.sendToClient clientId (JSON_stringify message) ;;; ret tt.

Definition broadcastFileUpdate (f : FileInfo)
    (cursorPosition : option CursorPosition) (now : Z) : Js Server unit :=
  broadcast (FileUpdateMessage now f cursorPosition).

Definition broadcastFileSwitch (f : FileInfo)
    (cursorPosition : option CursorPosition) (now : Z) : Js Server unit :=
  broadcast (FileSwitchMessage now f cursorPosition).

Definition broadcastStats (now : Z) : Js Server unit :=
  n <- ConnectionManager.getConnectionCount ;;
  broadcast (StatsMessage now n).

Definition broadcastServerClosing (reason : string) (now : Z) : Js Server unit :=
  broadcast (ServerClosingMessage now reason).

Definition sendPong (clientId : string) (now : Z) : Js Server unit :=
  ConnectionManager.sendToClient clientId (JSON_stringify (PongMessage now)) ;;;
  ret tt.

(** [JSON.parse(rawMessage)] as a computation. *)
Definition parse (rawMessage : string) : Js Server Json :=
  match JSON_parse rawMessage with
  | Some v => ret v
  | None => throw "SyntaxError"
  end.

Fixpoint lookup_field (k : string) (fields : list (string * Json)) : option Json :=
  match fields with
  | [] => None
  | (k', v) :: rest => if String.eqb k k' then Some v else lookup_field k rest
  end.

(** [message.type]: reading a property of [null] throws, an object
    yields the property or [undefined] ([None]), and any other value has
    no such property. *)
Definition get_type (message : Json) : Js Server (option Json) :=
  match message with
  | JNull => throw "TypeError"
  | JObject fields => ret (lookup_field "type" fields)
  | _ => ret None
  end.

(** [switch (message.type)] compares with [===]. *)
Definition is_type (t : MessageType) (v : option Json) : bool :=
  match v with
  | Some (JString s) => String.eqb s (MessageType_value t)
  | _ => false
  end.

Definition handleStudentMessage (clientId rawMessage : string) (now : Z)
    : Js Server unit :=
  try_catch
    (message <- parse rawMessage ;;
     ty <- get_type message ;;
     if is_type PING ty then
       ConnectionManager.updatePing clientId now ;;;
       sendPong clientId now
     else if is_type AUTH ty then ret tt
     else modify (log (LogWarn "Unknown message type from client" clientId)))
    (fun _ => modify (log (LogError "Error parsing message from client" clientId))).

End WithPlatform.
End MessageBroker.

(** ** The acceptance path of [WebSocketServer] *)

Record SessionConfig : Type := mkSessionConfig {
  cfg_sessionId : string;
  cfg_token : option string;
  cfg_port : Z;
  cfg_startTime : Z;
}.

Module WebSocketServer.
Section WithPlatform.
Context {P : Platform}.

(** [handleWebSocketConnection(ws, req)].  [sessionConfig] is the field
    of the same name, which the method only reads; [clientId] and [now]
    are what [nanoid()] and [Date.now()] return.  [!clientId] also holds
    of the empty string. *)
Definition handleWebSocketConnection (sessionConfig : option SessionConfig)
    (w : Handle) (clientId : string) (now : Z) : Js Server unit :=
  n <- ConnectionManager.getConnectionCount ;;
  if n >=? 50 then Ws.close w (Some 1008)
  else
    added <- ConnectionManager.addConnection w clientId now ;;
    match added with
    | None | Some EmptyString => Ws.close w (Some 1008)
    | Some clientId =>
        modify (log (LogInfo "New client connected" clientId)) ;;;
        match sessionConfig with
        | Some c => MessageBroker.sendConnected clientId (cfg_sessionId c) None now
        | None => ret tt
        end
    end.

(** The ['message'] handler registered for [clientId]. *)
Definition onMessage (requireAuth : bool) (clientId rawMessage : string)
    (now : Z) : Js Server unit :=
  try_catch
    (message <- MessageBroker.parse rawMessage ;;
     (if requireAuth then _ <- MessageBroker.get_type message ;; ret tt
      else ret tt) ;;;
     MessageBroker.handleStudentMessage clientId rawMessage now)
    (fun _ => modify (log (LogError "Error handling message from client" clientId))).

(** [stop()], up to the closing of the listeners: the grace period is
    the caller's to wait. *)
Definition stop_notify (now : Z) : Js Server bool :=
  n <- ConnectionManager.getConnectionCount ;;
  if n >? 0
  then MessageBroker.broadcastServerClosing "Server is shutting down" now ;;; ret true
  else ret false.

End WithPlatform.
End WebSocketServer.

(** ** [FileFilter] ([FileFilter.ts]) *)

(** The section [classroomSync.sync] of the settings.  A key the user has
    not set is [None]; [config.get(key, fallback)] is [get_or]. *)
Record SyncConfig : Type := mkSyncConfig {
  includePatterns_setting : option (list string);
  excludePatterns_setting : option (list string);
  maxFileSize_setting : option Z;
  debounceMs_setting : option Z;
}.

Definition get_or {A} (setting : option A) (fallback : A) : A :=
  match setting with
  | Some v => v
  | None => fallback
  end.

Module FileFilter.

Record t : Type := mk {
  includePatterns : list string;
  excludePatterns : list string;
  maxFileSize : Z;
}.

Definition defaultExcludePatterns : list string :=
  [ "**/.env"; "**/.env.*"; "**/node_modules/**"; "**/.git/**";
    "**/*.key"; "**/*.pem"; "**/*.p12"; "**/*.pfx";
    "**/credentials.json"; "**/.vscode/**" ].

Definition binaryExtensions : list string :=
  [ ".exe"; ".dll"; ".so"; ".dylib"; ".bin";
    ".png"; ".jpg"; ".jpeg"; ".gif"; ".bmp"; ".ico"; ".svg";
    ".pdf"; ".zip"; ".tar"; ".gz"; ".rar"; ".7z";
    ".mp3"; ".mp4"; ".avi"; ".mov"; ".wmv";
    ".woff"; ".woff2"; ".ttf"; ".eot";
    ".db"; ".sqlite"; ".sqlite3" ].

(** The field initialisers of the class. *)
Definition initial : t := mk [] [] 1048576.

Definition loadConfiguration (config : SyncConfig) (this : t) : t :=
  mk (get_or (includePatterns_setting config) [])
     (get_or (excludePatterns_setting config) defaultExcludePatterns)
     (get_or (maxFileSize_setting config) 1048576).

(** [new FileFilter()] *)
Definition create (config : SyncConfig) : t := loadConfiguration config initial.

(** [s.replace(/\\/g, '/')] *)
Fixpoint backslashes_to_slashes (s : string) : string :=
  match s with
  | EmptyString => EmptyString
  | String c s' =>
      String (if Ascii.eqb c "\"%char then "/"%char else c)
             (backslashes_to_slashes s')
  end.

Definition isFileSizeValid (fileSize : Z) (this : t) : bool :=
  fileSize <=? maxFileSize this.

Definition getExcludePatterns (this : t) : list string := excludePatterns this.
Definition getIncludePatterns (this : t) : list string := includePatterns this.
Definition getMaxFileSize (this : t) : Z := maxFileSize this.

Section WithPlatform.
Context {P : Platform}.

Definition isBinaryFile (filePath : string) : bool :=
  let ext := toLowerCase (path_extname filePath) in
  existsb (String.eqb ext) binaryExtensions.

(** The path the patterns are matched against. *)
Definition patternPath (filePath : string) (workspaceFolder : option string)
    : string :=
  let normalizedPath := path_normalize filePath in
  let relativePath :=
    match workspaceFolder with
    | Some folder => path_relative folder normalizedPath
    | None => normalizedPath
    end in
  backslashes_to_slashes relativePath.

(** The decision of [shouldSyncFile] once the configuration is loaded.
    [workspaceFolder] is [workspaceFolder.uri.fsPath], or [None] for
    [undefined]. *)
Definition decide (filePath : string) (workspaceFolder : option string)
    (this : t) : bool :=
  let normalizedPath := path_normalize filePath in
  let outside :=
    match workspaceFolder with
    | Some folder =>
        let workspacePath := path_normalize folder in
        negb (String.prefix workspacePath normalizedPath)
    | None => false
    end in
  if outside then false
  else
    let p := patternPath filePath workspaceFolder in
    if existsb (minimatch p) (excludePatterns this) then false
    else if (negb (Nat.eqb (List.length (includePatterns this)) 0)
             && negb (existsb (minimatch p) (includePatterns this)))%bool
    then false
    else if isBinaryFile filePath then false
    else true.

(** [shouldSyncFile(filePath, workspaceFolder)]: the configuration is
    reloaded first, so the call also replaces the fields. *)
Definition shouldSyncFile (config : SyncConfig) (filePath : string)
    (workspaceFolder : option string) (this : t) : bool * t :=
  let this' := loadConfiguration config this in
  (decide filePath workspaceFolder this', this').

End WithPlatform.
End FileFilter.

(** ** [ContentProvider] ([ContentProvider.ts]) *)

(** A [vscode.TextDocument]: [uri] is [uri.toString()], [text] is
    [getText()], and [workspaceFolder] is what
    [vscode.workspace.getWorkspaceFolder(uri)] answers for it. *)
Record TextDocument : Type := mkTextDocument {
  uri : string;
  fsPath : string;
  doc_fileName : string;
  languageId : string;
  isUntitled : bool;
  isClosed : bool;
  text : string;
  workspaceFolder : option string;
}.

Definition set_text (new : string) (d : TextDocument) : TextDocument :=
  mkTextDocument (uri d) (fsPath d) (doc_fileName d) (languageId d)
                 (isUntitled d) (isClosed d) new (workspaceFolder d).

Module ContentProvider.

Definition languageMap : list (string * string) :=
  [ ("typescript", "typescript"); ("javascript", "javascript");
    ("typescriptreact", "typescript"); ("javascriptreact", "javascript");
    ("python", "python"); ("java", "java"); ("csharp", "csharp");
    ("cpp", "cpp"); ("c", "c"); ("html", "html"); ("css", "css");
    ("json", "json"); ("markdown", "markdown"); ("yaml", "yaml");
    ("xml", "xml"); ("shellscript", "bash"); ("powershell", "powershell");
    ("sql", "sql"); ("go", "go"); ("rust", "rust"); ("php", "php");
    ("ruby", "ruby"); ("swift", "swift"); ("kotlin", "kotlin");
    ("dart", "dart"); ("vue", "vue") ].

(** The own properties of [Object.prototype], each of them a function
    or, for [__proto__], an object: all of them truthy. *)
Definition objectPrototypeMembers : list string :=
  [ "constructor"; "__defineGetter__"; "__defineSetter__"; "hasOwnProperty";
    "__lookupGetter__"; "__lookupSetter__"; "isPrototypeOf";
    "propertyIsEnumerable"; "toString"; "valueOf"; "__proto__";
    "toLocaleString" ].

(** [table[key]] on an object literal with the entries [table]: an own
    entry, else an inherited member, else [undefined]. *)
Definition lookup (key : string) (table : list (string * string))
    : option Language :=
  match JsMap.get key table with
  | Some name => Some (LanguageName name)
  | None =>
      if existsb (String.eqb key) objectPrototypeMembers
      then Some (Inherited key)
      else None
  end.

(** [languageMap[languageId] || languageId || 'plaintext'] *)
Definition getLanguageName (languageId : string) : Language :=
  match lookup languageId languageMap with
  | Some found => found
  | None =>
      if String.eqb languageId EmptyString then LanguageName "plaintext"
      else LanguageName languageId
  end.

(** [getFileContent(document)]: none of the reads in its [try] block
    throws, so the answer is never [null]. *)
Definition getFileContent {P : Platform} (document : TextDocument)
    : option FileInfo :=
  Some (mkFileInfo (fsPath document) (path_basename (doc_fileName document))
                   (getLanguageName (languageId document)) (text document)).

Definition extMap : list (string * string) :=
  [ (".ts", "typescript"); (".tsx", "typescript"); (".js", "javascript");
    (".jsx", "javascript"); (".py", "python"); (".java", "java");
    (".cs", "csharp"); (".cpp", "cpp"); (".cc", "cpp"); (".cxx", "cpp");
    (".c", "c"); (".h", "c"); (".html", "html"); (".htm", "html");
    (".css", "css"); (".json", "json"); (".md", "markdown");
    (".yaml", "yaml"); (".yml", "yaml"); (".xml", "xml"); (".sh", "bash");
    (".bash", "bash"); (".ps1", "powershell"); (".sql", "sql"); (".go", "go");
    (".rs", "rust"); (".php", "php"); (".rb", "ruby"); (".swift", "swift");
    (".kt", "kotlin"); (".dart", "dart"); (".vue", "vue") ].

(** [getLanguageFromExtension(filePath)]: [extMap[ext] || 'plaintext']. *)
Definition getLanguageFromExtension {P : Platform} (filePath : string)
    : Language :=
  let ext := toLowerCase (path_extname filePath) in
  match lookup ext extMap with
  | Some found => found
  | None => LanguageName "plaintext"
  end.

End ContentProvider.

(** ** [FileSyncManager] ([MessageBroker.ts]) and the editor around it *)

Definition DocRef := nat.
Definition EditorRef := nat.
Definition TimerId := nat.

(** A [vscode.TextEditor]: its [document] and [selection.active]. *)
Record TextEditor : Type := mkTextEditor {
  document : option DocRef;
  selection_active : CursorPosition;
}.

(** The extension host as [FileSyncManager] sees it: the fields of the
    manager, the server it broadcasts through, the editor's documents,
    editors and settings, and the timers of the event loop.  [fired] is
    the history of the timers whose callback has run. *)
Record App : Type := mkApp {
  server : Server;
  fileFilter : FileFilter.t;
  activeEditor : option EditorRef;
  currentDocument : option DocRef;
  debounceTimer : option TimerId;
  subscribed : bool;
  docs : DocRef -> TextDocument;
  editors : EditorRef -> TextEditor;
  config : SyncConfig;
  now : Z;
  timers : list (TimerId * Z);
  nextTimer : TimerId;
  fired : list TimerId;
}.

Definition set_server (x : Server) (a : App) : App :=
  mkApp x (fileFilter a) (activeEditor a) (currentDocument a) (debounceTimer a)
        (subscribed a) (docs a) (editors a) (config a) (now a) (timers a)
        (nextTimer a) (fired a).

Definition set_fileFilter (x : FileFilter.t) (a : App) : App :=
  mkApp (server a) x (activeEditor a) (currentDocument a) (debounceTimer a)
        (subscribed a) (docs a) (editors a) (config a) (now a) (timers a)
        (nextTimer a) (fired a).

Definition set_activeEditor (x : option EditorRef) (a : App) : App :=
  mkApp (server a) (fileFilter a) x (currentDocument a) (debounceTimer a)
        (subscribed a) (docs a) (editors a) (config a) (now a) (timers a)
        (nextTimer a) (fired a).

Definition set_currentDocument (x : option DocRef) (a : App) : App :=
  mkApp (server a) (fileFilter a) (activeEditor a) x (debounceTimer a)
        (subscribed a) (docs a) (editors a) (config a) (now a) (timers a)
        (nextTimer a) (fired a).

Definition set_debounceTimer (x : option TimerId) (a : App) : App :=
  mkApp (server a) (fileFilter a) (activeEditor a) (currentDocument a) x
        (subscribed a) (docs a) (editors a) (config a) (now a) (timers a)
        (nextTimer a) (fired a).

Definition set_subscribed (x : bool) (a : App) : App :=
  mkApp (server a) (fileFilter a) (activeEditor a) (currentDocument a)
        (debounceTimer a) x (docs a) (editors a) (config a) (now a) (timers a)
        (nextTimer a) (fired a).

Definition set_docs (x : DocRef -> TextDocument) (a : App) : App :=
  mkApp (server a) (fileFilter a) (activeEditor a) (currentDocument a)
        (debounceTimer a) (subscribed a) x (editors a) (config a) (now a)
        (timers a) (nextTimer a) (fired a).

Definition set_config (x : SyncConfig) (a : App) : App :=
  mkApp (server a) (fileFilter a) (activeEditor a) (currentDocument a)
        (debounceTimer a) (subscribed a) (docs a) (editors a) x (now a)
        (timers a) (nextTimer a) (fired a).

Definition set_now (x : Z) (a : App) : App :=
  mkApp (server a) (fileFilter a) (activeEditor a) (currentDocument a)
        (debounceTimer a) (subscribed a) (docs a) (editors a) (config a) x
        (timers a) (nextTimer a) (fired a).

Definition set_timer_queue (q : list (TimerId * Z)) (n : TimerId) (a : App) : App :=
  mkApp (server a) (fileFilter a) (activeEditor a) (currentDocument a)
        (debounceTimer a) (subscribed a) (docs a) (editors a) (config a) (now a)
        q n (fired a).

Definition set_fired (x : list TimerId) (a : App) : App :=
  mkApp (server a) (fileFilter a) (activeEditor a) (currentDocument a)
        (debounceTimer a) (subscribed a) (docs a) (editors a) (config a) (now a)
        (timers a) (nextTimer a) x.

(** A server-side computation run inside the extension host. *)
Definition liftServer {A} (m : Js Server A) : Js App A :=
  fun a => let (r, s') := m (server a) in (r, set_server s' a).

Module Timers.
(** Node's [TIMEOUT_MAX]. *)
Definition TIMEOUT_MAX : Z := 2147483647.

(** The delay a timer gets: [if (!(after >= 1 && after <= TIMEOUT_MAX))
    after = 1]. *)
Definition delay (ms : Z) : Z :=
  if ((1 <=? ms) && (ms <=? TIMEOUT_MAX))%bool then ms else 1.

(** [setTimeout(cb, ms)]: the callback becomes due [delay ms] after the
    call.  The only callback this code schedules is the debounce
    callback, so the queue holds identifiers and due times. *)
Definition setTimeout (ms : Z) : Js App TimerId :=
  fun a => (Normal (nextTimer a),
            set_timer_queue (timers a ++ [(nextTimer a, now a + delay ms)])
                            (S (nextTimer a)) a).

(** [clearTimeout(id)]: nothing happens for a timer that is not pending. *)
Definition clearTimeout (tid : TimerId) : Js App unit :=
  modify (fun a => set_timer_queue
            (filter (fun t => negb (Nat.eqb (fst t) tid)) (timers a))
            (nextTimer a) a).

(** The pending timer that is due first; the older one on a tie. *)
Fixpoint earliest (q : list (TimerId * Z)) : option (TimerId * Z) :=
  match q with
  | [] => None
  | t :: q' =>
      match earliest q' with
      | Some t' => if snd t' <? snd t then Some t' else Some t
      | None => Some t
      end
  end.
End Timers.

Module FileSyncManager.
Section WithPlatform.
Context {P : Platform}.

Definition create (srv : Server) (cfg : SyncConfig)
    (ds : DocRef -> TextDocument) (es : EditorRef -> TextEditor) (t0 : Z) : App :=
  mkApp srv (FileFilter.create cfg) None None None false ds es cfg t0 [] O [].

Definition console_error (about : string) : Js App unit :=
  liftServer (modify (log (LogError about EmptyString))).

(** [shouldSyncFile(document)] *)
Definition shouldSyncFile (d : DocRef) : Js App bool :=
  a <- get ;;
  let doc := docs a d in
  if isUntitled doc then ret false
  else if isClosed doc then ret false
  else
    let (ok, ff) := FileFilter.shouldSyncFile (config a) (fsPath doc)
                      (workspaceFolder doc) (fileFilter a) in
    modify (set_fileFilter ff) ;;;
    if negb ok then ret false
    else
      let fileSize := Z.of_nat (String.length (text doc)) in
      if negb (FileFilter.isFileSizeValid fileSize ff) then ret false
      else ret true.

(** The cursor of [this.activeEditor], if there is one. *)
Definition cursorPosition : Js App (option CursorPosition) :=
  a <- get ;;
  ret (match activeEditor a with
       | Some e => Some (selection_active (editors a e))
       | None => None
       end).

Definition syncFileSwitch (d : DocRef) : Js App unit :=
  ok <- shouldSyncFile d ;;
  if negb ok then ret tt
  else
    try_catch
      (a <- get ;;
       match ContentProvider.getFileContent (docs a d) with
       | None => ret tt
       | Some fileInfo =>
           cursor <- cursorPosition ;;
           liftServer (MessageBroker.broadcastFileSwitch fileInfo cursor (now a))
       end)
      (fun _ => console_error "Error syncing file switch").

Definition syncFileUpdate (d : DocRef) : Js App unit :=
  ok <- shouldSyncFile d ;;
  if negb ok then ret tt
  else
    try_catch
      (a <- get ;;
       match ContentProvider.getFileContent (docs a d) with
       | None => ret tt
       | Some fileInfo =>
           cursor <- cursorPosition ;;
           liftServer (MessageBroker.broadcastFileUpdate fileInfo cursor (now a))
       end)
      (fun _ => console_error "Error syncing file update").

(** [if (this.debounceTimer) { clearTimeout(this.debounceTimer); }] *)
Definition clearDebounce : Js App unit :=
  a <- get ;;
  match debounceTimer a with
  | Some tid => Timers.clearTimeout tid
  | None => ret tt
  end.

(** [this.currentDocument?.uri.toString() !== document.uri.toString()] *)
Definition differs (a : App) (d : DocRef) : bool :=
  match currentDocument a with
  | Some cur => negb (String.eqb (uri (docs a cur)) (uri (docs a d)))
  | None => true
  end.

Definition handleEditorChange (editor : option EditorRef) : Js App unit :=
  modify (set_activeEditor editor) ;;;
  a <- get ;;
  match editor with
  | None => ret tt
  | Some e =>
      match document (editors a e) with
      | None => ret tt
      | Some d =>
          (match debounceTimer a with
           | Some tid =>
               Timers.clearTimeout tid ;;; modify (set_debounceTimer None)
           | None => ret tt
           end) ;;;
          a <- get ;;
          if differs a d then
            modify (set_currentDocument (Some d)) ;;;
            syncFileSwitch d
          else ret tt
      end
  end.

(** [handleDocumentChange(event)], with [event.document] and
    [event.contentChanges.length]. *)
Definition handleDocumentChange (d : DocRef) (contentChanges : nat) : Js App unit :=
  a <- get ;;
  match currentDocument a with
  | None => ret tt
  | Some cur =>
      if negb (String.eqb (uri (docs a d)) (uri (docs a cur))) then ret tt
      else if Nat.eqb contentChanges 0 then ret tt
      else
        clearDebounce ;;;
        let debounceMs := get_or (debounceMs_setting (config a)) 500 in
        tid <- Timers.setTimeout debounceMs ;;
        modify (set_debounceTimer (Some tid))
  end.

(** The callback given to [setTimeout]:
    [await this.syncFileUpdate(this.currentDocument!)]. *)
Definition debounceCallback : Js App unit :=
  a <- get ;;
  match currentDocument a with
  | Some d => syncFileUpdate d
  | None => throw "TypeError"
  end.

(** The [onDidChangeConfiguration] listener of [start]. *)
Definition handleConfigurationChange (affectsSync : bool) : Js App unit :=
  if affectsSync then
    modify (fun a => set_fileFilter
              (FileFilter.loadConfiguration (config a) (fileFilter a)) a) ;;;
    a <- get ;;
    match currentDocument a with
    | Some d => syncFileSwitch d
    | None => ret tt
    end
  else ret tt.

Definition start (activeTextEditor : option EditorRef) : Js App unit :=
  modify (set_subscribed true) ;;;
  match activeTextEditor with
  | Some e => handleEditorChange (Some e)
  | None => ret tt
  end.

Definition stop : Js App unit :=
  a <- get ;;
  (match debounceTimer a with
   | Some tid => Timers.clearTimeout tid ;;; modify (set_debounceTimer None)
   | None => ret tt
   end) ;;;
  modify (set_subscribed false) ;;;
  modify (set_activeEditor None) ;;;
  modify (set_currentDocument None).

Definition syncCurrentFile : Js App unit :=
  a <- get ;;
  match currentDocument a with
  | Some d => syncFileSwitch d
  | None => ret tt
  end.

Definition dispose : Js App unit := stop.

End WithPlatform.
End FileSyncManager.

(** ** The events the server and the extension host react to *)

(** Everything that can happen to the server side: the socket and
    interval events whose handlers the code registers, direct calls of the
    public methods, and a change of a socket made by the network. *)
Inductive ServerOp : Type :=
| OpAccept (sessionConfig : option SessionConfig) (w : Handle) (clientId : string)
| OpMessage (requireAuth : bool) (clientId rawMessage : string)
| OpPong (clientId : string)
| OpClose (clientId : string)
| OpError (clientId : string)
| OpPingTick
| OpTimeoutTick
| OpAddConnection (w : Handle) (clientId : string)
| OpRemoveConnection (clientId : string)
| OpBroadcast (message : string)
| OpSendToClient (clientId message : string)
| OpUpdatePing (clientId : string)
| OpBrokerBroadcast (message : TeacherMessage)
| OpBroadcastStats
| OpStopNotify
| OpDisconnectAll
| OpSocketChange (h : Handle) (w : WebSocket).

(** Everything that can happen to [FileSyncManager]: the three editor
    events it subscribes to, calls of its public methods, a cursor move,
    and a server-side event. *)
Inductive Input : Type :=
| DidChangeActiveTextEditor (editor : option EditorRef)
| DidChangeTextDocument (d : DocRef) (newText : string) (contentChanges : nat)
| DidChangeConfiguration (new : SyncConfig) (affectsSync : bool)
| DidChangeSelection (e : EditorRef) (pos : CursorPosition)
| CallStart (activeTextEditor : option EditorRef)
| CallStop
| CallSyncCurrentFile
| ServerEvent (op : ServerOp).

Module EventLoop.
Section WithPlatform.
Context {P : Platform}.

Definition void {S A} (m : Js S A) : Js S unit := m ;;; ret tt.

Definition runOp (now : Z) (op : ServerOp) : Js Server unit :=
  match op with
  | OpAccept sc w clientId =>
      WebSocketServer.handleWebSocketConnection sc w clientId now
  | OpMessage requireAuth clientId raw =>
      WebSocketServer.onMessage requireAuth clientId raw now
  | OpPong clientId => ConnectionManager.onPong clientId now
  | OpClose clientId => ConnectionManager.onClose clientId
  | OpError clientId => ConnectionManager.onError clientId
  | OpPingTick =>
      s <- get ;;
      if pingTimer s then ConnectionManager.pingTick else ret tt
  | OpTimeoutTick =>
      s <- get ;;
      if timeoutTimer s then ConnectionManager.timeoutTick now else ret tt
  | OpAddConnection w clientId =>
      void (ConnectionManager.addConnection w clientId now)
  | OpRemoveConnection clientId =>
      void (ConnectionManager.removeConnection clientId)
  | OpBroadcast message => ConnectionManager.broadcast message
  | OpSendToClient clientId message =>
      void (ConnectionManager.sendToClient clientId message)
  | OpUpdatePing clientId => ConnectionManager.updatePing clientId now
  | OpBrokerBroadcast message => MessageBroker.broadcast message
  | OpBroadcastStats => MessageBroker.broadcastStats now
  | OpStopNotify => void (WebSocketServer.stop_notify now)
  | OpDisconnectAll => ConnectionManager.disconnectAll
  | OpSocketChange h w =>
      modify (fun s => set_sockets (update_socket h w (sockets s)) s)
  end.

(** The server after a sequence of timed events. *)
Fixpoint runOps (ops : list (Z * ServerOp)) (s : Server) : Server :=
  match ops with
  | [] => s
  | (now, op) :: rest => runOps rest (exec (runOp now op) s)
  end.

Definition set_editor_cursor (e : EditorRef) (pos : CursorPosition)
    (es : EditorRef -> TextEditor) : EditorRef -> TextEditor :=
  fun e' => if Nat.eqb e' e then mkTextEditor (document (es e)) pos else es e'.

Definition set_doc_text (d : DocRef) (new : string)
    (ds : DocRef -> TextDocument) : DocRef -> TextDocument :=
  fun d' => if Nat.eqb d' d then set_text new (ds d) else ds d'.

(** An event first changes the editor, then reaches the listener, if
    the manager is subscribed. *)
Definition dispatch (i : Input) : Js App unit :=
  match i with
  | DidChangeActiveTextEditor editor =>
      a <- get ;;
      if subscribed a then FileSyncManager.handleEditorChange editor else ret tt
  | DidChangeTextDocument d newText n =>
      modify (fun a => set_docs (set_doc_text d newText (docs a)) a) ;;;
      a <- get ;;
      if subscribed a then FileSyncManager.handleDocumentChange d n else ret tt
  | DidChangeConfiguration new affectsSync =>
      modify (set_config new) ;;;
      a <- get ;;
      if subscribed a then FileSyncManager.handleConfigurationChange affectsSync
      else ret tt
  | DidChangeSelection e pos =>
      modify (fun a => mkApp (server a) (fileFilter a) (activeEditor a)
                (currentDocument a) (debounceTimer a) (subscribed a) (docs a)
                (set_editor_cursor e pos (editors a)) (config a) (now a)
                (timers a) (nextTimer a) (fired a))
  | CallStart active => FileSyncManager.start active
  | CallStop => FileSyncManager.stop
  | CallSyncCurrentFile => FileSyncManager.syncCurrentFile
  | ServerEvent op => a <- get ;; liftServer (runOp (now a) op)
  end.

Definition remove_timer (tid : TimerId) (q : list (TimerId * Z)) :=
  filter (fun t => negb (Nat.eqb (fst t) tid)) q.

(** Run the callbacks of the timers that are due at [t], the earliest
    first.  A callback runs at its due time, or at the present if that
    is later; it schedules no further timer, so as many rounds as there
    are pending timers suffice. *)
Fixpoint fireDue (rounds : nat) (t : Z) (a : App) : App :=
  match rounds with
  | O => a
  | S rounds' =>
      match Timers.earliest (timers a) with
      | Some (tid, due) =>
          if due <=? t then
            let a1 := set_timer_queue (remove_timer tid (timers a)) (nextTimer a) a in
            let a2 := set_now (Z.max (now a1) due) a1 in
            let a3 := set_fired (fired a2 ++ [tid]) a2 in
            fireDue rounds' t (exec FileSyncManager.debounceCallback a3)
          else a
      | None => a
      end
  end.

(** Let the clock reach [t]. *)
Definition advance (t : Z) (a : App) : App :=
  let a' := fireDue (List.length (timers a)) t a in
  set_now (Z.max (now a') t) a'.

(** One turn of the loop: the event [i] arrives at time [t]. *)
Definition step (t : Z) (i : Input) (a : App) : App :=
  exec (dispatch i) (advance t a).

Fixpoint run (inputs : list (Z * Input)) (a : App) : App :=
  match inputs with
  | [] => a
  | (t, i) :: rest => run rest (step t i a)
  end.

End WithPlatform.
End EventLoop.

(** ** [NetworkUtils] *)

Module NetworkUtils.

(** [net.family] is a string in some versions of Node and a number in
    others. *)
Inductive Family : Type :=
| FamilyName (name : string)
| FamilyNumber (n : Z).

Record NetworkInterfaceInfo : Type := mkNet {
  family : Family;
  internal : bool;
  address : string;
}.

(** [net.family === 'IPv4' || net.family === 4] *)
Definition isIPv4 (net : NetworkInterfaceInfo) : bool :=
  match family net with
  | FamilyName name => String.eqb name "IPv4"
  | FamilyNumber n => n =? 4
  end.

(** The inner loop of [getLocalNetworkIP]. *)
Fixpoint firstExternal (nets : list NetworkInterfaceInfo) : option string :=
  match nets with
  | [] => None
  | net :: rest =>
      if (isIPv4 net && negb (internal net))%bool then Some (address net)
      else firstExternal rest
  end.

(** [getLocalNetworkIP()], over what [networkInterfaces()] returns: the
    names in the order of [Object.keys], each with its list of addresses
    or [undefined]. *)
Fixpoint getLocalNetworkIP
    (interfaces : list (string * option (list NetworkInterfaceInfo)))
    : option string :=
  match interfaces with
  | [] => None
  | (_, None) :: rest => getLocalNetworkIP rest
  | (_, Some nets) :: rest =>
      match firstExternal nets with
      | Some a => Some a
      | None => getLocalNetworkIP rest
      end
  end.

Record ConnectionUrls : Type := mkUrls {
  wsUrl : string;
  httpUrl : string;
  wsLocalUrl : string;
  httpLocalUrl : string;
}.

(** [formatConnectionUrls(port, localIP)]; [show] writes the port as a
    template literal does, and [if (localIP)] fails for [null] and for
    the empty string. *)
Definition formatConnectionUrls (show : Z -> string) (port : Z)
    (localIP : option string) : ConnectionUrls :=
  let httpLocalUrl := ("http://localhost:" ++ show port)%string in
  let wsLocalUrl := ("ws://localhost:" ++ show port)%string in
  match localIP with
  | Some (String c rest) =>
      let ip := String c rest in
      mkUrls ("ws://" ++ ip ++ ":" ++ show port)%string
             ("http://" ++ ip ++ ":" ++ show port)%string
             wsLocalUrl httpLocalUrl
  | _ => mkUrls wsLocalUrl httpLocalUrl wsLocalUrl httpLocalUrl
  end.

End NetworkUtils.

(** ** [StatusBarManager] ([MessageBroker.ts]) *)

Module StatusBar.

Inductive Mode : Type := TEACHER | STUDENT | INACTIVE.

(** The [vscode.StatusBarItem] the manager owns; a colour is the id of
    its [ThemeColor]. *)
Record Item : Type := mkItem {
  text : string;
  tooltip : option string;
  command : option string;
  backgroundColor : option string;
  visible : bool;
}.

Record t : Type := mk {
  statusBarItem : Item;
  currentMode : Mode;
  connectionCount : Z;
  isConnected : bool;
}.

Definition set_item (i : Item) (this : t) : t :=
  mk i (currentMode this) (connectionCount this) (isConnected this).

Section WithShow.
(** How a template literal writes a number. *)
Variable show : Z -> string.

Definition updateStatusBar (this : t) : t :=
  let shown := visible (statusBarItem this) in
  match currentMode this with
  | TEACHER =>
      let txt :=
        if connectionCount this =? 0
        then "$(broadcast) Classroom: No Students"
        else
          let plural := if connectionCount this =? 1 then "Student"
                        else "Students" in
          ("$(broadcast) Classroom: " ++ show (connectionCount this)
             ++ " " ++ plural)%string in
      set_item (mkItem txt (Some "Click to show connection info")
                       (Some "classroomSync.teacher.showConnection") None shown)
               this
  | STUDENT =>
      if isConnected this then
        set_item (mkItem "$(vm-connect) Classroom: Connected"
                    (Some "Connected to teacher - Click to disconnect")
                    (Some "classroomSync.student.disconnect")
                    (Some "statusBarItem.prominentBackground") shown) this
      else
        set_item (mkItem "$(vm-outline) Classroom: Disconnected"
                    (Some "Click to connect to a teaching session")
                    (Some "classroomSync.student.connect") None shown) this
  | INACTIVE =>
      set_item (mkItem "$(broadcast) Classroom Sync"
                  (Some "Start a teaching session or connect as student")
                  None None shown) this
  end.

(** [new StatusBarManager()]: a fresh item, rendered and shown. *)
Definition create : t :=
  let this := updateStatusBar
                (mk (mkItem EmptyString None None None false) INACTIVE 0 false) in
  let i := statusBarItem this in
  set_item (mkItem (text i) (tooltip i) (command i) (backgroundColor i) true) this.

Definition setMode (mode : Mode) (this : t) : t :=
  updateStatusBar
    (mk (statusBarItem this) mode (connectionCount this) (isConnected this)).

Definition setConnectionCount (count : Z) (this : t) : t :=
  let this := mk (statusBarItem this) (currentMode this) count (isConnected this) in
  match currentMode this with
  | TEACHER => updateStatusBar this
  | _ => this
  end.

Definition setConnected (connected : bool) (this : t) : t :=
  let this := mk (statusBarItem this) (currentMode this) (connectionCount this)
                 connected in
  match currentMode this with
  | STUDENT => updateStatusBar this
  | _ => this
  end.

Definition showError (message : string) (this : t) : t :=
  let i := statusBarItem this in
  set_item (mkItem ("$(error) Classroom: " ++ message)%string (tooltip i) None
                   (Some "statusBarItem.errorBackground") (visible i)) this.

Definition showLoading (message : string) (this : t) : t :=
  let i := statusBarItem this in
  set_item (mkItem ("$(loading~spin) " ++ message)%string (tooltip i) None None
                   (visible i)) this.

(** The calls the extension makes on its status bar. *)
Inductive Call : Type :=
| SetMode (mode : Mode)
| SetConnectionCount (count : Z)
| SetConnected (connected : bool)
| ShowError (message : string)
| ShowLoading (message : string).

Definition call (c : Call) (this : t) : t :=
  match c with
  | SetMode mode => setMode mode this
  | SetConnectionCount count => setConnectionCount count this
  | SetConnected connected => setConnected connected this
  | ShowError message => showError message this
  | ShowLoading message => showLoading message this
  end.

Definition calls (cs : list Call) (this : t) : t :=
  fold_left (fun st c => call c st) cs this.

End WithShow.
End StatusBar.

(** Decimal numerals, for evaluating what prints a number. *)
Definition show_decimal (z : Z) : string :=
  NilZero.string_of_int (Z.to_int z).

(** ** A reference platform

    An instance of [Platform] on which the model can be evaluated: POSIX
    paths as [path.posix] treats them (with [/] as working directory), a
    matcher for the glob forms of the default exclude set ([**], [*], [?]
    and literals), and a JSON reader and writer for the [type] member
    alone.  The general statements below do not depend on it. *)

Module Reference.
Local Open Scope string_scope.

Fixpoint split (s : string) : list string :=
  match s with
  | EmptyString => [EmptyString]
  | String c s' =>
      if Ascii.eqb c "/"%char then EmptyString :: split s'
      else match split s' with
           | x :: xs => String c x :: xs
           | [] => [String c EmptyString]
           end
  end.

Definition nonempty (s : string) : bool := negb (String.eqb s EmptyString).

Definition segments (p : string) : list string := filter nonempty (split p).

Fixpoint join (l : list string) : string :=
  match l with
  | [] => EmptyString
  | [x] => x
  | x :: rest => x ++ "/" ++ join rest
  end.

Definition isAbsolute (p : string) : bool := String.prefix "/" p.

Fixpoint last_char (s : string) : option ascii :=
  match s with
  | EmptyString => None
  | String c EmptyString => Some c
  | String _ s' => last_char s'
  end.

Definition hasTrailingSlash (p : string) : bool :=
  match last_char p with
  | Some c => Ascii.eqb c "/"%char
  | None => false
  end.

(** Resolve [.] and [..]; [stack] is the path so far, innermost first. *)
Fixpoint resolveDots (abs : bool) (segs stack : list string) : list string :=
  match segs with
  | [] => rev stack
  | seg :: rest =>
      if String.eqb seg "." then resolveDots abs rest stack
      else if String.eqb seg ".." then
        match stack with
        | top :: stack' =>
            if String.eqb top ".." then resolveDots abs rest (seg :: stack)
            else resolveDots abs rest stack'
        | [] => if abs then resolveDots abs rest []
                else resolveDots abs rest [seg]
        end
      else resolveDots abs rest (seg :: stack)
  end.

Definition normalize (p : string) : string :=
  if String.eqb p EmptyString then "."
  else
    let abs := isAbsolute p in
    let body := join (resolveDots abs (segments p) []) in
    let body := if String.eqb body EmptyString
                then (if abs then EmptyString else ".")
                else if hasTrailingSlash p then body ++ "/" else body in
    if abs then "/" ++ body else body.

(** The segments of [path.resolve(p)]. *)
Definition resolved (p : string) : list string :=
  resolveDots true (segments p) [].

Fixpoint dropCommon (xs ys : list string) : list string * list string :=
  match xs, ys with
  | x :: xs', y :: ys' =>
      if String.eqb x y then dropCommon xs' ys' else (xs, ys)
  | _, _ => (xs, ys)
  end.

Definition relative (from to : string) : string :=
  let (up, down) := dropCommon (resolved from) (resolved to) in
  join (map (fun _ => "..") up ++ down)%list.

Definition basename (p : string) : string := last (segments p) EmptyString.

(** The text from the last dot of [s] on, if a dot occurs after the
    first character. *)
Fixpoint fromLastDot (s : string) : option string :=
  match s with
  | EmptyString => None
  | String c s' =>
      match fromLastDot s' with
      | Some e => Some e
      | None => if Ascii.eqb c "."%char then Some s else None
      end
  end.

Definition extname (p : string) : string :=
  match basename p with
  | EmptyString => EmptyString
  | String c rest =>
      if String.eqb (String c rest) ".." then EmptyString
      else match fromLastDot rest with
           | Some e => e
           | None => EmptyString
           end
  end.

Definition lower (c : ascii) : ascii :=
  let n := nat_of_ascii c in
  if (Nat.leb 65 n && Nat.leb n 90)%bool then ascii_of_nat (n + 32) else c.

Fixpoint lowercase (s : string) : string :=
  match s with
  | EmptyString => EmptyString
  | String c s' => String (lower c) (lowercase s')
  end.

(** One path segment against one pattern segment. *)
Fixpoint wild (pat : list ascii) : list ascii -> bool :=
  match pat with
  | [] => fun s => match s with [] => true | _ => false end
  | c :: pat' =>
      if Ascii.eqb c "*"%char then
        fix star (s : list ascii) : bool :=
          (wild pat' s || match s with [] => false | _ :: s' => star s' end)%bool
      else
        fun s => match s with
                 | [] => false
                 | d :: s' =>
                     ((Ascii.eqb c "?"%char || Ascii.eqb c d) && wild pat' s')%bool
                 end
  end.

Definition dots (seg : string) : bool :=
  (String.eqb seg "." || String.eqb seg "..")%bool.

(** Segments against pattern segments; [**] spans any number of
    segments other than [.] and [..]. *)
Fixpoint globSegments (pats : list string) : list string -> bool :=
  match pats with
  | [] => fun segs => match segs with [] => true | _ => false end
  | pat :: pats' =>
      if String.eqb pat "**" then
        fix span (segs : list string) : bool :=
          (globSegments pats' segs
           || match segs with
              | [] => false
              | seg :: segs' => negb (dots seg) && span segs'
              end)%bool
      else
        fun segs => match segs with
                    | [] => false
                    | seg :: segs' =>
                        (wild (list_ascii_of_string pat) (list_ascii_of_string seg)
                         && globSegments pats' segs')%bool
                    end
  end.

Definition glob (path pattern : string) : bool :=
  globSegments (segments pattern) (segments path).

Definition dq : string := String "034"%char EmptyString.

Definition typeOnly (tag : string) : string :=
  "{" ++ dq ++ "type" ++ dq ++ ":" ++ dq ++ tag ++ dq ++ "}".

Definition stringify (m : TeacherMessage) : string :=
  typeOnly (MessageType_value (type_of m)).

Definition knownTags : list string :=
  (map MessageType_value
       [CONNECTED; FILE_UPDATE; FILE_SWITCH; STATS; SERVER_CLOSING; AUTH; PING; PONG]
   ++ ["hello"])%list.

(** Reads [null], [{}] and [{"type":tag}] for the tags above; anything
    else is taken to be malformed. *)
Definition parse (raw : string) : option Json :=
  if String.eqb raw "null" then Some JNull
  else if String.eqb raw "{}" then Some (JObject [])
  else match find (fun tag => String.eqb raw (typeOnly tag)) knownTags with
       | Some tag => Some (JObject [("type", JString tag)])
       | None => None
       end.

#[export] Instance platform : Platform := {
  JSON_parse := parse;
  JSON_stringify := stringify;
  minimatch := glob;
  path_normalize := normalize;
  path_relative := relative;
  path_extname := extname;
  path_basename := basename;
  toLowerCase := lowercase;
}.

End Reference.

(** ** Vocabulary of the statements *)

(** The table holds at most [maxConnections] entries. *)
Definition within_capacity (s : Server) : Prop :=
  JsMap.size (connections s) <= ConnectionManager.maxConnections.

(** No key occurs twice, as in any [Map]. *)
Definition keys_unique (s : Server) : Prop :=
  NoDup (JsMap.keys (connections s)).

(** A connection is live when its socket is [OPEN]. *)
Definition live (socks : Handle -> WebSocket) (c : ClientConnection) : bool :=
  ReadyState_eqb (readyState (socks (ws c))) OPEN.

(** The one call of [send] that [broadcast] makes on a live connection. *)
Definition attempt (socks : Handle -> WebSocket) (message : string)
    (c : ClientConnection) : WireEvent :=
  if sendThrows (socks (ws c)) then WSendThrow (ws c) message
  else WSend (ws c) message.

(** The payload reached the socket: it was open and [send] returned. *)
Definition delivered (socks : Handle -> WebSocket) (c : ClientConnection) : bool :=
  (live socks c && negb (sendThrows (socks (ws c))))%bool.

Definition is_close (e : WireEvent) : Prop :=
  match e with
  | WClose _ _ => True
  | _ => False
  end.

Definition is_send_on (h : Handle) (e : WireEvent) : Prop :=
  match e with
  | WSend h' _ | WSendThrow h' _ => h' = h
  | _ => False
  end.

(** [s'] has no more entries than [s], and unique keys if [s] has. *)
Definition shrink (s s' : Server) : Prop :=
  (List.length (connections s') <= List.length (connections s))%nat /\
  (keys_unique s -> keys_unique s').

Definition shrinking {A} (m : Js Server A) : Prop :=
  forall s, shrink s (snd (m s)).

(** The [type] member of a parsed value, where reading it does not throw. *)
Definition type_field (v : Json) : option Json :=
  match v with
  | JObject fields => MessageBroker.lookup_field "type" fields
  | _ => None
  end.

(** A parsed message that the [switch] sends to its [default] branch. *)
Definition unhandled (v : Json) : Prop :=
  v <> JNull /\
  MessageBroker.is_type PING (type_field v) = false /\
  MessageBroker.is_type AUTH (type_field v) = false.

(** *** The sync engine *)

(** [a'] is [a] but for the server and the loaded filter. *)
Definition frame (a a' : App) : Prop :=
  a' = set_fileFilter (fileFilter a') (set_server (server a') a).

Definition framed {A} (m : Js App A) : Prop :=
  forall a, frame a (snd (m a)).

(** The document passes [FileSyncManager.shouldSyncFile] under the
    settings [cfg]. *)
Definition eligible {P : Platform} (cfg : SyncConfig) (doc : TextDocument) : bool :=
  (negb (isUntitled doc) && negb (isClosed doc)
   && fst (FileFilter.shouldSyncFile cfg (fsPath doc) (workspaceFolder doc)
             FileFilter.initial)
   && FileFilter.isFileSizeValid (Z.of_nat (String.length (text doc)))
        (FileFilter.loadConfiguration cfg FileFilter.initial))%bool.

(** What [getFileContent] reads from a document. *)
Definition fileInfo_of {P : Platform} (doc : TextDocument) : FileInfo :=
  mkFileInfo (fsPath doc) (path_basename (doc_fileName doc))
             (ContentProvider.getLanguageName (languageId doc)) (text doc).

Definition cursor_of (a : App) : option CursorPosition :=
  match activeEditor a with
  | Some e => Some (selection_active (editors a e))
  | None => None
  end.

Definition debounceMs_of (a : App) : Z :=
  get_or (debounceMs_setting (config a)) 500.

(** An edit of a burst: when it happens, the text it leaves, and one
    less than the number of its content changes. *)
Definition Edit : Type := Z * string * nat.
Definition edit_time (e : Edit) : Z := fst (fst e).
Definition edit_text (e : Edit) : string := snd (fst e).

Definition edit_input (d : DocRef) (e : Edit) : Z * Input :=
  (edit_time e, DidChangeTextDocument d (edit_text e) (S (snd e))).

(** Each edit of [rest] comes less than [D] after the one before it, the
    first of them after [t]. *)
Fixpoint within_window (D : Z) (t : Z) (rest : list Edit) : Prop :=
  match rest with
  | [] => True
  | e :: rest' =>
      t <= edit_time e /\ edit_time e - t < D /\ within_window D (edit_time e) rest'
  end.



(** Every pending timer was handed out by [setTimeout]. *)
Definition timers_known (a : App) : Prop :=
  forall t, In t (timers a) -> (fst t < nextTimer a)%nat.

(** The state after
    [if (this.debounceTimer) { clearTimeout(..); this.debounceTimer = undefined; }]. *)
Definition cancel_debounce (a : App) : App :=
  match debounceTimer a with
  | Some tid =>
      set_debounceTimer None
        (set_timer_queue (EventLoop.remove_timer tid (timers a)) (nextTimer a) a)
  | None => a
  end.

(** From [a] to [a'] no timer fires, and a timer pending in [a'] was
    pending in [a] or was handed out since. *)
Definition timer_safe (a a' : App) : Prop :=
  (nextTimer a <= nextTimer a')%nat /\
  (forall t, In t (timers a') ->
             In t (timers a) \/ (nextTimer a <= fst t < nextTimer a')%nat) /\
  fired a' = fired a.

Definition safe {A} (m : Js App A) : Prop :=
  forall a, timer_safe a (snd (m a)).

(** In [a] the edit made at time [t], which left [txt] in document [d],
    waits for its debounce timer, and nothing has been broadcast since
    [a0]. *)
Definition armed (a0 a : App) (d : DocRef) (t : Z) (txt : string) : Prop :=
  exists tid,
    timers a = [(tid, t + Timers.delay (debounceMs_of a0))] /\
    debounceTimer a = Some tid /\
    now a = t /\
    currentDocument a = Some d /\
    subscribed a = true /\
    config a = config a0 /\
    activeEditor a = activeEditor a0 /\
    editors a = editors a0 /\
    outbox (server a) = outbox (server a0) /\
    docs a d = set_text txt (docs a0 d).

(** At most one timer is pending, and it is the one the manager
    remembers. *)
Definition one_timer (a : App) : Prop :=
  timers a = [] \/
  exists tid due, timers a = [(tid, due)] /\ debounceTimer a = Some tid.

(** *** Further vocabulary for the connection table *)

(** Every entry is stored under its own [id]. *)
Definition ids_match_in (m : JsMap.t ClientConnection) : Prop :=
  forall k c, In (k, c) m -> id c = k.

Definition ids_match (s : Server) : Prop := ids_match_in (connections s).

(** [m] keeps the property [Q] of the table. *)
Definition keeps (Q : JsMap.t ClientConnection -> Prop) {A}
    (m : Js Server A) : Prop :=
  forall s, Q (connections s) -> Q (connections (snd (m s))).

(** An entry after a probe it was alive for. *)
Definition probed (kc : string * ClientConnection) : string * ClientConnection :=
  (fst kc, set_isAlive false (snd kc)).

Definition alive (kc : string * ClientConnection) : bool := isAlive (snd kc).

(** The entry has been silent for more than the timeout at [now]. *)
Definition timed_out (now : Z) (kc : string * ClientConnection) : bool :=
  now - lastPing (snd kc) >? ConnectionManager.timeoutInterval.

(** *** Further vocabulary for the filter, the display and the loop *)

(** The answer of [FileFilter.shouldSyncFile] under the settings [cfg]. *)
Definition shares {P : Platform} (cfg : SyncConfig) (filePath : string)
    (workspaceFolder : option string) (this : FileFilter.t) : bool :=
  fst (FileFilter.shouldSyncFile cfg filePath workspaceFolder this).

(** The lists [loadConfiguration] puts in force. *)
Definition excludes_of (cfg : SyncConfig) : list string :=
  get_or (excludePatterns_setting cfg) FileFilter.defaultExcludePatterns.

Definition includes_of (cfg : SyncConfig) : list string :=
  get_or (includePatterns_setting cfg) [].

Definition has_backslash (s : string) : Prop :=
  In "\"%char (list_ascii_of_string s).

(** What [replace(/\\/g, '/')] does to one character. *)
Definition slash_for_backslash (c : ascii) : ascii :=
  if Ascii.eqb c "\"%char then "/"%char else c.

(** No string occurs twice in the list. *)
Fixpoint distinct (l : list string) : bool :=
  match l with
  | [] => true
  | x :: rest => (negb (existsb (String.eqb x) rest) && distinct rest)%bool
  end.

(** An address [getLocalNetworkIP] may answer with. *)
Definition external_IPv4 (net : NetworkUtils.NetworkInterfaceInfo) : bool :=
  (NetworkUtils.isIPv4 net && negb (NetworkUtils.internal net))%bool.

(** All addresses, in the order the loops visit them. *)
Definition all_addresses
    (interfaces : list (string * option (list NetworkUtils.NetworkInterfaceInfo)))
    : list NetworkUtils.NetworkInterfaceInfo :=
  flat_map (fun entry => match snd entry with
                         | Some nets => nets
                         | None => []
                         end) interfaces.

(** The item shows what the fields of the manager render to. *)
Definition rendered (show : Z -> string) (this : StatusBar.t) : Prop :=
  StatusBar.updateStatusBar show this = this.

Definition is_setter (c : StatusBar.Call) : Prop :=
  match c with
  | StatusBar.ShowError _ | StatusBar.ShowLoading _ => False
  | _ => True
  end.

(** An event of the editor, as opposed to a call of the manager or an
    event of the server. *)
Definition is_editor_event (i : Input) : Prop :=
  match i with
  | DidChangeActiveTextEditor _ | DidChangeTextDocument _ _ _
  | DidChangeConfiguration _ _ | DidChangeSelection _ _ => True
  | _ => False
  end.

(** While a timer is pending a document is tracked. *)
Definition tracked_while_pending (a : App) : Prop :=
  timers a = [] \/ exists d, currentDocument a = Some d.

(** ** Sample states

    A server with three connections: [a] on an open socket whose [send]
    throws, [b] on a closed socket, [c] on an open socket that works. *)

Definition sample_sockets : Handle -> WebSocket :=
  fun h => match h with
           | 1%nat => mkWebSocket OPEN true
           | 2%nat => mkWebSocket CLOSED false
           | _ => mkWebSocket OPEN false
           end.

Definition sample_conn (k : string) (h : Handle) : string * ClientConnection :=
  (k, mkClientConnection k h 0 0 true).

Definition sample_server : Server :=
  mkServer [sample_conn "a" 1%nat; sample_conn "b" 2%nat; sample_conn "c" 3%nat]
           true true sample_sockets [] [] [].

(** A server whose table is full: fifty connections on open sockets. *)
Definition full_server : Server :=
  mkServer (map (fun n => sample_conn (String (ascii_of_nat n) EmptyString) n)
                (seq 1 50))
           true true (fun _ => mkWebSocket OPEN false) [] [] [].

(** Fifty-two sockets arriving one after another, each under its own
    id. *)
Definition sample_arrivals : list (Handle * string) :=
  map (fun n => (n, String (ascii_of_nat n) EmptyString)) (seq 1 52).

(** An editor with four documents, [.env] the third and an untitled
    one the fourth, and five editors: editors 0 and 2 both show
    document 0. *)
Definition sample_docs : DocRef -> TextDocument :=
  fun d => match d with
           | 0%nat => mkTextDocument "file:///ws/a.ts" "/ws/a.ts" "/ws/a.ts"
                        "typescript" false false "a" (Some "/ws")
           | 1%nat => mkTextDocument "file:///ws/b.ts" "/ws/b.ts" "/ws/b.ts"
                        "typescript" false false "b" (Some "/ws")
           | 2%nat => mkTextDocument "file:///ws/.env" "/ws/.env" "/ws/.env"
                        "properties" false false "KEY=1" (Some "/ws")
           | _ => mkTextDocument "untitled:Untitled-1" "Untitled-1" "Untitled-1"
                        "plaintext" true false EmptyString None
           end.

Definition sample_editors : EditorRef -> TextEditor :=
  fun e => match e with
           | 0%nat => mkTextEditor (Some 0%nat) (mkCursor 0 0)
           | 1%nat => mkTextEditor (Some 1%nat) (mkCursor 0 0)
           | 2%nat => mkTextEditor (Some 0%nat) (mkCursor 3 1)
           | 3%nat => mkTextEditor (Some 2%nat) (mkCursor 0 0)
           | _ => mkTextEditor (Some 3%nat) (mkCursor 0 0)
           end.

Definition default_settings : SyncConfig := mkSyncConfig None None None None.

(** The manager started on editor 0, and then with one edit of
    document 0 at time 10 still waiting for its debounce timer. *)
Definition sample_tracking : App :=
  exec (FileSyncManager.start (P := Reference.platform) (Some 0%nat))
       (FileSyncManager.create sample_server
          default_settings sample_docs sample_editors 0).

Definition sample_pending : App :=
  EventLoop.step (P := Reference.platform) 10
    (DidChangeTextDocument 0%nat "ab" 1) sample_tracking.

(** The same, started on the editor that shows [.env]. *)
Definition sample_secret : App :=
  exec (FileSyncManager.start (P := Reference.platform) (Some 3%nat))
       (FileSyncManager.create sample_server
          default_settings sample_docs sample_editors 0).

(** * Properties *)

Unset Implicit Arguments.

(** ** The [Map] operations *)

Section JsMapFacts.
Variable V : Type.
Implicit Types (m : JsMap.t V) (k : string) (v : V).

Lemma get_set_same k v m : JsMap.get k (JsMap.set k v m) = Some v.
Proof.
  induction m as [|[k' v'] m IH]; simpl.
  - now rewrite String.eqb_refl.
  - destruct (String.eqb k k') eqn:E; simpl; rewrite E; auto.
Qed.

Lemma get_set_other k k' v m :
  k <> k' -> JsMap.get k' (JsMap.set k v m) = JsMap.get k' m.
Proof.
  intros Hne. induction m as [|[k0 v0] m IH]; simpl.
  - destruct (String.eqb k' k) eqn:E; auto.
    apply String.eqb_eq in E. congruence.
  - destruct (String.eqb k k0) eqn:E; simpl.
    + apply String.eqb_eq in E. subst k0.
      destruct (String.eqb k' k) eqn:E'; auto.
      apply String.eqb_eq in E'. congruence.
    + now rewrite IH.
Qed.

Lemma length_set_present k v v0 m :
  JsMap.get k m = Some v0 -> List.length (JsMap.set k v m) = List.length m.
Proof.
  induction m as [|[k' v'] m IH]; simpl; [discriminate|].
  destruct (String.eqb k k'); simpl; auto.
Qed.

Lemma length_set_le k v m :
  (List.length (JsMap.set k v m) <= S (List.length m))%nat.
Proof.
  induction m as [|[k' v'] m IH]; simpl; [lia|].
  destruct (String.eqb k k'); simpl; lia.
Qed.

Lemma length_delete_le k m :
  (List.length (JsMap.delete k m) <= List.length m)%nat.
Proof.
  induction m as [|[k' v'] m IH]; simpl; [lia|].
  destruct (String.eqb k k'); simpl; lia.
Qed.

Lemma keys_set_present k v v0 m :
  JsMap.get k m = Some v0 -> JsMap.keys (JsMap.set k v m) = JsMap.keys m.
Proof.
  unfold JsMap.keys.
  induction m as [|[k' v'] m IH]; simpl; [discriminate|].
  destruct (String.eqb k k') eqn:E; simpl; auto.
  intros H. now rewrite IH.
Qed.

Lemma get_None_not_key k m :
  JsMap.get k m = None -> ~ In k (JsMap.keys m).
Proof.
  unfold JsMap.keys.
  induction m as [|[k' v'] m IH]; simpl; [tauto|].
  destruct (String.eqb k k') eqn:E; [discriminate|].
  apply String.eqb_neq in E. intros H [H1|H1]; [congruence|].
  now apply IH.
Qed.

Lemma keys_set_absent k v m :
  JsMap.get k m = None -> JsMap.keys (JsMap.set k v m) = JsMap.keys m ++ [k].
Proof.
  unfold JsMap.keys.
  induction m as [|[k' v'] m IH]; simpl; [reflexivity|].
  destruct (String.eqb k k') eqn:E; [discriminate|]. simpl.
  intros H. now rewrite IH.
Qed.

Lemma NoDup_keys_set k v m :
  NoDup (JsMap.keys m) -> NoDup (JsMap.keys (JsMap.set k v m)).
Proof.
  intros Hnd. destruct (JsMap.get k m) eqn:E.
  - now rewrite (keys_set_present _ _ _ _ E).
  - rewrite (keys_set_absent _ _ _ E).
    apply NoDup_app; [assumption| constructor; [tauto| constructor] |].
    intros x Hx [Heq|[]]. subst x.
    now apply (get_None_not_key _ _ E).
Qed.

Lemma In_delete k kv m : In kv (JsMap.delete k m) -> In kv m.
Proof.
  induction m as [|[k' v'] m IH]; simpl; [tauto|].
  destruct (String.eqb k k'); simpl; intuition.
Qed.

Lemma NoDup_keys_delete k m :
  NoDup (JsMap.keys m) -> NoDup (JsMap.keys (JsMap.delete k m)).
Proof.
  unfold JsMap.keys.
  induction m as [|[k' v'] m IH]; simpl; [auto|].
  intros Hnd. inversion Hnd as [|? ? Hnot Hrest]; subst.
  destruct (String.eqb k k'); simpl; [assumption|].
  constructor; [|auto].
  intros Hin. apply Hnot. apply in_map_iff in Hin as [[k0 v0] [Hk Hin]].
  simpl in Hk. subst k0. apply in_map_iff. exists (k', v0). split; [reflexivity|].
  eapply In_delete; eauto.
Qed.

(** With unique keys, [delete] removes exactly the entries of the key. *)
Lemma delete_filter k m :
  NoDup (JsMap.keys m) ->
  JsMap.delete k m = filter (fun kv => negb (String.eqb k (fst kv))) m.
Proof.
  unfold JsMap.keys.
  induction m as [|[k' v'] m IH]; simpl; [auto|].
  intros Hnd. inversion Hnd as [|? ? Hnot Hrest]; subst.
  destruct (String.eqb k k') eqn:E; simpl.
  - apply String.eqb_eq in E. subst k'.
    symmetry. apply forallb_filter_id.
    apply forallb_forall. intros [k0 v0] Hin. simpl.
    destruct (String.eqb k k0) eqn:E0; [|reflexivity].
    apply String.eqb_eq in E0. subst k0. exfalso. apply Hnot.
    apply in_map_iff. now exists (k, v0).
  - now rewrite IH.
Qed.

Lemma get_In k v m :
  NoDup (JsMap.keys m) -> In (k, v) m -> JsMap.get k m = Some v.
Proof.
  unfold JsMap.keys.
  induction m as [|[k' v'] m IH]; simpl; [tauto|].
  intros Hnd. inversion Hnd as [|? ? Hnot Hrest]; subst.
  intros [Heq|Hin].
  - inversion Heq; subst. now rewrite String.eqb_refl.
  - destruct (String.eqb k k') eqn:E.
    + apply String.eqb_eq in E. subst k'. exfalso. apply Hnot.
      apply in_map_iff. now exists (k, v).
    + auto.
Qed.

Lemma get_Some_In k v m : JsMap.get k m = Some v -> In (k, v) m.
Proof.
  induction m as [|[k' v'] m IH]; simpl; [discriminate|].
  destruct (String.eqb k k') eqn:E.
  - apply String.eqb_eq in E. subst k'. intros H. inversion H. now left.
  - intros H. right. auto.
Qed.

Lemma get_delete_same k m :
  NoDup (JsMap.keys m) -> JsMap.get k (JsMap.delete k m) = None.
Proof.
  intros Hnd. destruct (JsMap.get k (JsMap.delete k m)) eqn:E; [|reflexivity].
  apply get_Some_In in E. rewrite (delete_filter _ _ Hnd) in E.
  apply filter_In in E as [_ E]. simpl in E.
  now rewrite String.eqb_refl in E.
Qed.

End JsMapFacts.

(** ** [ConnectionManager] *)

Ltac js_unfold :=
  unfold ConnectionManager.removeConnection, ConnectionManager.addConnection,
    ConnectionManager.sendToClient, ConnectionManager.updatePing,
    ConnectionManager.onPong, ConnectionManager.onClose,
    ConnectionManager.onError, ConnectionManager.getConnectionCount,
    ConnectionManager.broadcast_cb, ConnectionManager.stopHeartbeat,
    Ws.isOpen, Ws.getReadyState, Ws.send, Ws.close, Ws.ping,
    try_catch, bind, ret, get, modify, throw, exec, result in *.

Section ConnectionManagerFacts.
Import ConnectionManager.

(** What [removeConnection] does, case by case. *)
Lemma removeConnection_absent clientId s :
  JsMap.get clientId (connections s) = None ->
  removeConnection clientId s = (Normal false, s).
Proof. intros H. js_unfold. now rewrite H. Qed.

Lemma removeConnection_present clientId c s :
  JsMap.get clientId (connections s) = Some c ->
  exists s',
    removeConnection clientId s = (Normal true, s') /\
    connections s' = JsMap.delete clientId (connections s) /\
    pingTimer s' = pingTimer s /\ timeoutTimer s' = timeoutTimer s /\
    console s' = console s /\ outbox s' = outbox s /\
    wire s' = wire s ++ (if live (sockets s) c then [WClose (ws c) None] else []).
Proof.
  intros H. js_unfold. rewrite H. unfold live. simpl.
  destruct (readyState (sockets s (ws c))) eqn:E; simpl; rewrite ?E; simpl;
    eexists; (split; [reflexivity|]); simpl; rewrite ?app_nil_r; tauto.
Qed.

(** [removeConnection] always returns, never grows the table, and
    touches the sockets only to close them. *)
Lemma removeConnection_frame clientId s :
  exists b s' closes,
    removeConnection clientId s = (Normal b, s') /\
    (List.length (connections s') <= List.length (connections s))%nat /\
    (keys_unique s -> keys_unique s') /\
    (forall kv, In kv (connections s') -> In kv (connections s)) /\
    pingTimer s' = pingTimer s /\ timeoutTimer s' = timeoutTimer s /\
    console s' = console s /\ outbox s' = outbox s /\
    wire s' = wire s ++ closes /\ Forall is_close closes.
Proof.
  destruct (JsMap.get clientId (connections s)) as [c|] eqn:E.
  - destruct (removeConnection_present _ _ _ E)
      as (s' & Hrun & Hc & Hp & Ht & Hl & Ho & Hw).
    exists true, s', (if live (sockets s) c then [WClose (ws c) None] else []).
    unfold keys_unique. rewrite Hc.
    repeat split; auto using length_delete_le, NoDup_keys_delete.
    + intros kv. apply In_delete.
    + destruct (live (sockets s) c); repeat constructor.
  - exists false, s, []. rewrite (removeConnection_absent _ _ E).
    rewrite app_nil_r. repeat split; auto.
Qed.

Lemma removeAll_frame dead : forall s,
  exists s' closes,
    removeAll dead s = (Normal tt, s') /\
    (List.length (connections s') <= List.length (connections s))%nat /\
    (keys_unique s -> keys_unique s') /\
    (forall kv, In kv (connections s') -> In kv (connections s)) /\
    pingTimer s' = pingTimer s /\ timeoutTimer s' = timeoutTimer s /\
    console s' = console s /\ outbox s' = outbox s /\
    wire s' = wire s ++ closes /\ Forall is_close closes.
Proof.
  induction dead as [|k dead IH]; intros s.
  - exists s, []. simpl. unfold ret. rewrite app_nil_r. repeat split; auto.
  - destruct (removeConnection_frame k s)
      as (b & s1 & cl1 & Hrun & Hlen & Hu & Hin & Hp & Ht & Hl & Ho & Hw & Hcl).
    destruct (IH s1)
      as (s2 & cl2 & Hrun2 & Hlen2 & Hu2 & Hin2 & Hp2 & Ht2 & Hl2 & Ho2 & Hw2 & Hcl2).
    exists s2, (cl1 ++ cl2). simpl. unfold bind at 1. rewrite Hrun, Hrun2.
    repeat split; try congruence; auto; try lia.
    + rewrite Hw2, Hw. now rewrite app_assoc.
    + apply Forall_app. now split.
Qed.

(** With unique keys, [removeAll] leaves the entries whose key is not
    in the list. *)
Lemma removeAll_connections dead : forall s,
  keys_unique s ->
  connections (snd (removeAll dead s)) =
  filter (fun kv => negb (existsb (String.eqb (fst kv)) dead)) (connections s).
Proof.
  induction dead as [|k dead IH]; intros s Hu.
  - simpl. symmetry. apply forallb_filter_id. now apply forallb_forall.
  - simpl. unfold bind at 1.
    destruct (removeConnection_frame k s)
      as (b & s1 & cl1 & Hrun & _ & Hu1 & _).
    rewrite Hrun. rewrite IH by auto.
    assert (Hc : connections s1 =
                 filter (fun kv => negb (String.eqb k (fst kv))) (connections s)).
    { destruct (JsMap.get k (connections s)) as [c|] eqn:E.
      - destruct (removeConnection_present _ _ _ E) as (s' & Hrun' & Hc & _).
        rewrite Hrun in Hrun'. inversion Hrun'; subst s'.
        rewrite Hc. now apply delete_filter.
      - rewrite (removeConnection_absent _ _ E) in Hrun.
        inversion Hrun; subst s1. symmetry. apply forallb_filter_id.
        apply forallb_forall. intros [k0 v0] Hin. simpl.
        destruct (String.eqb k k0) eqn:E0; [|reflexivity].
        apply String.eqb_eq in E0. subst k0.
        rewrite (get_In _ _ _ _ Hu Hin) in E. discriminate. }
    rewrite Hc. clear. induction (connections s) as [|[k0 v0] m IHm]; simpl; auto.
    rewrite (String.eqb_sym k0 k).
    destruct (String.eqb k k0); simpl; rewrite IHm; auto.
Qed.

End ConnectionManagerFacts.

Section BroadcastFacts.
Import ConnectionManager.

(** The delivery pass over the entries [es], each still in the table:
    one call of [send] for every live one, in order; the table and the
    sockets are as before; the keys of the others are collected. *)
Lemma forEachKey_deliver message : forall es s acc,
  (forall k c, In (k, c) es -> JsMap.get k (connections s) = Some c) ->
  exists s',
    forEachKey (map fst es) (broadcast_cb message) acc s =
      (Normal (acc ++ map fst (filter
                 (fun kc => negb (delivered (sockets s) (snd kc))) es)), s') /\
    connections s' = connections s /\ sockets s' = sockets s /\
    pingTimer s' = pingTimer s /\ timeoutTimer s' = timeoutTimer s /\
    outbox s' = outbox s /\
    wire s' = wire s ++ map (attempt (sockets s) message)
                            (filter (live (sockets s)) (map snd es)).
Proof.
  induction es as [|[k c] es IH]; intros s acc Hget.
  - exists s. simpl. unfold ret. rewrite !app_nil_r. tauto.
  - simpl. rewrite (Hget k c) by now left.
    assert (Hstep : exists s1 acc1,
      broadcast_cb message c k acc s = (Normal acc1, s1) /\
      acc1 = acc ++ (if delivered (sockets s) c then [] else [k]) /\
      connections s1 = connections s /\ sockets s1 = sockets s /\
      pingTimer s1 = pingTimer s /\ timeoutTimer s1 = timeoutTimer s /\
      outbox s1 = outbox s /\
      wire s1 = wire s ++ (if live (sockets s) c
                           then [attempt (sockets s) message c] else [])).
    { unfold delivered, live, attempt. js_unfold. simpl.
      destruct (ReadyState_eqb (readyState (sockets s (ws c))) OPEN); simpl.
      - destruct (sendThrows (sockets s (ws c))); simpl;
          do 2 eexists; (split; [reflexivity|]); simpl;
          rewrite ?app_nil_r; tauto.
      - do 2 eexists. split; [reflexivity|]. rewrite ?app_nil_r. tauto. }
    destruct Hstep as (s1 & acc1 & Hrun & Hacc & Hc & Hs & Hp & Ht & Ho & Hw).
    unfold bind at 1. rewrite Hrun.
    destruct (IH s1 acc1) as (s2 & Hrun2 & Hc2 & Hs2 & Hp2 & Ht2 & Ho2 & Hw2).
    { intros k' c' Hin. rewrite Hc. apply Hget. now right. }
    exists s2. rewrite Hrun2, Hs. subst acc1.
    repeat split; try congruence.
    + f_equal. f_equal. destruct (delivered (sockets s) c); simpl.
      * now rewrite app_nil_r.
      * now rewrite <- app_assoc.
    + rewrite Hw2, Hw, Hs. destruct (live (sockets s) c); simpl.
      * now rewrite <- app_assoc.
      * now rewrite app_nil_r.
Qed.

Lemma deliver_spec message s :
  keys_unique s ->
  exists s',
    deliver message s =
      (Normal (map fst (filter
                 (fun kc => negb (delivered (sockets s) (snd kc)))
                 (connections s))), s') /\
    connections s' = connections s /\ sockets s' = sockets s /\
    pingTimer s' = pingTimer s /\ timeoutTimer s' = timeoutTimer s /\
    outbox s' = outbox s /\
    wire s' = wire s ++ map (attempt (sockets s) message)
                            (filter (live (sockets s))
                                    (JsMap.values (connections s))).
Proof.
  intros Hu. unfold deliver, forEach, JsMap.keys, JsMap.values.
  apply (forEachKey_deliver message (connections s) s []).
  intros k c Hin. now apply get_In.
Qed.

(** The table after [broadcast]: the entries the payload reached. *)
Lemma broadcast_connections message s :
  keys_unique s ->
  connections (exec (broadcast message) s) =
  filter (fun kc => delivered (sockets s) (snd kc)) (connections s).
Proof.
  intros Hu. unfold exec, broadcast. unfold bind at 1.
  destruct (deliver_spec message s Hu) as (s1 & Hrun & Hc & Hs & _).
  rewrite Hrun. rewrite removeAll_connections
    by (unfold keys_unique; now rewrite Hc).
  rewrite Hc. clear - Hu. unfold keys_unique, JsMap.keys in Hu.
  induction (connections s) as [|[k c] m IH]; simpl; [reflexivity|].
  inversion Hu as [|? ? Hnot Hrest]; subst.
  destruct (delivered (sockets s) c) eqn:E; simpl.
  - assert (Hk : existsb (String.eqb k)
              (map fst (filter (fun kc => negb (delivered (sockets s) (snd kc))) m))
            = false).
    { apply not_true_is_false. intros Hex.
      apply existsb_exists in Hex as (k' & Hin & Heq).
      apply String.eqb_eq in Heq. subst k'.
      apply Hnot. apply in_map_iff in Hin as ([k0 c0] & Hk0 & Hin).
      apply filter_In in Hin as [Hin _]. simpl in Hk0. subst k0.
      apply in_map_iff. now exists (k, c0). }
    rewrite Hk. simpl. f_equal. now apply IH.
  - rewrite String.eqb_refl. simpl.
    rewrite <- IH by assumption.
    apply filter_ext_in. intros [k0 c0] Hin. simpl.
    destruct (String.eqb k0 k) eqn:E0; [|reflexivity].
    apply String.eqb_eq in E0. subst k0. exfalso. apply Hnot.
    apply in_map_iff. now exists (k, c0).
Qed.

End BroadcastFacts.

(** ** Broadcast and unicast *)

Lemma sample_server_keys_unique : keys_unique sample_server.
Proof.
  unfold keys_unique, sample_server. simpl.
  repeat constructor; simpl; intuition discriminate.
Qed.

(** The two phases of [broadcast]: the delivery pass, which leaves the
    table alone and collects the keys to drop, and the removals, which
    run on the state the completed pass leaves. *)
Lemma broadcast_two_phases (message : string) (s : Server) :
  keys_unique s ->
  exists s1 dead closes,
    ConnectionManager.deliver message s = (Normal dead, s1) /\
    connections s1 = connections s /\
    wire s1 = wire s ++ map (attempt (sockets s) message)
                            (filter (live (sockets s))
                                    (JsMap.values (connections s))) /\
    (forall k, In k dead <->
               exists c, In (k, c) (connections s) /\
                         delivered (sockets s) c = false) /\
    ConnectionManager.broadcast message s =
      ConnectionManager.removeAll dead s1 /\
    result (ConnectionManager.broadcast message) s = Normal tt /\
    wire (exec (ConnectionManager.broadcast message) s) = wire s1 ++ closes /\
    Forall is_close closes.
Proof.
  intros Hu.
  destruct (deliver_spec message s Hu) as (s1 & Hrun & Hc & Hs & Hp & Ht & Ho & Hw).
  destruct (removeAll_frame
              (map fst (filter (fun kc => negb (delivered (sockets s) (snd kc)))
                               (connections s))) s1)
    as (s2 & closes & Hrun2 & _ & _ & _ & _ & _ & _ & _ & Hw2 & Hcl).
  exists s1, (map fst (filter (fun kc => negb (delivered (sockets s) (snd kc)))
                              (connections s))), closes.
  assert (Hb : ConnectionManager.broadcast message s =
               ConnectionManager.removeAll
                 (map fst (filter (fun kc => negb (delivered (sockets s) (snd kc)))
                                  (connections s))) s1).
  { unfold ConnectionManager.broadcast. unfold bind at 1. now rewrite Hrun. }
  repeat split; auto.
  - intros Hin. apply in_map_iff in Hin as ([k0 c] & Hk & Hin).
    apply filter_In in Hin as [Hin Hd]. simpl in *. subst k0.
    exists c. split; [assumption|]. now apply negb_true_iff.
  - intros (c & Hin & Hd). apply in_map_iff. exists (k, c). split; [reflexivity|].
    apply filter_In. split; [assumption|]. simpl. now rewrite Hd.
  - unfold result. now rewrite Hb, Hrun2.
  - unfold exec. now rewrite Hb, Hrun2.
Qed.

(** C2. In every call of [broadcast] on a table (with unique keys, as in
    any [Map]) the delivery pass makes exactly one call of [send] with the
    payload on every connection whose socket is open at the start, in
    table order and whether or not other calls throw; the pass leaves the
    table as it was and only collects the keys of the connections whose
    delivery failed; the removals run on the state the completed pass
    leaves, so every [send] of the call precedes every [close]; and when
    the call returns, every connection whose delivery failed is gone
    from the table and every other connection is still there, in its
    place. *)
Theorem broadcast_delivers_before_removing (message : string) (s : Server) :
  keys_unique s ->
  exists s1 dead closes,
    ConnectionManager.deliver message s = (Normal dead, s1) /\
    connections s1 = connections s /\
    wire s1 = wire s ++ map (attempt (sockets s) message)
                            (filter (live (sockets s))
                                    (JsMap.values (connections s))) /\
    (forall k, In k dead <->
               exists c, In (k, c) (connections s) /\
                         delivered (sockets s) c = false) /\
    ConnectionManager.broadcast message s =
      ConnectionManager.removeAll dead s1 /\
    result (ConnectionManager.broadcast message) s = Normal tt /\
    wire (exec (ConnectionManager.broadcast message) s) = wire s1 ++ closes /\
    Forall is_close closes /\
    connections (exec (ConnectionManager.broadcast message) s)
      = filter (fun kc => delivered (sockets s) (snd kc)) (connections s) /\
    (forall k, In k dead ->
       JsMap.get k (connections (exec (ConnectionManager.broadcast message) s))
         = None) /\
    (forall k c, In (k, c) (connections s) ->
       delivered (sockets s) c = true ->
       JsMap.get k (connections (exec (ConnectionManager.broadcast message) s))
         = Some c).
Proof.
  intros Hu.
  destruct (broadcast_two_phases message s Hu)
    as (s1 & dead & closes & Hrun & Hc & Hw & Hdead & Hb & Hres & Hw2 & Hcl).
  pose proof (broadcast_connections message s Hu) as Hconn.
  assert (Hu' : NoDup (JsMap.keys
                  (connections (exec (ConnectionManager.broadcast message) s)))).
  { rewrite Hconn. clear - Hu. unfold keys_unique, JsMap.keys in *.
    induction (connections s) as [|[k c] m IH]; simpl; [constructor|].
    inversion Hu as [|? ? Hnot Hrest]; subst.
    destruct (delivered (sockets s) c); simpl; [|auto].
    constructor; [|auto]. intros Hin. apply Hnot.
    apply in_map_iff in Hin as ([k' c'] & Hk & Hin). simpl in Hk. subst k'.
    apply filter_In in Hin as [Hin _]. apply in_map_iff. now exists (k, c'). }
  exists s1, dead, closes.
  repeat (split; [assumption|]). split.
  - intros k Hin.
    destruct (JsMap.get k (connections (exec (ConnectionManager.broadcast message) s)))
      as [c'|] eqn:E; [|reflexivity].
    exfalso. apply get_Some_In in E. rewrite Hconn in E.
    apply filter_In in E as [Hin' Hd']. simpl in Hd'.
    apply Hdead in Hin as (c & Hinc & Hd).
    assert (c = c').
    { apply get_In in Hinc; [|exact Hu]. apply get_In in Hin'; [|exact Hu].
      congruence. }
    subst c'. congruence.
  - intros k c Hin Hd. apply get_In; [exact Hu'|].
    rewrite Hconn. apply filter_In. split; [exact Hin|exact Hd].
Qed.

Lemma broadcast_delivers_before_removing_witness :
  keys_unique sample_server /\
  exists s1 dead closes,
    ConnectionManager.deliver "m" sample_server = (Normal dead, s1) /\
    connections s1 = connections sample_server /\
    wire s1 = [WSendThrow 1%nat "m"; WSend 3%nat "m"] /\
    (forall k, In k dead <->
               exists c, In (k, c) (connections sample_server) /\
                         delivered sample_sockets c = false) /\
    ConnectionManager.broadcast "m" sample_server =
      ConnectionManager.removeAll dead s1 /\
    result (ConnectionManager.broadcast "m") sample_server = Normal tt /\
    wire (exec (ConnectionManager.broadcast "m") sample_server) = wire s1 ++ closes /\
    Forall is_close closes /\
    connections (exec (ConnectionManager.broadcast "m") sample_server)
      = [sample_conn "c" 3%nat] /\
    (forall k, In k dead ->
       JsMap.get k (connections (exec (ConnectionManager.broadcast "m")
                                      sample_server)) = None) /\
    (forall k c, In (k, c) (connections sample_server) ->
       delivered sample_sockets c = true ->
       JsMap.get k (connections (exec (ConnectionManager.broadcast "m")
                                      sample_server)) = Some c).
Proof.
  split; [exact sample_server_keys_unique|].
  exact (broadcast_delivers_before_removing "m" sample_server
           sample_server_keys_unique).
Defined.

(** C10. In every call of [broadcast] on a table with unique keys, a
    connection whose socket is not open gets no call of [send] and is gone
    from the table when the call returns; and every entry that remains was
    in the table at the start with an open socket on which [send] was
    called with the payload and returned. *)
Theorem broadcast_keeps_only_delivered (message : string) (s : Server) :
  keys_unique s ->
  exists events,
    wire (exec (ConnectionManager.broadcast message) s) = wire s ++ events /\
    (forall k c,
        In (k, c) (connections s) -> live (sockets s) c = false ->
        JsMap.get k (connections (exec (ConnectionManager.broadcast message) s)) = None /\
        forall e, In e events -> ~ is_send_on (ws c) e) /\
    (forall k c,
        In (k, c) (connections (exec (ConnectionManager.broadcast message) s)) ->
        In (k, c) (connections s) /\
        readyState (sockets s (ws c)) = OPEN /\
        sendThrows (sockets s (ws c)) = false /\
        In (WSend (ws c) message) events).
Proof.
  intros Hu.
  destruct (broadcast_two_phases message s Hu)
    as (s1 & dead & closes & Hrun & Hc & Hw & Hdead & Hb & Hres & Hw2 & Hcl).
  pose proof (broadcast_connections message s Hu) as Hconn.
  exists (map (attempt (sockets s) message)
              (filter (live (sockets s)) (JsMap.values (connections s))) ++ closes).
  split; [rewrite Hw2, Hw; now rewrite app_assoc|].
  split.
  - intros k c Hin Hlive. split.
    + destruct (JsMap.get k (connections (exec (ConnectionManager.broadcast message) s)))
        as [c'|] eqn:E; [|reflexivity].
      apply get_Some_In in E. rewrite Hconn in E.
      apply filter_In in E as [Hin' Hd]. simpl in Hd.
      pose proof (get_In _ _ _ _ Hu Hin) as G1.
      pose proof (get_In _ _ _ _ Hu Hin') as G2.
      rewrite G1 in G2. inversion G2; subst c'.
      unfold delivered in Hd. rewrite Hlive in Hd. discriminate.
    + intros e He Hsend. apply in_app_or in He as [He|He].
      * apply in_map_iff in He as (c' & He & Hin').
        apply filter_In in Hin' as [_ Hlive'].
        unfold attempt in He. unfold live in Hlive, Hlive'.
        destruct (sendThrows (sockets s (ws c'))); subst e; simpl in Hsend;
          rewrite Hsend in Hlive'; congruence.
      * rewrite Forall_forall in Hcl. specialize (Hcl e He).
        destruct e; simpl in *; tauto.
  - intros k c Hin. rewrite Hconn in Hin.
    apply filter_In in Hin as [Hin Hd]. simpl in Hd.
    unfold delivered, live in Hd. apply andb_true_iff in Hd as [Hopen Hok].
    apply negb_true_iff in Hok.
    repeat split; auto.
    + destruct (readyState (sockets s (ws c))); simpl in Hopen;
        congruence.
    + apply in_or_app. left. apply in_map_iff. exists c. split.
      * unfold attempt. now rewrite Hok.
      * apply filter_In. split; [|exact Hopen].
        unfold JsMap.values. apply in_map_iff. now exists (k, c).
Qed.

Lemma broadcast_keeps_only_delivered_witness :
  keys_unique sample_server /\
  exists events,
    wire (exec (ConnectionManager.broadcast "m") sample_server) =
      wire sample_server ++ events /\
    (forall k c,
        In (k, c) (connections sample_server) ->
        live (sockets sample_server) c = false ->
        JsMap.get k (connections (exec (ConnectionManager.broadcast "m") sample_server))
          = None /\
        forall e, In e events -> ~ is_send_on (ws c) e) /\
    (forall k c,
        In (k, c) (connections (exec (ConnectionManager.broadcast "m") sample_server)) ->
        In (k, c) (connections sample_server) /\
        readyState (sockets sample_server (ws c)) = OPEN /\
        sendThrows (sockets sample_server (ws c)) = false /\
        In (WSend (ws c) "m") events).
Proof.
  split; [exact sample_server_keys_unique|].
  exact (broadcast_keeps_only_delivered "m" sample_server
           sample_server_keys_unique).
Defined.

(** The sample: [a] and [b] are dropped, [c] stays. *)
Example broadcast_on_sample :
  JsMap.keys (connections (exec (ConnectionManager.broadcast "m") sample_server))
    = ["c"] /\
  wire (exec (ConnectionManager.broadcast "m") sample_server)
    = [WSendThrow 1%nat "m"; WSend 3%nat "m"; WClose 1%nat None].
Proof. split; reflexivity. Qed.

(** C8, as the code has it.  For a connection in the table (with unique
    keys): when the socket is open and [send] throws, [sendToClient] removes the connection and
    returns [false]; when the socket is open and [send] returns, it
    returns [true] and leaves the table as it was; and when the socket is
    not open no [send] is made, the result is [false] and nothing
    changes. *)
Theorem sendToClient_outcomes (clientId message : string)
    (c : ClientConnection) (s : Server) :
  keys_unique s ->
  JsMap.get clientId (connections s) = Some c ->
  (live (sockets s) c = true -> sendThrows (sockets s (ws c)) = true ->
     result (ConnectionManager.sendToClient clientId message) s = Normal false /\
     connections (exec (ConnectionManager.sendToClient clientId message) s)
       = JsMap.delete clientId (connections s) /\
     JsMap.get clientId
       (connections (exec (ConnectionManager.sendToClient clientId message) s))
       = None) /\
  (live (sockets s) c = true -> sendThrows (sockets s (ws c)) = false ->
     result (ConnectionManager.sendToClient clientId message) s = Normal true /\
     connections (exec (ConnectionManager.sendToClient clientId message) s)
       = connections s /\
     wire (exec (ConnectionManager.sendToClient clientId message) s)
       = wire s ++ [WSend (ws c) message]) /\
  (live (sockets s) c = false ->
     ConnectionManager.sendToClient clientId message s = (Normal false, s)).
Proof.
  intros Hu Hget. unfold live.
  split; [|split].
  - intros Hopen Hthrow.
    destruct (removeConnection_present clientId c
                (log (LogError "Error sending message to client" clientId)
                     (emit (WSendThrow (ws c) message) s)) Hget)
      as (s' & Hrun & Hc & _).
    assert (E : ConnectionManager.sendToClient clientId message s
                = (Normal false, s')).
    { unfold ConnectionManager.sendToClient, Ws.isOpen, Ws.getReadyState,
        Ws.send, try_catch, bind, ret, get, modify.
      rewrite Hget. simpl. rewrite Hopen, Hthrow. simpl.
      now rewrite Hrun. }
    unfold result, exec. rewrite E. simpl.
    repeat split; auto.
    rewrite Hc. simpl. now apply get_delete_same.
  - intros Hopen Hok. js_unfold. rewrite Hget. simpl. now rewrite Hopen, Hok.
  - intros Hclosed. js_unfold. rewrite Hget. simpl. now rewrite Hclosed.
Qed.

Lemma sendToClient_outcomes_witness :
  (result (ConnectionManager.sendToClient "a" "m") sample_server = Normal false /\
   JsMap.get "a" (connections (exec (ConnectionManager.sendToClient "a" "m")
                                    sample_server)) = None) /\
  (result (ConnectionManager.sendToClient "c" "m") sample_server = Normal true /\
   connections (exec (ConnectionManager.sendToClient "c" "m") sample_server)
     = connections sample_server) /\
  ConnectionManager.sendToClient "b" "m" sample_server
    = (Normal false, sample_server).
Proof.
  split; [|split].
  - destruct (sendToClient_outcomes "a" "m" _ sample_server
                sample_server_keys_unique eq_refl) as (Ha & _ & _).
    destruct (Ha eq_refl eq_refl) as (H1 & _ & H2). now split.
  - destruct (sendToClient_outcomes "c" "m" _ sample_server
                sample_server_keys_unique eq_refl) as (_ & Hc & _).
    destruct (Hc eq_refl eq_refl) as (H1 & H2 & _). now split.
  - destruct (sendToClient_outcomes "b" "m" _ sample_server
                sample_server_keys_unique eq_refl) as (_ & _ & Hb).
    exact (Hb eq_refl).
Defined.

(** C8, as stated, fails on a socket that is not open: connection [b]
    of [sample_server] is in the table on a closed socket; the unicast
    makes no call of [send], returns [false], and [b] is still in the
    table afterwards, with nothing closed or logged. *)
Lemma send_to_closed_socket_keeps_connection :
  JsMap.get "b" (connections sample_server) = Some (snd (sample_conn "b" 2%nat)) /\
  readyState (sockets sample_server 2%nat) = CLOSED /\
  result (ConnectionManager.sendToClient "b" "m") sample_server = Normal false /\
  JsMap.get "b"
    (connections (exec (ConnectionManager.sendToClient "b" "m") sample_server))
    = Some (snd (sample_conn "b" 2%nat)) /\
  wire (exec (ConnectionManager.sendToClient "b" "m") sample_server) = [] /\
  console (exec (ConnectionManager.sendToClient "b" "m") sample_server) = [].
Proof. repeat apply conj; vm_compute; reflexivity. Qed.

(** ** The router *)

Lemma sendToClient_returns clientId message s :
  exists b s', ConnectionManager.sendToClient clientId message s = (Normal b, s').
Proof.
  unfold ConnectionManager.sendToClient, Ws.isOpen, Ws.getReadyState,
    Ws.send, try_catch, bind, ret, get, modify.
  destruct (JsMap.get clientId (connections s)) as [c|]; [|eauto].
  simpl. destruct (ReadyState_eqb (readyState (sockets s (ws c))) OPEN); [|eauto].
  destruct (sendThrows (sockets s (ws c))); [|eauto]. simpl.
  destruct (removeConnection_frame clientId
              (log (LogError "Error sending message to client" clientId)
                   (emit (WSendThrow (ws c) message) s)))
    as (b & s' & cl & Hrun & _).
  rewrite Hrun. eauto.
Qed.

Section RouterFacts.
Context {P : Platform}.

Lemma updatePing_returns clientId now s :
  exists s', ConnectionManager.updatePing clientId now s = (Normal tt, s').
Proof.
  unfold ConnectionManager.updatePing, bind, get, modify, ret.
  destruct (JsMap.get clientId (connections s)); eauto.
Qed.

(** C9. [handleStudentMessage] returns normally on every input.  A
    payload that [JSON.parse] rejects, or that parses to [null], leaves
    the state as it was but for one error line in the log: table,
    sockets and traffic are untouched, nothing is closed.  A parsed
    message whose [type] is neither [ping] nor [auth] leaves the state
    as it was but for one warning line. *)
Theorem handleStudentMessage_never_raises (clientId rawMessage : string)
    (now : Z) (s : Server) :
  result (MessageBroker.handleStudentMessage clientId rawMessage now) s
    = Normal tt /\
  (JSON_parse rawMessage = None \/ JSON_parse rawMessage = Some JNull ->
   exec (MessageBroker.handleStudentMessage clientId rawMessage now) s
     = log (LogError "Error parsing message from client" clientId) s) /\
  (forall v, JSON_parse rawMessage = Some v -> unhandled v ->
   exec (MessageBroker.handleStudentMessage clientId rawMessage now) s
     = log (LogWarn "Unknown message type from client" clientId) s).
Proof.
  unfold MessageBroker.handleStudentMessage, MessageBroker.parse, result, exec.
  split; [|split].
  - unfold try_catch, bind at 1.
    destruct (JSON_parse rawMessage) as [v|]; [|reflexivity].
    unfold ret at 1. unfold bind at 1.
    destruct v; simpl; try reflexivity;
      try (destruct (MessageBroker.is_type PING _) eqn:E1;
           [|destruct (MessageBroker.is_type AUTH _); reflexivity]);
      try discriminate.
    unfold bind at 1.
    destruct (updatePing_returns clientId now s) as (s1 & H1). rewrite H1.
    unfold MessageBroker.sendPong, bind at 1.
    destruct (sendToClient_returns clientId (JSON_stringify (PongMessage now)) s1)
      as (b & s2 & H2).
    now rewrite H2.
  - intros [H|H]; rewrite H; reflexivity.
  - intros v Hv (Hnull & Hping & Hauth). rewrite Hv.
    unfold try_catch, bind, ret, MessageBroker.get_type, modify.
    destruct v; try congruence; simpl in *;
      try rewrite Hping; try rewrite Hauth; reflexivity.
Qed.

End RouterFacts.

Lemma handleStudentMessage_never_raises_witness :
  exec (MessageBroker.handleStudentMessage (P := Reference.platform)
          "a" "oops" 7) sample_server
    = log (LogError "Error parsing message from client" "a") sample_server /\
  exec (MessageBroker.handleStudentMessage (P := Reference.platform)
          "a" (Reference.typeOnly "hello") 7) sample_server
    = log (LogWarn "Unknown message type from client" "a") sample_server.
Proof.
  split.
  - destruct (handleStudentMessage_never_raises (P := Reference.platform)
                "a" "oops" 7 sample_server) as (_ & H & _).
    apply H. left. reflexivity.
  - destruct (handleStudentMessage_never_raises (P := Reference.platform)
                "a" (Reference.typeOnly "hello") 7 sample_server) as (_ & _ & H).
    apply (H (JObject [("type", JString "hello")])).
    + reflexivity.
    + unfold unhandled. split; [discriminate|split; reflexivity].
Defined.

(** ** The capacity of the table *)

Lemma shrink_refl s : shrink s s.
Proof. split; auto. Qed.

Lemma shrink_trans s1 s2 s3 : shrink s1 s2 -> shrink s2 s3 -> shrink s1 s3.
Proof. intros [H1 H2] [H3 H4]. split; [lia|auto]. Qed.

(** A step that leaves the table alone. *)
Lemma shrink_same_connections s s' :
  connections s' = connections s -> shrink s s'.
Proof. intros H. unfold shrink, keys_unique. rewrite H. auto. Qed.

Create HintDb shrink.
#[local] Hint Resolve shrink_refl shrink_same_connections : shrink.

Lemma shrinking_ret {A} (a : A) : shrinking (ret a).
Proof. intros s. apply shrink_refl. Qed.

Lemma shrinking_bind {A B} (m : Js Server A) (k : A -> Js Server B) :
  shrinking m -> (forall a, shrinking (k a)) -> shrinking (bind m k).
Proof.
  intros Hm Hk s. unfold bind. specialize (Hm s).
  destruct (m s) as [[a|e] s1]; simpl in *; [|assumption].
  eapply shrink_trans; [eassumption|apply Hk].
Qed.

Lemma shrinking_try_catch {A} (m : Js Server A) (h : string -> Js Server A) :
  shrinking m -> (forall e, shrinking (h e)) -> shrinking (try_catch m h).
Proof.
  intros Hm Hh s. unfold try_catch. specialize (Hm s).
  destruct (m s) as [[a|e] s1]; simpl in *; [assumption|].
  eapply shrink_trans; [eassumption|apply Hh].
Qed.

Lemma shrinking_modify (f : Server -> Server) :
  (forall s, connections (f s) = connections s) -> shrinking (modify f).
Proof. intros H s. simpl. auto with shrink. Qed.

Lemma shrinking_read {A} (m : Js Server A) :
  (forall s, snd (m s) = s) -> shrinking m.
Proof. intros H s. rewrite H. apply shrink_refl. Qed.

Lemma shrinking_throw {A} e : shrinking (@throw Server A e).
Proof. now apply shrinking_read. Qed.

Lemma shrinking_get : shrinking (@get Server).
Proof. now apply shrinking_read. Qed.

Lemma shrinking_removeConnection clientId :
  shrinking (ConnectionManager.removeConnection clientId).
Proof.
  intros s. destruct (removeConnection_frame clientId s)
    as (b & s' & cl & Hrun & Hlen & Hu & _).
  rewrite Hrun. now split.
Qed.

Lemma shrinking_removeAll dead : shrinking (ConnectionManager.removeAll dead).
Proof.
  induction dead as [|k dead IH]; simpl.
  - apply shrinking_ret.
  - apply shrinking_bind; [apply shrinking_removeConnection|auto].
Qed.

Lemma shrinking_isOpen h : shrinking (Ws.isOpen h).
Proof. now apply shrinking_read. Qed.

Lemma shrinking_send h data : shrinking (Ws.send h data).
Proof.
  intros s. unfold Ws.send. destruct (sendThrows (sockets s h)); simpl;
    auto with shrink.
Qed.

Lemma shrinking_close h code : shrinking (Ws.close h code).
Proof.
  intros s. unfold Ws.close. destruct (readyState (sockets s h)); simpl;
    auto with shrink.
Qed.

Lemma shrinking_ping h : shrinking (Ws.ping h).
Proof. now apply shrinking_modify. Qed.

Lemma shrinking_log l : shrinking (modify (log l)).
Proof. now apply shrinking_modify. Qed.

#[local] Hint Resolve shrinking_ret shrinking_throw shrinking_get
  shrinking_removeConnection
  shrinking_removeAll shrinking_isOpen shrinking_send shrinking_close
  shrinking_ping shrinking_log : shrink.

Ltac shrink_step :=
  first [ solve [auto with shrink]
        | apply shrinking_bind; [|intros ?]
        | apply shrinking_try_catch; [|intros ?]
        | match goal with |- shrinking (if ?b then _ else _) => destruct b end
        | match goal with |- shrinking (match ?x with _ => _ end) => destruct x end ].

Ltac to_shrinking :=
  match goal with
  | |- shrink ?s (snd (?m ?s)) => apply (fun H : shrinking m => H s)
  end.

Lemma shrinking_sendToClient clientId message :
  shrinking (ConnectionManager.sendToClient clientId message).
Proof.
  unfold ConnectionManager.sendToClient. repeat shrink_step.
Qed.

(** A write to a key that is present keeps size and keys. *)
Lemma shrink_set_present k v v0 s :
  JsMap.get k (connections s) = Some v0 ->
  shrink s (set_connections (JsMap.set k v (connections s)) s).
Proof.
  intros H. unfold shrink, keys_unique. simpl.
  rewrite (length_set_present _ _ _ _ _ H), (keys_set_present _ _ _ _ _ H). auto.
Qed.

Lemma shrinking_updatePing clientId now :
  shrinking (ConnectionManager.updatePing clientId now).
Proof.
  intros s. unfold ConnectionManager.updatePing, bind, get, modify.
  destruct (JsMap.get clientId (connections s)) eqn:E; [|apply shrink_refl].
  simpl. eapply shrink_set_present; eauto.
Qed.

Lemma shrinking_onPong clientId now :
  shrinking (ConnectionManager.onPong clientId now).
Proof.
  intros s. unfold ConnectionManager.onPong, bind, get, modify.
  destruct (JsMap.get clientId (connections s)) eqn:E; [|apply shrink_refl].
  simpl. eapply shrink_set_present; eauto.
Qed.

(** Iteration: a callback that shrinks whenever its key is present. *)
Lemma forEachKey_shrink {A}
    (cb : ClientConnection -> string -> A -> Js Server A) :
  (forall conn k acc s,
      JsMap.get k (connections s) = Some conn ->
      shrink s (snd (cb conn k acc s))) ->
  forall ks acc, shrinking (ConnectionManager.forEachKey ks cb acc).
Proof.
  intros Hcb ks. induction ks as [|k ks IH]; intros acc s; simpl.
  - apply shrink_refl.
  - destruct (JsMap.get k (connections s)) as [conn|] eqn:E; [|apply IH].
    unfold bind. specialize (Hcb conn k acc s E).
    destruct (cb conn k acc s) as [[acc'|e] s1]; simpl in *; [|assumption].
    eapply shrink_trans; [eassumption|apply IH].
Qed.

Lemma shrinking_forEach {A}
    (cb : ClientConnection -> string -> A -> Js Server A) acc :
  (forall conn k acc s,
      JsMap.get k (connections s) = Some conn ->
      shrink s (snd (cb conn k acc s))) ->
  shrinking (ConnectionManager.forEach cb acc).
Proof. intros H s. unfold ConnectionManager.forEach. now apply forEachKey_shrink. Qed.

Lemma shrinking_broadcast message :
  shrinking (ConnectionManager.broadcast message).
Proof.
  unfold ConnectionManager.broadcast, ConnectionManager.deliver.
  apply shrinking_bind; [|auto with shrink].
  apply shrinking_forEach. intros conn k acc s _.
  unfold ConnectionManager.broadcast_cb. to_shrinking.
  repeat shrink_step.
Qed.

Lemma shrinking_pingTick : shrinking ConnectionManager.pingTick.
Proof.
  apply shrinking_forEach. intros conn k [] s Hget.
  unfold ConnectionManager.pingTick_cb.
  destruct (negb (isAlive conn)).
  - to_shrinking. repeat shrink_step.
  - unfold bind at 1, modify at 1.
    eapply shrink_trans;
      [apply (shrink_set_present k (set_isAlive false conn) conn s Hget)|].
    to_shrinking. repeat shrink_step.
Qed.

Lemma shrinking_timeoutTick now : shrinking (ConnectionManager.timeoutTick now).
Proof.
  apply shrinking_forEach. intros conn k [] s _.
  unfold ConnectionManager.timeoutTick_cb. to_shrinking.
  repeat shrink_step.
Qed.

Lemma shrinking_disconnectAll : shrinking ConnectionManager.disconnectAll.
Proof.
  unfold ConnectionManager.disconnectAll.
  apply shrinking_bind; [|intros _; apply shrinking_bind; [|intros _]].
  - apply shrinking_forEach. intros conn k [] s _.
    unfold ConnectionManager.disconnectAll_cb. to_shrinking.
    repeat shrink_step.
  - intros s. simpl. unfold shrink, keys_unique. simpl. split; [lia|constructor].
  - now apply shrinking_modify.
Qed.

#[local] Hint Resolve shrinking_sendToClient shrinking_updatePing
  shrinking_onPong shrinking_broadcast shrinking_pingTick
  shrinking_timeoutTick shrinking_disconnectAll : shrink.

Lemma shrink_within_capacity s s' :
  shrink s s' -> within_capacity s -> within_capacity s'.
Proof. unfold shrink, within_capacity, JsMap.size. intros [H _]. lia. Qed.

(** [addConnection] at capacity, and below it. *)
Lemma addConnection_full w clientId now s :
  JsMap.size (connections s) >= 50 ->
  ConnectionManager.addConnection w clientId now s = (Normal None, s).
Proof.
  intros H. unfold ConnectionManager.addConnection, bind, get, ret,
    ConnectionManager.maxConnections.
  destruct (JsMap.size (connections s) >=? 50) eqn:E; [reflexivity|].
  rewrite Z.geb_leb in E. apply Z.leb_gt in E. lia.
Qed.

Lemma addConnection_invariant w clientId now s :
  (within_capacity s -> within_capacity
     (snd (ConnectionManager.addConnection w clientId now s))) /\
  (keys_unique s -> keys_unique
     (snd (ConnectionManager.addConnection w clientId now s))).
Proof.
  unfold ConnectionManager.addConnection, bind, get, ret, modify,
    within_capacity, keys_unique, ConnectionManager.maxConnections.
  destruct (JsMap.size (connections s) >=? 50) eqn:E; simpl; [tauto|].
  rewrite Z.geb_leb in E. apply Z.leb_gt in E. split.
  - intros _. unfold JsMap.size in *.
    pose proof (length_set_le _ clientId
                  (mkClientConnection clientId w now now true) (connections s)).
    lia.
  - apply NoDup_keys_set.
Qed.

Section CapacityFacts.
Context {P : Platform}.

Lemma shrinking_handleStudentMessage clientId raw now :
  shrinking (MessageBroker.handleStudentMessage clientId raw now).
Proof.
  unfold MessageBroker.handleStudentMessage, MessageBroker.parse,
    MessageBroker.sendPong.
  apply shrinking_try_catch; [|intros ?; auto with shrink].
  apply shrinking_bind.
  - destruct (JSON_parse raw); auto with shrink.
  - intros v. apply shrinking_bind.
    + unfold MessageBroker.get_type. destruct v; auto with shrink.
    + intros ty. repeat shrink_step.
Qed.

Lemma shrinking_onMessage requireAuth clientId raw now :
  shrinking (WebSocketServer.onMessage requireAuth clientId raw now).
Proof.
  unfold WebSocketServer.onMessage, MessageBroker.parse.
  apply shrinking_try_catch; [|intros ?; auto with shrink].
  apply shrinking_bind.
  - destruct (JSON_parse raw); auto with shrink.
  - intros v. apply shrinking_bind.
    + destruct requireAuth; [|auto with shrink].
      apply shrinking_bind; [|auto with shrink].
      unfold MessageBroker.get_type. destruct v; auto with shrink.
    + intros _. apply shrinking_handleStudentMessage.
Qed.

Lemma shrinking_broker_broadcast message :
  shrinking (MessageBroker.broadcast message).
Proof.
  unfold MessageBroker.broadcast.
  apply shrinking_bind; [now apply shrinking_modify|auto with shrink].
Qed.

Lemma shrinking_sendConnected clientId sessionId name now :
  shrinking (MessageBroker.sendConnected clientId sessionId name now).
Proof. unfold MessageBroker.sendConnected. repeat shrink_step. Qed.

(** At capacity the acceptance path closes the socket and does nothing
    else; below it, it calls [addConnection] and goes on without
    growing the table further. *)
Lemma handleWebSocketConnection_full sc w clientId now s :
  (JsMap.size (connections s) >=? 50) = true ->
  WebSocketServer.handleWebSocketConnection sc w clientId now s
    = Ws.close w (Some 1008) s.
Proof.
  intros E. unfold WebSocketServer.handleWebSocketConnection. unfold bind at 1.
  change (ConnectionManager.getConnectionCount s)
    with (Normal (JsMap.size (connections s)), s).
  cbv iota beta. now rewrite E.
Qed.

Lemma handleWebSocketConnection_room sc w clientId now s :
  (JsMap.size (connections s) >=? 50) = false ->
  exists k,
    (forall added, shrinking (k added)) /\
    WebSocketServer.handleWebSocketConnection sc w clientId now s
      = bind (ConnectionManager.addConnection w clientId now) k s.
Proof.
  intros E. eexists. split; cycle 1.
  { unfold WebSocketServer.handleWebSocketConnection. unfold bind at 1.
    change (ConnectionManager.getConnectionCount s)
      with (Normal (JsMap.size (connections s)), s).
    cbv iota beta. rewrite E. reflexivity. }
  intros added. destruct added as [[|a k]|]; auto with shrink.
  apply shrinking_bind; [auto with shrink|intros _].
  destruct sc; [apply shrinking_sendConnected|auto with shrink].
Qed.

(** The acceptance path keeps both invariants. *)
Lemma handleWebSocketConnection_invariant sc w clientId now s :
  (within_capacity s -> within_capacity
     (snd (WebSocketServer.handleWebSocketConnection sc w clientId now s))) /\
  (keys_unique s -> keys_unique
     (snd (WebSocketServer.handleWebSocketConnection sc w clientId now s))).
Proof.
  destruct (JsMap.size (connections s) >=? 50) eqn:E.
  { rewrite handleWebSocketConnection_full by assumption.
    pose proof (shrinking_close w (Some 1008) s) as [H1 H2].
    split; [apply shrink_within_capacity; now split|exact H2]. }
  destruct (handleWebSocketConnection_room sc w clientId now s E)
    as (k & Hk & Heq).
  rewrite Heq. unfold bind.
  destruct (addConnection_invariant w clientId now s) as [Hc Hu].
  destruct (ConnectionManager.addConnection w clientId now s)
    as [[added|e] s1]; simpl fst in *; simpl snd in *; [|tauto].
  destruct (Hk added s1) as [H1 H2].
  split; intros H.
  - apply (shrink_within_capacity s1); [now split|auto].
  - auto.
Qed.

Lemma runOp_shrinks now op :
  (forall sc w clientId, op <> OpAccept sc w clientId) ->
  (forall w clientId, op <> OpAddConnection w clientId) ->
  shrinking (EventLoop.runOp now op).
Proof.
  intros Hacc Hadd. destruct op; simpl; unfold EventLoop.void;
    try solve [repeat shrink_step];
    try solve [apply shrinking_onMessage];
    try solve [apply shrinking_broker_broadcast].
  - exfalso. eapply Hacc; reflexivity.
  - exfalso. eapply Hadd; reflexivity.
Qed.

Lemma shrinking_invariant {A} (m : Js Server A) s :
  shrinking m ->
  (within_capacity s -> within_capacity (snd (m s))) /\
  (keys_unique s -> keys_unique (snd (m s))).
Proof.
  intros Hm. destruct (Hm s) as [H1 H2].
  split; [apply shrink_within_capacity; now split|exact H2].
Qed.

(** Every event keeps the table within capacity and its keys unique. *)
Lemma runOp_invariant now op s :
  (within_capacity s -> within_capacity (exec (EventLoop.runOp now op) s)) /\
  (keys_unique s -> keys_unique (exec (EventLoop.runOp now op) s)).
Proof.
  unfold exec.
  destruct op;
    try (apply shrinking_invariant; apply runOp_shrinks; intros; discriminate).
  - apply handleWebSocketConnection_invariant.
  - simpl. unfold EventLoop.void, bind.
    match goal with
    | |- context [ConnectionManager.addConnection ?w ?c ?n ?s] =>
        destruct (addConnection_invariant w c n s) as [Hc Hu];
        destruct (ConnectionManager.addConnection w c n s) as [[added|e] s1]
    end; simpl in *; tauto.
Qed.

Lemma runOps_invariant ops : forall s,
  (within_capacity s -> within_capacity (EventLoop.runOps ops s)) /\
  (keys_unique s -> keys_unique (EventLoop.runOps ops s)).
Proof.
  induction ops as [|[now op] ops IH]; intros s; simpl; [tauto|].
  destruct (runOp_invariant now op s) as [H1 H2].
  destruct (IH (exec (EventLoop.runOp now op) s)) as [H3 H4].
  split; auto.
Qed.

End CapacityFacts.

(** C1. The table never holds more than fifty entries: every event keeps
    a table that is within capacity within capacity, so the table of a
    new manager stays within capacity under every sequence of events;
    [addConnection] on a table of fifty or more entries returns no id and
    leaves the state as it was; and there the acceptance path only closes
    the new socket with code 1008, without calling [addConnection]. *)
Theorem table_never_exceeds_capacity {P : Platform} :
  (forall now op s,
      within_capacity s -> within_capacity (exec (EventLoop.runOp now op) s)) /\
  (forall socks ops,
      within_capacity (EventLoop.runOps ops (ConnectionManager.create socks))) /\
  (forall w clientId now s,
      JsMap.size (connections s) >= 50 ->
      ConnectionManager.addConnection w clientId now s = (Normal None, s)) /\
  (forall sc w clientId now s,
      JsMap.size (connections s) >= 50 ->
      WebSocketServer.handleWebSocketConnection sc w clientId now s
        = Ws.close w (Some 1008) s /\
      connections (exec (WebSocketServer.handleWebSocketConnection
                           sc w clientId now) s) = connections s).
Proof.
  split; [|split; [|split]].
  - intros now op s. apply runOp_invariant.
  - intros socks ops. apply runOps_invariant.
    unfold within_capacity, ConnectionManager.maxConnections. simpl.
    unfold JsMap.size. simpl. lia.
  - intros. now apply addConnection_full.
  - intros sc w clientId now s H.
    assert (E : (JsMap.size (connections s) >=? 50) = true).
    { rewrite Z.geb_leb. apply Z.leb_le. lia. }
    unfold exec. rewrite handleWebSocketConnection_full by assumption.
    split; [reflexivity|].
    unfold Ws.close. now destruct (readyState (sockets s w)).
Qed.

Lemma table_never_exceeds_capacity_witness :
  within_capacity full_server /\
  within_capacity
    (exec (EventLoop.runOp (P := Reference.platform) 0
             (OpAccept None 77%nat "late")) full_server) /\
  ConnectionManager.addConnection 77%nat "late" 0 full_server
    = (Normal None, full_server) /\
  connections (exec (WebSocketServer.handleWebSocketConnection
                       (P := Reference.platform) None 77%nat "late" 0)
                    full_server)
    = connections full_server.
Proof.
  assert (Hcap : within_capacity full_server).
  { unfold within_capacity. vm_compute. discriminate. }
  assert (Hfull : JsMap.size (connections full_server) >= 50).
  { vm_compute. discriminate. }
  destruct (table_never_exceeds_capacity (P := Reference.platform))
    as (Hstep & _ & Hadd & Haccept).
  split; [exact Hcap|].
  split; [exact (Hstep 0 (OpAccept None 77%nat "late") full_server Hcap)|].
  split; [exact (Hadd 77%nat "late" 0 full_server Hfull)|].
  exact (proj2 (Haccept None 77%nat "late" 0 full_server Hfull)).
Defined.

(** ** The file filter *)

Section FileFilterFacts.
Context {P : Platform}.

(** The loaded exclude list is the setting, or the default list when
    the setting is absent. *)
Lemma loadConfiguration_excludes config this :
  FileFilter.excludePatterns (FileFilter.loadConfiguration config this)
  = match excludePatterns_setting config with
    | Some patterns => patterns
    | None => FileFilter.defaultExcludePatterns
    end.
Proof. reflexivity. Qed.

(** A path that matches a loaded exclude pattern is denied, whatever
    the include patterns say. *)
Lemma exclude_wins filePath folder this pattern :
  In pattern (FileFilter.excludePatterns this) ->
  minimatch (FileFilter.patternPath filePath folder) pattern = true ->
  FileFilter.decide filePath folder this = false.
Proof.
  intros Hin Hm. unfold FileFilter.decide.
  destruct (match folder with
            | Some f => negb (String.prefix (path_normalize f) (path_normalize filePath))
            | None => false
            end); [reflexivity|].
  replace (existsb (minimatch (FileFilter.patternPath filePath folder))
                   (FileFilter.excludePatterns this)) with true; [reflexivity|].
  symmetry. apply existsb_exists. now exists pattern.
Qed.

(** A path that does not start with the normalised folder path is
    denied, whatever the patterns are. *)
Lemma not_prefixed_denied filePath folder this :
  String.prefix (path_normalize folder) (path_normalize filePath) = false ->
  FileFilter.decide filePath (Some folder) this = false.
Proof. intros H. unfold FileFilter.decide. now rewrite H. Qed.

Lemma existsb_false_forall {A} (f : A -> bool) (l : list A) :
  existsb f l = false <-> (forall x, In x l -> f x = false).
Proof.
  split.
  - intros H x Hin. destruct (f x) eqn:E; [|reflexivity].
    rewrite <- H. symmetry. apply existsb_exists. now exists x.
  - intros H. destruct (existsb f l) eqn:E; [|reflexivity].
    apply existsb_exists in E as (x & Hin & Hx). rewrite (H x Hin) in Hx.
    discriminate.
Qed.

(** What a loaded filter decides: the file is shared exactly when it
    passes the prefix test, matches none of the loaded exclude patterns,
    matches a loaded include pattern if there is any, and has no binary
    extension. *)
Lemma decide_true_iff filePath folder this :
  FileFilter.decide filePath folder this = true <->
  match folder with
  | Some f => String.prefix (path_normalize f) (path_normalize filePath) = true
  | None => True
  end /\
  (forall pattern, In pattern (FileFilter.excludePatterns this) ->
     minimatch (FileFilter.patternPath filePath folder) pattern = false) /\
  (FileFilter.includePatterns this = [] \/
   exists pattern, In pattern (FileFilter.includePatterns this) /\
     minimatch (FileFilter.patternPath filePath folder) pattern = true) /\
  FileFilter.isBinaryFile filePath = false.
Proof.
  unfold FileFilter.decide.
  assert (Hrest :
    (if existsb (minimatch (FileFilter.patternPath filePath folder))
                (FileFilter.excludePatterns this)
     then false
     else if (negb (Nat.eqb (List.length (FileFilter.includePatterns this)) 0)
              && negb (existsb (minimatch (FileFilter.patternPath filePath folder))
                               (FileFilter.includePatterns this)))%bool
     then false
     else if FileFilter.isBinaryFile filePath then false else true) = true <->
    (forall pattern, In pattern (FileFilter.excludePatterns this) ->
       minimatch (FileFilter.patternPath filePath folder) pattern = false) /\
    (FileFilter.includePatterns this = [] \/
     exists pattern, In pattern (FileFilter.includePatterns this) /\
       minimatch (FileFilter.patternPath filePath folder) pattern = true) /\
    FileFilter.isBinaryFile filePath = false).
  { rewrite <- existsb_false_forall.
    destruct (existsb _ (FileFilter.excludePatterns this));
      [split; [discriminate|intros (H & _); discriminate]|].
    destruct (FileFilter.includePatterns this) as [|i0 il] eqn:Ei.
    - simpl. destruct (FileFilter.isBinaryFile filePath);
        [split; [discriminate|intros (_ & _ & H); discriminate]|].
      split; auto.
    - cbn [List.length Nat.eqb negb andb].
      destruct (existsb _ (i0 :: il)) eqn:E2; cbn [negb].
      + destruct (FileFilter.isBinaryFile filePath);
          [split; [discriminate|intros (_ & _ & H); discriminate]|].
        split; [|reflexivity]. intros _. split; [reflexivity|].
        split; [|reflexivity]. right. now apply existsb_exists.
      + split; [discriminate|]. intros (_ & [H|H] & _); [discriminate|].
        apply existsb_exists in H. congruence. }
  destruct folder as [f|].
  - destruct (String.prefix (path_normalize f) (path_normalize filePath));
      cbn [negb].
    + rewrite Hrest. tauto.
    + split; [discriminate|]. intros (H & _). discriminate.
  - rewrite Hrest. tauto.
Qed.

(** C6, as the code has it.  The exclude list in force is the
    configured list whenever one is configured, the empty list included,
    and the default list only when none is configured.  With a list
    configured, the decision consults that list and never the default
    one: a file is shared exactly when it passes the prefix test,
    matches no configured exclude pattern, satisfies the include list
    and has no binary extension, whether or not a default pattern
    matches it.  With none configured, every path that matches a
    default pattern is denied. *)
Theorem configured_excludes_replace_defaults (config : SyncConfig)
    (this : FileFilter.t) (filePath : string) (folder : option string) :
  (forall patterns, excludePatterns_setting config = Some patterns ->
     FileFilter.excludePatterns
       (snd (FileFilter.shouldSyncFile config filePath folder this)) = patterns) /\
  (excludePatterns_setting config = None ->
     FileFilter.excludePatterns
       (snd (FileFilter.shouldSyncFile config filePath folder this))
       = FileFilter.defaultExcludePatterns /\
     forall pattern,
       In pattern FileFilter.defaultExcludePatterns ->
       minimatch (FileFilter.patternPath filePath folder) pattern = true ->
       fst (FileFilter.shouldSyncFile config filePath folder this) = false) /\
  (forall patterns, excludePatterns_setting config = Some patterns ->
     (fst (FileFilter.shouldSyncFile config filePath folder this) = true <->
      match folder with
      | Some f =>
          String.prefix (path_normalize f) (path_normalize filePath) = true
      | None => True
      end /\
      (forall pattern, In pattern patterns ->
         minimatch (FileFilter.patternPath filePath folder) pattern = false) /\
      (includes_of config = [] \/
       exists pattern, In pattern (includes_of config) /\
         minimatch (FileFilter.patternPath filePath folder) pattern = true) /\
      FileFilter.isBinaryFile filePath = false)).
Proof.
  split; [|split].
  - intros patterns H. simpl. now rewrite H.
  - intros H. simpl. rewrite H. split; [reflexivity|].
    intros pattern Hin Hm. apply exclude_wins with (pattern := pattern); auto.
    simpl. now rewrite H.
  - intros patterns H. unfold FileFilter.shouldSyncFile. cbn [fst].
    rewrite decide_true_iff. unfold FileFilter.loadConfiguration, includes_of.
    cbn [FileFilter.excludePatterns FileFilter.includePatterns].
    rewrite H. reflexivity.
Qed.

End FileFilterFacts.

Lemma configured_excludes_replace_defaults_witness :
  FileFilter.excludePatterns
    (snd (FileFilter.shouldSyncFile (P := Reference.platform)
            (mkSyncConfig None (Some ["**/*.log"]) None None)
            "/ws/.env" (Some "/ws") FileFilter.initial)) = ["**/*.log"] /\
  fst (FileFilter.shouldSyncFile (P := Reference.platform)
         (mkSyncConfig None None None None)
         "/ws/.env" (Some "/ws") FileFilter.initial) = false /\
  fst (FileFilter.shouldSyncFile (P := Reference.platform)
         (mkSyncConfig None (Some ["**/*.log"]) None None)
         "/ws/.env" (Some "/ws") FileFilter.initial) = true.
Proof.
  split; [|split].
  - exact (proj1 (configured_excludes_replace_defaults (P := Reference.platform)
                    (mkSyncConfig None (Some ["**/*.log"]) None None)
                    FileFilter.initial "/ws/.env" (Some "/ws"))
                 ["**/*.log"] eq_refl).
  - destruct (proj1 (proj2 (configured_excludes_replace_defaults
                       (P := Reference.platform)
                       (mkSyncConfig None None None None)
                       FileFilter.initial "/ws/.env" (Some "/ws"))) eq_refl)
      as [_ H].
    apply (H "**/.env").
    + simpl. tauto.
    + reflexivity.
  - apply (proj2 (proj2 (configured_excludes_replace_defaults
                    (P := Reference.platform)
                    (mkSyncConfig None (Some ["**/*.log"]) None None)
                    FileFilter.initial "/ws/.env" (Some "/ws")))
                 ["**/*.log"] eq_refl).
    split; [vm_compute; reflexivity|]. split; [|split].
    + intros pattern [Hp|[]]. subst pattern. vm_compute; reflexivity.
    + left. reflexivity.
    + vm_compute; reflexivity.
Defined.

(** C6, as stated, fails: with the exclude list configured as the empty
    list the filter loads no exclude pattern and lets [/ws/.env] and
    [/ws/id.key] through, which the default list denies. *)
Lemma empty_exclude_list_admits_secrets :
  FileFilter.shouldSyncFile (P := Reference.platform)
    (mkSyncConfig None (Some []) None None) "/ws/.env" (Some "/ws")
    FileFilter.initial
  = (true, FileFilter.mk [] [] 1048576) /\
  fst (FileFilter.shouldSyncFile (P := Reference.platform)
         (mkSyncConfig None (Some []) None None) "/ws/id.key" (Some "/ws")
         FileFilter.initial) = true /\
  fst (FileFilter.shouldSyncFile (P := Reference.platform)
         (mkSyncConfig None None None None) "/ws/.env" (Some "/ws")
         FileFilter.initial) = false.
Proof. repeat split. Qed.

(** Through [FileSyncManager] the folder is the one VS Code reports for
    the document, which is none for a document outside every workspace
    folder; the boundary test is then skipped and only the patterns
    decide. *)
Example document_outside_every_folder_is_eligible :
  eligible (P := Reference.platform) default_settings
    (mkTextDocument "file:///etc/hosts" "/etc/hosts" "/etc/hosts" "plaintext"
                    false false "127.0.0.1 localhost" None) = true.
Proof. reflexivity. Qed.

(** C5, the second half, fails on the code: the boundary test is a
    prefix test on strings, so a file in [/home/u/proj-secrets], a
    sibling of the workspace folder [/home/u/proj], passes it; its
    pattern path leaves the workspace through [..], and with the default
    settings the file is allowed. *)
Theorem sibling_of_workspace_is_allowed :
  FileFilter.patternPath (P := Reference.platform)
    "/home/u/proj-secrets/notes.txt" (Some "/home/u/proj")
  = "../proj-secrets/notes.txt" /\
  fst (FileFilter.shouldSyncFile (P := Reference.platform)
         (mkSyncConfig None None None None)
         "/home/u/proj-secrets/notes.txt" (Some "/home/u/proj")
         FileFilter.initial) = true.
Proof. split; reflexivity. Qed.

(** ** The sync engine *)

Lemma frame_refl a : frame a a.
Proof. unfold frame. now destruct a. Qed.

Lemma frame_trans a b c : frame a b -> frame b c -> frame a c.
Proof.
  destruct a, b, c. unfold frame, set_fileFilter, set_server. simpl.
  intros H1 H2. inversion H1. inversion H2. subst. reflexivity.
Qed.

(** What a framed step leaves alone. *)
Lemma frame_fields a a' :
  frame a a' ->
  activeEditor a' = activeEditor a /\ currentDocument a' = currentDocument a /\
  debounceTimer a' = debounceTimer a /\ subscribed a' = subscribed a /\
  docs a' = docs a /\ editors a' = editors a /\ config a' = config a /\
  now a' = now a /\ timers a' = timers a /\ nextTimer a' = nextTimer a /\
  fired a' = fired a.
Proof. unfold frame. intros H. rewrite H. simpl. tauto. Qed.

Create HintDb framed.
#[local] Hint Resolve frame_refl : framed.

Lemma framed_ret {A} (x : A) : framed (ret x).
Proof. intros a. apply frame_refl. Qed.

Lemma framed_throw {A} e : framed (@throw App A e).
Proof. intros a. apply frame_refl. Qed.

Lemma framed_get : framed (@get App).
Proof. intros a. apply frame_refl. Qed.

Lemma framed_bind {A B} (m : Js App A) (k : A -> Js App B) :
  framed m -> (forall x, framed (k x)) -> framed (bind m k).
Proof.
  intros Hm Hk a. unfold bind. specialize (Hm a).
  destruct (m a) as [[x|e] a1]; simpl in *; [|assumption].
  eapply frame_trans; [eassumption|apply Hk].
Qed.

Lemma framed_try_catch {A} (m : Js App A) (h : string -> Js App A) :
  framed m -> (forall e, framed (h e)) -> framed (try_catch m h).
Proof.
  intros Hm Hh a. unfold try_catch. specialize (Hm a).
  destruct (m a) as [[x|e] a1]; simpl in *; [assumption|].
  eapply frame_trans; [eassumption|apply Hh].
Qed.

Lemma framed_liftServer {A} (m : Js Server A) : framed (liftServer m).
Proof.
  intros a. unfold liftServer, frame. destruct (m (server a)) as [r s'].
  now destruct a.
Qed.

Lemma framed_set_fileFilter ff : framed (modify (set_fileFilter ff)).
Proof. intros a. unfold frame. now destruct a. Qed.

#[local] Hint Resolve framed_ret framed_throw framed_get framed_liftServer
  framed_set_fileFilter : framed.

Ltac framed_step :=
  first [ solve [auto with framed]
        | apply framed_bind; [|intros ?]
        | apply framed_try_catch; [|intros ?]
        | match goal with |- framed (if ?b then _ else _) => destruct b end
        | match goal with |- framed (match ?x with _ => _ end) => destruct x end
        | match goal with |- framed (let (_, _) := ?x in _) => destruct x end ].

Section SyncFacts.
Context {P : Platform}.

Lemma framed_shouldSyncFile d : framed (FileSyncManager.shouldSyncFile d).
Proof. unfold FileSyncManager.shouldSyncFile. repeat framed_step. Qed.

Lemma framed_cursorPosition : framed FileSyncManager.cursorPosition.
Proof. unfold FileSyncManager.cursorPosition. repeat framed_step. Qed.

#[local] Hint Resolve framed_shouldSyncFile framed_cursorPosition : framed.

Lemma framed_syncFileSwitch d : framed (FileSyncManager.syncFileSwitch d).
Proof.
  unfold FileSyncManager.syncFileSwitch, FileSyncManager.console_error.
  repeat framed_step.
Qed.

Lemma framed_syncFileUpdate d : framed (FileSyncManager.syncFileUpdate d).
Proof.
  unfold FileSyncManager.syncFileUpdate, FileSyncManager.console_error.
  repeat framed_step.
Qed.

#[local] Hint Resolve framed_syncFileSwitch framed_syncFileUpdate : framed.

Lemma framed_debounceCallback : framed FileSyncManager.debounceCallback.
Proof. unfold FileSyncManager.debounceCallback. repeat framed_step. Qed.

Lemma framed_syncCurrentFile : framed FileSyncManager.syncCurrentFile.
Proof. unfold FileSyncManager.syncCurrentFile. repeat framed_step. Qed.

Lemma framed_handleConfigurationChange affects :
  framed (FileSyncManager.handleConfigurationChange affects).
Proof.
  unfold FileSyncManager.handleConfigurationChange. destruct affects;
    [|auto with framed].
  apply framed_bind; [|intros _; repeat framed_step].
  intros a. unfold frame. now destruct a.
Qed.

End SyncFacts.

Section EditorChangeFacts.
Context {P : Platform}.

(** [handleEditorChange] on an editor that shows a document: the editor
    is recorded and the debounce timer cancelled before the identities
    are compared. *)
Lemma handleEditorChange_same a e d :
  document (editors a e) = Some d ->
  FileSyncManager.differs a d = false ->
  FileSyncManager.handleEditorChange (Some e) a
  = (Normal tt, cancel_debounce (set_activeEditor (Some e) a)).
Proof.
  intros Hd Hs. destruct a as [srv ff ae cd dt sub ds es cfg nw tm nt fr].
  unfold FileSyncManager.differs in Hs. simpl in Hd, Hs.
  unfold FileSyncManager.handleEditorChange, FileSyncManager.differs,
    cancel_debounce, Timers.clearTimeout, bind, modify, get, ret.
  simpl. rewrite Hd. destruct dt as [tid|]; simpl; rewrite Hs; reflexivity.
Qed.

Lemma handleEditorChange_switch a e d :
  document (editors a e) = Some d ->
  FileSyncManager.differs a d = true ->
  FileSyncManager.handleEditorChange (Some e) a
  = FileSyncManager.syncFileSwitch d
      (set_currentDocument (Some d)
         (cancel_debounce (set_activeEditor (Some e) a))).
Proof.
  intros Hd Hs. destruct a as [srv ff ae cd dt sub ds es cfg nw tm nt fr].
  unfold FileSyncManager.differs in Hs. simpl in Hd, Hs.
  unfold FileSyncManager.handleEditorChange, FileSyncManager.differs,
    cancel_debounce, Timers.clearTimeout, bind, modify, get, ret.
  simpl. rewrite Hd. destruct dt as [tid|]; simpl; rewrite Hs;
    now destruct (FileSyncManager.syncFileSwitch d _) as [[[]|] ?].
Qed.

(** C7, as the code has it.  When the editor event carries a document of
    the identity already tracked, the tracked document stays, nothing is
    sent or logged, and the editor's documents, settings and clock are as
    before; the manager records the event's editor as the active one. *)
Theorem same_document_event_keeps_document (a : App) (e : EditorRef)
    (d cur : DocRef) :
  currentDocument a = Some cur ->
  document (editors a e) = Some d ->
  uri (docs a d) = uri (docs a cur) ->
  result (FileSyncManager.handleEditorChange (Some e)) a = Normal tt /\
  currentDocument (exec (FileSyncManager.handleEditorChange (Some e)) a)
    = Some cur /\
  server (exec (FileSyncManager.handleEditorChange (Some e)) a) = server a /\
  activeEditor (exec (FileSyncManager.handleEditorChange (Some e)) a) = Some e /\
  fileFilter (exec (FileSyncManager.handleEditorChange (Some e)) a)
    = fileFilter a /\
  docs (exec (FileSyncManager.handleEditorChange (Some e)) a) = docs a /\
  editors (exec (FileSyncManager.handleEditorChange (Some e)) a) = editors a /\
  config (exec (FileSyncManager.handleEditorChange (Some e)) a) = config a /\
  now (exec (FileSyncManager.handleEditorChange (Some e)) a) = now a /\
  subscribed (exec (FileSyncManager.handleEditorChange (Some e)) a)
    = subscribed a /\
  fired (exec (FileSyncManager.handleEditorChange (Some e)) a) = fired a.
Proof.
  intros Hcur Hd Huri.
  assert (Hs : FileSyncManager.differs a d = false).
  { unfold FileSyncManager.differs. rewrite Hcur, Huri.
    now rewrite String.eqb_refl. }
  unfold result, exec. rewrite (handleEditorChange_same a e d Hd Hs).
  unfold cancel_debounce. simpl.
  destruct (debounceTimer a); simpl; repeat split; auto.
Qed.

End EditorChangeFacts.

Lemma same_document_event_keeps_document_witness :
  currentDocument
    (exec (FileSyncManager.handleEditorChange (P := Reference.platform)
             (Some 2%nat)) sample_pending) = Some 0%nat /\
  server (exec (FileSyncManager.handleEditorChange (P := Reference.platform)
                  (Some 2%nat)) sample_pending) = server sample_pending /\
  activeEditor
    (exec (FileSyncManager.handleEditorChange (P := Reference.platform)
             (Some 2%nat)) sample_pending) = Some 2%nat.
Proof.
  assert (Hcur : currentDocument sample_pending = Some 0%nat)
    by (vm_compute; reflexivity).
  assert (Hd : document (editors sample_pending 2%nat) = Some 0%nat)
    by (vm_compute; reflexivity).
  assert (Huri : uri (docs sample_pending 0%nat) = uri (docs sample_pending 0%nat))
    by reflexivity.
  destruct (same_document_event_keeps_document (P := Reference.platform)
              sample_pending 2%nat 0%nat 0%nat Hcur Hd Huri)
    as (_ & H1 & H2 & H3 & _).
  split; [exact H1|split; [exact H2|exact H3]].
Defined.

(** C7, as stated, fails: the event is not a no-op.  In [sample_pending]
    document 0 is tracked and an edit waits for its timer; the event for
    editor 2, which shows the same document, cancels the timer and
    replaces the active editor, and the edit is never broadcast. *)
Lemma same_document_event_cancels_timer :
  currentDocument sample_pending = Some 0%nat /\
  document (editors sample_pending 2%nat) = Some 0%nat /\
  timers sample_pending = [(0%nat, 510)] /\
  debounceTimer sample_pending = Some 0%nat /\
  activeEditor sample_pending = Some 0%nat /\
  timers (exec (FileSyncManager.handleEditorChange (P := Reference.platform)
                  (Some 2%nat)) sample_pending) = [] /\
  debounceTimer
    (exec (FileSyncManager.handleEditorChange (P := Reference.platform)
             (Some 2%nat)) sample_pending) = None /\
  activeEditor
    (exec (FileSyncManager.handleEditorChange (P := Reference.platform)
             (Some 2%nat)) sample_pending) = Some 2%nat /\
  outbox (server (EventLoop.advance (P := Reference.platform) 10000
                    (exec (FileSyncManager.handleEditorChange
                             (P := Reference.platform) (Some 2%nat))
                          sample_pending)))
    = outbox (server sample_pending) /\
  List.length (outbox (server (EventLoop.advance (P := Reference.platform) 10000
                                 sample_pending)))
    = S (List.length (outbox (server sample_pending))).
Proof. repeat apply conj; vm_compute; reflexivity. Qed.

(** ** Timers *)

Lemma timer_safe_refl a : timer_safe a a.
Proof. unfold timer_safe. auto. Qed.

Lemma timer_safe_trans a b c : timer_safe a b -> timer_safe b c -> timer_safe a c.
Proof.
  intros (H1 & H2 & H3) (H4 & H5 & H6).
  split; [lia|]. split; [|congruence].
  intros t Ht. destruct (H5 t Ht) as [Hb|Hb]; [|right; lia].
  destruct (H2 t Hb) as [Ha|Ha]; [now left|right; lia].
Qed.

Lemma timer_safe_frame a a' : frame a a' -> timer_safe a a'.
Proof.
  intros H. destruct (frame_fields a a' H)
    as (_ & _ & _ & _ & _ & _ & _ & _ & Ht & Hn & Hf).
  unfold timer_safe. rewrite Ht, Hn, Hf. auto.
Qed.

(** A step that leaves queue, counter and history alone. *)
Lemma timer_safe_same a a' :
  timers a' = timers a -> nextTimer a' = nextTimer a -> fired a' = fired a ->
  timer_safe a a'.
Proof. intros Ht Hn Hf. unfold timer_safe. rewrite Ht, Hn, Hf. auto. Qed.

Create HintDb safe.
#[local] Hint Resolve timer_safe_refl : safe.

Lemma safe_framed {A} (m : Js App A) : framed m -> safe m.
Proof. intros H a. apply timer_safe_frame, H. Qed.

Lemma safe_ret {A} (x : A) : safe (ret x).
Proof. intros a. apply timer_safe_refl. Qed.

Lemma safe_get : safe (@get App).
Proof. intros a. apply timer_safe_refl. Qed.

Lemma safe_bind {A B} (m : Js App A) (k : A -> Js App B) :
  safe m -> (forall x, safe (k x)) -> safe (bind m k).
Proof.
  intros Hm Hk a. unfold bind. specialize (Hm a).
  destruct (m a) as [[x|e] a1]; simpl in *; [|assumption].
  eapply timer_safe_trans; [eassumption|apply Hk].
Qed.

Lemma safe_modify (f : App -> App) :
  (forall a, timers (f a) = timers a /\ nextTimer (f a) = nextTimer a /\
             fired (f a) = fired a) ->
  safe (modify f).
Proof. intros H a. destruct (H a) as (H1 & H2 & H3). now apply timer_safe_same. Qed.

Lemma safe_clearTimeout tid : safe (Timers.clearTimeout tid).
Proof.
  intros a. unfold Timers.clearTimeout, modify, timer_safe. simpl.
  repeat split; auto. intros t Ht. apply filter_In in Ht. tauto.
Qed.

Lemma safe_setTimeout ms : safe (Timers.setTimeout ms).
Proof.
  intros a. unfold Timers.setTimeout, timer_safe. simpl.
  repeat split; auto. intros t Ht. apply in_app_or in Ht as [Ht|[Ht|[]]]; auto.
  subst t. simpl. right. lia.
Qed.

#[local] Hint Resolve safe_ret safe_get safe_clearTimeout safe_setTimeout : safe.

Ltac safe_step :=
  first [ solve [auto with safe]
        | solve [apply safe_modify; intros ?; simpl; auto]
        | apply safe_bind; [|intros ?]
        | match goal with |- safe (if ?b then _ else _) => destruct b end
        | match goal with |- safe (match ?x with _ => _ end) => destruct x end ].

Section TimerFacts.
Context {P : Platform}.

Lemma safe_syncFileSwitch d : safe (FileSyncManager.syncFileSwitch d).
Proof. apply safe_framed, framed_syncFileSwitch. Qed.

Lemma safe_debounceCallback : safe FileSyncManager.debounceCallback.
Proof. apply safe_framed, framed_debounceCallback. Qed.

Lemma safe_syncCurrentFile : safe FileSyncManager.syncCurrentFile.
Proof. apply safe_framed, framed_syncCurrentFile. Qed.

Lemma safe_handleConfigurationChange b :
  safe (FileSyncManager.handleConfigurationChange b).
Proof. apply safe_framed, framed_handleConfigurationChange. Qed.

Lemma safe_liftServer {A} (m : Js Server A) : safe (liftServer m).
Proof. apply safe_framed, framed_liftServer. Qed.

#[local] Hint Resolve safe_syncFileSwitch safe_debounceCallback
  safe_syncCurrentFile safe_handleConfigurationChange safe_liftServer : safe.

Lemma safe_handleEditorChange editor :
  safe (FileSyncManager.handleEditorChange editor).
Proof. unfold FileSyncManager.handleEditorChange. repeat safe_step. Qed.

Lemma safe_handleDocumentChange d n :
  safe (FileSyncManager.handleDocumentChange d n).
Proof.
  unfold FileSyncManager.handleDocumentChange, FileSyncManager.clearDebounce.
  repeat safe_step.
Qed.

Lemma safe_stop : safe FileSyncManager.stop.
Proof. unfold FileSyncManager.stop. repeat safe_step. Qed.

#[local] Hint Resolve safe_handleEditorChange safe_handleDocumentChange
  safe_stop : safe.

Lemma safe_dispatch i : safe (EventLoop.dispatch i).
Proof.
  destruct i; simpl; unfold FileSyncManager.start; repeat safe_step.
Qed.








(** Every pending timer was handed out by [setTimeout]: this holds of a
    new manager and is kept by every turn of the loop. *)
Lemma timers_known_safe a a' :
  timers_known a -> timer_safe a a' -> timers_known a'.
Proof.
  intros Hk (Hn & Ht & _) t Hin.
  destruct (Ht t Hin) as [H|H]; [|lia].
  specialize (Hk t H). lia.
Qed.

Lemma timers_known_fireDue t rounds : forall a,
  timers_known a -> timers_known (EventLoop.fireDue rounds t a).
Proof.
  induction rounds as [|n IH]; intros a Hk; simpl; [assumption|].
  destruct (Timers.earliest (timers a)) as [[x due]|]; [|assumption].
  destruct (due <=? t); [|assumption].
  apply IH. eapply timers_known_safe; [|apply safe_debounceCallback].
  intros t0 Hin. simpl in *. unfold EventLoop.remove_timer in Hin.
  apply filter_In in Hin as [Hin _]. now apply Hk.
Qed.

Lemma timers_known_step t i a :
  timers_known a -> timers_known (EventLoop.step t i a).
Proof.
  intros Hk. unfold EventLoop.step.
  eapply timers_known_safe; [|apply safe_dispatch].
  unfold EventLoop.advance. intros t0 Hin. simpl in Hin.
  now apply (timers_known_fireDue t _ a Hk).
Qed.

Lemma timers_known_run inputs : forall a,
  timers_known a -> timers_known (EventLoop.run inputs a).
Proof.
  induction inputs as [|[t i] inputs IH]; intros a Hk; simpl; [assumption|].
  apply IH. now apply timers_known_step.
Qed.

Lemma timers_known_create srv cfg ds es t0 :
  timers_known (FileSyncManager.create srv cfg ds es t0).
Proof. intros t []. Qed.

End TimerFacts.



(** ** Debouncing *)

Lemma forEachKey_deliver_total message : forall ks acc s,
  exists acc' s',
    ConnectionManager.forEachKey ks (ConnectionManager.broadcast_cb message) acc s
      = (Normal acc', s') /\
    outbox s' = outbox s.
Proof.
  induction ks as [|k ks IH]; intros acc s; simpl.
  - unfold ret. eauto.
  - destruct (JsMap.get k (connections s)) as [c|]; [|apply IH].
    unfold bind at 1.
    assert (Hcb : exists acc1 s1,
      ConnectionManager.broadcast_cb message c k acc s = (Normal acc1, s1) /\
      outbox s1 = outbox s).
    { unfold ConnectionManager.broadcast_cb, Ws.isOpen, Ws.getReadyState, Ws.send,
        try_catch, bind, ret, modify.
      destruct (ReadyState_eqb (readyState (sockets s (ws c))) OPEN); [|eauto].
      destruct (sendThrows (sockets s (ws c))); simpl; eauto. }
    destruct Hcb as (acc1 & s1 & Hrun & Ho). rewrite Hrun.
    destruct (IH acc1 s1) as (acc2 & s2 & Hrun2 & Ho2).
    exists acc2, s2. split; [assumption|congruence].
Qed.

Section DebounceFacts.
Context {P : Platform}.

(** [MessageBroker.broadcast] returns and records its message. *)
Lemma broker_broadcast_spec message s :
  exists s',
    MessageBroker.broadcast message s = (Normal tt, s') /\
    outbox s' = outbox s ++ [message].
Proof.
  unfold MessageBroker.broadcast, bind at 1, modify.
  unfold ConnectionManager.broadcast, bind at 1, ConnectionManager.deliver,
    ConnectionManager.forEach.
  destruct (forEachKey_deliver_total (JSON_stringify message)
              (JsMap.keys (connections (record_broadcast message s))) []
              (record_broadcast message s))
    as (dead & s1 & Hrun & Ho).
  rewrite Hrun.
  destruct (removeAll_frame dead s1)
    as (s2 & cl & Hrun2 & _ & _ & _ & _ & _ & _ & Ho2 & _).
  rewrite Hrun2. exists s2. split; [reflexivity|]. rewrite Ho2, Ho. reflexivity.
Qed.

Lemma shouldSyncFile_spec d a :
  exists ff,
    FileSyncManager.shouldSyncFile d a
    = (Normal (eligible (config a) (docs a d)), set_fileFilter ff a).
Proof.
  unfold FileSyncManager.shouldSyncFile, eligible, bind, get, ret, modify.
  destruct (isUntitled (docs a d)); simpl.
  { exists (fileFilter a). now destruct a. }
  destruct (isClosed (docs a d)); simpl.
  { exists (fileFilter a). now destruct a. }
  exists (FileFilter.loadConfiguration (config a) (fileFilter a)).
  destruct (FileFilter.decide (fsPath (docs a d)) (workspaceFolder (docs a d))
              (FileFilter.loadConfiguration (config a) (fileFilter a))) eqn:E;
    unfold FileFilter.loadConfiguration in *; rewrite E; simpl; [|reflexivity].
  unfold FileFilter.isFileSizeValid. simpl.
  now destruct (_ <=? _).
Qed.

(** The debounce callback's work: one [file_update] with what the
    document holds now, if the document is eligible now. *)
Lemma syncFileUpdate_spec d a :
  exists srv ff,
    FileSyncManager.syncFileUpdate d a
      = (Normal tt, set_fileFilter ff (set_server srv a)) /\
    outbox srv = outbox (server a) ++
      (if eligible (config a) (docs a d)
       then [FileUpdateMessage (now a) (fileInfo_of (docs a d)) (cursor_of a)]
       else []).
Proof.
  unfold FileSyncManager.syncFileUpdate. unfold bind at 1.
  destruct (shouldSyncFile_spec d a) as (ff & Hrun). rewrite Hrun.
  destruct (eligible (config a) (docs a d)); simpl.
  - unfold try_catch, bind, get, ContentProvider.getFileContent,
      FileSyncManager.cursorPosition, ret, liftServer,
      MessageBroker.broadcastFileUpdate. simpl.
    destruct (broker_broadcast_spec
                (FileUpdateMessage (now a) (fileInfo_of (docs a d)) (cursor_of a))
                (server a)) as (s' & Hb & Ho).
    unfold fileInfo_of, cursor_of in Hb. rewrite Hb. simpl.
    exists s', ff. split; [now destruct a|]. exact Ho.
  - unfold ret. exists (server a), ff. rewrite app_nil_r.
    split; [now destruct a|reflexivity].
Qed.

End DebounceFacts.

Section BurstFacts.
Context {P : Platform}.

(** An edit of the tracked document, with no timer pending or with the
    pending one not yet due, leaves exactly its own timer pending. *)
Lemma edit_arms a0 a d t txt k :
  subscribed a = true ->
  currentDocument a = Some d ->
  config a = config a0 ->
  activeEditor a = activeEditor a0 ->
  editors a = editors a0 ->
  outbox (server a) = outbox (server a0) ->
  (exists old, docs a d = set_text old (docs a0 d)) ->
  now a <= t ->
  (timers a = [] \/
   exists tid due, timers a = [(tid, due)] /\ debounceTimer a = Some tid /\ t < due) ->
  armed a0 (EventLoop.step t (DidChangeTextDocument d txt (S k)) a) d t txt.
Proof.
  intros Hsub Hcur Hcfg Hae Hed Hout [old Hdoc] Hnow Hq.
  destruct a as [srv ff ae cd dt sub ds es cfg nw tm nt fr]. simpl in *.
  subst sub cd cfg ae es.
  assert (Hadv : EventLoop.advance t
            (mkApp srv ff (activeEditor a0) (Some d) dt true ds (editors a0)
                   (config a0) nw tm nt fr)
          = mkApp srv ff (activeEditor a0) (Some d) dt true ds (editors a0)
                  (config a0) t tm nt fr).
  { unfold EventLoop.advance. simpl.
    destruct Hq as [Hq|(tid & due & Hq & _ & Hdue)]; subst tm; simpl.
    - unfold set_now. simpl. f_equal. lia.
    - replace (due <=? t) with false by (symmetry; apply Z.leb_gt; lia).
      unfold set_now. simpl. f_equal. lia. }
  unfold EventLoop.step. rewrite Hadv. clear Hadv.
  unfold exec, EventLoop.dispatch, FileSyncManager.handleDocumentChange,
    FileSyncManager.clearDebounce, Timers.clearTimeout, Timers.setTimeout,
    bind, modify, get, ret. simpl.
  unfold EventLoop.set_doc_text at 1 2. rewrite Nat.eqb_refl.
  rewrite String.eqb_refl. simpl.
  unfold armed, debounceMs_of. simpl.
  destruct dt as [tid0|]; simpl.
  - exists nt. simpl. unfold EventLoop.set_doc_text. rewrite Nat.eqb_refl.
    rewrite Hdoc. simpl.
    destruct Hq as [Hq|(tid & due & Hq & Hdt & _)]; subst tm; simpl.
    + repeat split; auto.
    + inversion Hdt; subst tid0. rewrite Nat.eqb_refl. simpl.
      repeat split; auto.
  - exists nt. simpl. unfold EventLoop.set_doc_text. rewrite Nat.eqb_refl.
    rewrite Hdoc. simpl.
    destruct Hq as [Hq|(tid & due & Hq & Hdt & _)]; [|discriminate].
    subst tm. simpl. repeat split; auto.
Qed.

Lemma first_edit_arms a0 d t txt k :
  subscribed a0 = true ->
  currentDocument a0 = Some d ->
  (timers a0 = [] \/
   exists tid due, timers a0 = [(tid, due)] /\ debounceTimer a0 = Some tid /\
                   t < due) ->
  now a0 <= t ->
  armed a0 (EventLoop.step t (DidChangeTextDocument d txt (S k)) a0) d t txt.
Proof.
  intros Hsub Hcur Hq Hnow.
  apply edit_arms; auto.
  exists (text (docs a0 d)). now destruct (docs a0 d).
Qed.

Lemma next_edit_arms a0 a d t txt t' txt' k :
  armed a0 a d t txt ->
  t <= t' -> t' - t < Timers.delay (debounceMs_of a0) ->
  armed a0 (EventLoop.step t' (DidChangeTextDocument d txt' (S k)) a) d t' txt'.
Proof.
  intros (tid & Hq & Hdt & Hnow & Hcur & Hsub & Hcfg & Hae & Hed & Hout & Hdoc)
         Hle Hgap.
  apply edit_arms; auto.
  - now exists txt.
  - lia.
  - right. exists tid, (t + Timers.delay (debounceMs_of a0)).
    repeat split; auto. lia.
Qed.

(** When the clock passes the due time of an armed edit, its timer
    fires and broadcasts the document as the edit left it, if it is
    eligible. *)
Lemma armed_fires a0 a d t txt T :
  armed a0 a d t txt ->
  t + Timers.delay (debounceMs_of a0) <= T ->
  outbox (server (EventLoop.advance T a))
  = outbox (server a0) ++
    (if eligible (config a0) (set_text txt (docs a0 d))
     then [FileUpdateMessage (Z.max t (t + Timers.delay (debounceMs_of a0)))
             (fileInfo_of (set_text txt (docs a0 d))) (cursor_of a0)]
     else []).
Proof.
  intros (tid & Hq & Hdt & Hnow & Hcur & Hsub & Hcfg & Hae & Hed & Hout & Hdoc)
         Hdue.
  unfold EventLoop.advance. rewrite Hq. simpl. rewrite Hq. simpl.
  replace (t + Timers.delay (debounceMs_of a0) <=? T) with true
    by (symmetry; apply Z.leb_le; lia).
  set (a3 := set_fired _ _).
  unfold exec, FileSyncManager.debounceCallback, bind at 1, get at 1.
  assert (H3 : currentDocument a3 = Some d /\ config a3 = config a0 /\
               docs a3 d = set_text txt (docs a0 d) /\
               now a3 = Z.max t (t + Timers.delay (debounceMs_of a0)) /\
               cursor_of a3 = cursor_of a0 /\
               outbox (server a3) = outbox (server a0)).
  { subst a3. unfold cursor_of. simpl. rewrite Hae, Hed, Hnow. tauto. }
  destruct H3 as (C3 & G3 & D3 & N3 & U3 & O3).
  rewrite C3.
  destruct (syncFileUpdate_spec d a3) as (srv & ff & Hrun & Ho).
  rewrite Hrun. simpl. rewrite Ho, G3, D3, N3, U3, O3. reflexivity.
Qed.

Lemma last_cons_default {A} (l : list A) : forall x d,
  last (x :: l) d = last l x.
Proof.
  induction l as [|y l IH]; intros x d; [reflexivity|].
  change (last (x :: y :: l) d) with (last (y :: l) d).
  rewrite (IH y d). symmetry. apply IH.
Qed.

Lemma burst_tail a0 d : forall rest e a,
  armed a0 a d (edit_time e) (edit_text e) ->
  within_window (Timers.delay (debounceMs_of a0)) (edit_time e) rest ->
  armed a0 (EventLoop.run (map (edit_input d) rest) a) d
        (edit_time (last rest e)) (edit_text (last rest e)).
Proof.
  induction rest as [|e' rest IH]; intros e a Ha Hw.
  - exact Ha.
  - destruct Hw as (Hle & Hgap & Hw).
    rewrite last_cons_default. simpl. apply IH; [|assumption].
    eapply next_edit_arms; eauto.
Qed.

(** A delay that [setTimeout] takes as it is. *)
Lemma delay_in_range ms :
  1 <= ms <= 2147483647 -> Timers.delay ms = ms.
Proof.
  intros [H1 H2]. unfold Timers.delay, Timers.TIMEOUT_MAX.
  replace (1 <=? ms) with true by (symmetry; apply Z.leb_le; lia).
  replace (ms <=? 2147483647) with true by (symmetry; apply Z.leb_le; lia).
  reflexivity.
Qed.

End BurstFacts.

(** C3, as the code has it.  Let [debounceMs] be a delay that
    [setTimeout] takes as it is, from 1 to 2147483647 ms.  Let the
    manager track document [d], with no timer pending or with its
    debounce timer due only after the first edit, and let a burst of one
    or more edits of [d] arrive, each less than [debounceMs] after the
    one before it and nothing else in between.  Once the clock has
    passed the last edit by [debounceMs], the burst has caused at most
    one broadcast: exactly one [file_update] if the document as the last
    edit left it passes [FileSyncManager.shouldSyncFile] when the timer
    fires, and none otherwise.  The message carries the text of the last
    edit. *)
Theorem burst_sends_one_update_if_eligible {P : Platform} (a0 : App) (d : DocRef)
    (first : Edit) (rest : list Edit) (T : Z) :
  1 <= debounceMs_of a0 <= 2147483647 ->
  subscribed a0 = true ->
  currentDocument a0 = Some d ->
  (timers a0 = [] \/
   exists tid due, timers a0 = [(tid, due)] /\ debounceTimer a0 = Some tid /\
                   edit_time first < due) ->
  now a0 <= edit_time first ->
  within_window (debounceMs_of a0) (edit_time first) rest ->
  edit_time (last rest first) + debounceMs_of a0 <= T ->
  outbox (server (EventLoop.advance T
                    (EventLoop.run (map (edit_input d) (first :: rest)) a0)))
  = outbox (server a0) ++
    (if eligible (config a0) (set_text (edit_text (last rest first)) (docs a0 d))
     then [FileUpdateMessage
             (Z.max (edit_time (last rest first))
                    (edit_time (last rest first) + debounceMs_of a0))
             (fileInfo_of (set_text (edit_text (last rest first)) (docs a0 d)))
             (cursor_of a0)]
     else []) /\
  content (fileInfo_of (set_text (edit_text (last rest first)) (docs a0 d)))
  = edit_text (last rest first).
Proof.
  intros Hms Hsub Hcur Hq Hnow Hw HT. split; [|reflexivity].
  rewrite <- (delay_in_range _ Hms) in Hw, HT |- *.
  apply armed_fires; [|assumption].
  simpl. apply burst_tail; [|assumption].
  destruct first as [[t txt] k]. unfold edit_input, edit_time, edit_text. simpl.
  now apply first_edit_arms.
Qed.

(** The scenario of the specification: edits at 0, 100 and 300 with a
    debounce of 500 give one [file_update] at 800 with the last text. *)
Lemma burst_sends_one_update_if_eligible_witness :
  outbox (server (EventLoop.advance (P := Reference.platform) 1000
                    (EventLoop.run (P := Reference.platform)
                       (map (edit_input 0%nat)
                            [(0, "ab", O); (100, "abc", O); (300, "abcd", O)])
                       sample_tracking)))
  = outbox (server sample_tracking) ++
    [FileUpdateMessage 800
       (mkFileInfo "/ws/a.ts" "a.ts" (LanguageName "typescript") "abcd")
       (Some (mkCursor 0 0))].
Proof.
  assert (Hsub : subscribed sample_tracking = true) by (vm_compute; reflexivity).
  assert (Hcur : currentDocument sample_tracking = Some 0%nat)
    by (vm_compute; reflexivity).
  assert (Hq : timers sample_tracking = [] \/
               exists tid due, timers sample_tracking = [(tid, due)] /\
                               debounceTimer sample_tracking = Some tid /\
                               edit_time (0, "ab", O) < due)
    by (left; vm_compute; reflexivity).
  assert (Hnow : now sample_tracking <= edit_time (0, "ab", O))
    by (vm_compute; discriminate).
  assert (Hw : within_window (debounceMs_of sample_tracking)
                 (edit_time (0, "ab", O)) [(100, "abc", O); (300, "abcd", O)]).
  { vm_compute. repeat split; discriminate. }
  assert (HT : edit_time (last [(100, "abc", O); (300, "abcd", O)] (0, "ab", O))
               + debounceMs_of sample_tracking <= 1000)
    by (vm_compute; discriminate).
  assert (Hms : 1 <= debounceMs_of sample_tracking <= 2147483647)
    by (vm_compute; split; discriminate).
  pose proof (proj1 (burst_sends_one_update_if_eligible (P := Reference.platform)
                       sample_tracking 0%nat (0, "ab", O)
                       [(100, "abc", O); (300, "abcd", O)] 1000
                       Hms Hsub Hcur Hq Hnow Hw HT)) as H.
  eapply eq_trans; [exact H|]. f_equal.
Defined.

(** C3, as stated, fails: in [sample_secret] the tracked document is
    [/ws/.env], which the default exclude list denies; an edit arrives,
    its timer fires, and no [file_update] is broadcast. *)
Lemma burst_on_excluded_document_sends_nothing :
  subscribed sample_secret = true /\
  currentDocument sample_secret = Some 2%nat /\
  timers sample_secret = [] /\
  fired (EventLoop.advance (P := Reference.platform) 1000
           (EventLoop.run (P := Reference.platform)
              (map (edit_input 2%nat) [(10, "KEY=2", O)]) sample_secret))
    = [0%nat] /\
  outbox (server (EventLoop.advance (P := Reference.platform) 1000
                    (EventLoop.run (P := Reference.platform)
                       (map (edit_input 2%nat) [(10, "KEY=2", O)]) sample_secret)))
    = [].
Proof. repeat apply conj; vm_compute; reflexivity. Qed.

(** Outside that range [setTimeout] sets the delay to 1 ms: with
    [debounceMs] at 2147483648 the three edits of the scenario are not
    coalesced, each of them is followed by its own [file_update]. *)
Example oversized_debounce_sends_every_edit :
  map type_of
    (outbox (server
       (EventLoop.advance (P := Reference.platform) 1000
          (EventLoop.run (P := Reference.platform)
             (map (edit_input 0%nat)
                  [(10, "ab", O); (100, "abc", O); (300, "abcd", O)])
             (exec (FileSyncManager.start (P := Reference.platform) (Some 0%nat))
                   (FileSyncManager.create sample_server
                      (mkSyncConfig None None None (Some 2147483648))
                      sample_docs sample_editors 0))))))
  = [FILE_SWITCH; FILE_UPDATE; FILE_UPDATE; FILE_UPDATE].
Proof. vm_compute; reflexivity. Qed.

(** ** The states the hypotheses describe are the reachable ones *)

(** Unique keys: true of a new manager and kept by every event. *)
Lemma keys_unique_reachable {P : Platform} socks ops :
  keys_unique (EventLoop.runOps ops (ConnectionManager.create socks)).
Proof. apply runOps_invariant. constructor. Qed.

Section OneTimer.
Context {P : Platform}.

Lemma one_timer_frame a a' : frame a a' -> one_timer a -> one_timer a'.
Proof.
  intros H. destruct (frame_fields a a' H)
    as (_ & _ & Hd & _ & _ & _ & _ & _ & Ht & _).
  unfold one_timer. now rewrite Ht, Hd.
Qed.

Lemma one_timer_cancel a :
  one_timer a ->
  timers (cancel_debounce a) = [] /\ debounceTimer (cancel_debounce a) = None.
Proof.
  unfold cancel_debounce, EventLoop.remove_timer.
  intros [Hq|(tid & due & Hq & Hd)].
  - destruct (debounceTimer a) eqn:E; simpl; rewrite Hq; auto.
  - rewrite Hd. simpl. rewrite Hq. simpl. now rewrite Nat.eqb_refl.
Qed.

Lemma one_timer_handleEditorChange editor a :
  one_timer a -> one_timer (exec (FileSyncManager.handleEditorChange editor) a).
Proof.
  intros H1.
  assert (H0 : one_timer (set_activeEditor editor a)) by exact H1.
  destruct editor as [e|]; [|exact H0].
  destruct (document (editors a e)) as [d|] eqn:Hd.
  - destruct (FileSyncManager.differs a d) eqn:Hs; unfold exec.
    + rewrite (handleEditorChange_switch a e d Hd Hs).
      eapply one_timer_frame; [apply framed_syncFileSwitch|].
      left. exact (proj1 (one_timer_cancel _ H0)).
    + rewrite (handleEditorChange_same a e d Hd Hs).
      left. exact (proj1 (one_timer_cancel _ H0)).
  - unfold exec, FileSyncManager.handleEditorChange, bind, modify, get, ret.
    simpl. rewrite Hd. exact H0.
Qed.

Lemma one_timer_handleDocumentChange d n a :
  one_timer a -> one_timer (exec (FileSyncManager.handleDocumentChange d n) a).
Proof.
  intros H1. destruct a as [srv ff ae cd dt sub ds es cfg nw tm nt fr].
  unfold exec, FileSyncManager.handleDocumentChange,
    FileSyncManager.clearDebounce, Timers.clearTimeout, Timers.setTimeout,
    bind, modify, get, ret. simpl.
  destruct cd as [cur|]; [|exact H1].
  destruct (negb (String.eqb (uri (ds d)) (uri (ds cur)))); [exact H1|].
  destruct n as [|n]; [exact H1|]. simpl.
  unfold one_timer in *. simpl in *.
  destruct H1 as [Hq|(tid & due & Hq & Hd)]; subst tm.
  - destruct dt; simpl; right; eauto.
  - rewrite Hd. simpl. rewrite Nat.eqb_refl. simpl. right. eauto.
Qed.

Lemma one_timer_stop a : one_timer a -> one_timer (exec FileSyncManager.stop a).
Proof.
  intros H1. destruct a as [srv ff ae cd dt sub ds es cfg nw tm nt fr].
  unfold exec, FileSyncManager.stop, Timers.clearTimeout, bind, modify, get, ret.
  unfold one_timer in *. simpl in *.
  destruct H1 as [Hq|(tid & due & Hq & Hd)]; subst tm.
  - destruct dt; simpl; auto.
  - rewrite Hd. simpl. rewrite Nat.eqb_refl. simpl. auto.
Qed.

Lemma one_timer_dispatch i a :
  one_timer a -> one_timer (exec (EventLoop.dispatch i) a).
Proof.
  intros H1. destruct i; unfold exec; simpl.
  - unfold bind, get. destruct (subscribed a); [|exact H1].
    now apply one_timer_handleEditorChange.
  - unfold bind at 1, modify at 1. unfold bind at 1, get at 1. simpl.
    destruct (subscribed a); [|exact H1].
    now apply one_timer_handleDocumentChange.
  - unfold bind at 1, modify at 1. unfold bind at 1, get at 1. simpl.
    destruct (subscribed a); [|exact H1].
    eapply one_timer_frame; [apply framed_handleConfigurationChange|exact H1].
  - exact H1.
  - unfold FileSyncManager.start, bind at 1, modify at 1.
    destruct activeTextEditor as [e|]; [|exact H1].
    now apply one_timer_handleEditorChange.
  - now apply one_timer_stop.
  - eapply one_timer_frame; [apply framed_syncCurrentFile|exact H1].
  - unfold bind, get.
    eapply one_timer_frame; [apply framed_liftServer|exact H1].
Qed.

Lemma one_timer_fireDue t rounds : forall a,
  one_timer a -> one_timer (EventLoop.fireDue rounds t a).
Proof.
  induction rounds as [|n IH]; intros a H1; simpl; [assumption|].
  destruct (Timers.earliest (timers a)) as [[x due]|] eqn:E; [|assumption].
  destruct (due <=? t); [|assumption].
  apply IH. eapply one_timer_frame; [apply framed_debounceCallback|].
  left. simpl. destruct H1 as [Hq|(tid & due' & Hq & Hd)]; rewrite Hq in *.
  - discriminate.
  - simpl in E. inversion E; subst. simpl. now rewrite Nat.eqb_refl.
Qed.

(** At most one timer is ever pending: true of a new manager and kept
    by every turn of the loop. *)
Lemma one_timer_run inputs : forall a,
  one_timer a -> one_timer (EventLoop.run inputs a).
Proof.
  induction inputs as [|[t i] inputs IH]; intros a H1; simpl; [assumption|].
  apply IH. unfold EventLoop.step. apply one_timer_dispatch.
  unfold EventLoop.advance.
  exact (one_timer_fireDue t _ a H1).
Qed.

Lemma one_timer_create srv cfg ds es t0 :
  one_timer (FileSyncManager.create srv cfg ds es t0).
Proof. now left. Qed.

(** The rounds of [advance] suffice: with at most one timer pending, no
    timer that is due at [t] is left behind. *)
Lemma advance_leaves_none_due t a :
  one_timer a ->
  forall x, In x (timers (EventLoop.advance t a)) -> t < snd x.
Proof.
  intros H1 x. unfold EventLoop.advance. simpl.
  destruct H1 as [Hq|(tid & due & Hq & Hd)]; rewrite Hq; simpl.
  - rewrite Hq. intros [].
  - rewrite Hq. simpl. destruct (due <=? t) eqn:E.
    + match goal with
      | |- context [exec FileSyncManager.debounceCallback ?x] =>
          pose proof (framed_debounceCallback x) as Hf
      end.
      destruct (frame_fields _ _ Hf) as (_ & _ & _ & _ & _ & _ & _ & _ & Ht & _).
      unfold exec. rewrite Ht. simpl. rewrite Nat.eqb_refl. intros [].
    + rewrite Hq. intros [Hx|[]]. subst x. simpl. now apply Z.leb_gt.
Qed.

End OneTimer.


(** * Further properties of the code *)

(** ** The table: insertion, removal, lookup *)

Section JsMapMore.
Variable V : Type.
Implicit Types (m : JsMap.t V) (k : string) (v : V).

Lemma not_key_get_None k m : ~ In k (JsMap.keys m) -> JsMap.get k m = None.
Proof.
  unfold JsMap.keys. induction m as [|[k' v'] m IH]; simpl; [reflexivity|].
  intros H. destruct (String.eqb k k') eqn:E.
  - apply String.eqb_eq in E. subst k'. tauto.
  - apply IH. tauto.
Qed.

Lemma set_absent k v m : JsMap.get k m = None -> JsMap.set k v m = m ++ [(k, v)].
Proof.
  induction m as [|[k' v'] m IH]; simpl; [reflexivity|].
  destruct (String.eqb k k'); [discriminate|]. intros H. now rewrite IH.
Qed.

Lemma delete_last k v m :
  JsMap.get k m = None -> JsMap.delete k (m ++ [(k, v)]) = m.
Proof.
  induction m as [|[k' v'] m IH]; simpl.
  - now rewrite String.eqb_refl.
  - destruct (String.eqb k k'); [discriminate|]. intros H. now rewrite IH.
Qed.

Lemma get_app_absent k m m' :
  JsMap.get k m = None -> JsMap.get k (m ++ m') = JsMap.get k m'.
Proof.
  induction m as [|[k' v'] m IH]; simpl; [reflexivity|].
  destruct (String.eqb k k'); [discriminate|]. exact IH.
Qed.

Lemma delete_app_absent k m m' :
  JsMap.get k m = None -> JsMap.delete k (m ++ m') = m ++ JsMap.delete k m'.
Proof.
  induction m as [|[k' v'] m IH]; simpl; [reflexivity|].
  destruct (String.eqb k k'); [discriminate|]. intros H. now rewrite IH.
Qed.

Lemma set_app_absent k v m m' :
  JsMap.get k m = None -> JsMap.set k v (m ++ m') = m ++ JsMap.set k v m'.
Proof.
  induction m as [|[k' v'] m IH]; simpl; [reflexivity|].
  destruct (String.eqb k k'); [discriminate|]. intros H. now rewrite IH.
Qed.

Lemma In_set kv k v m : In kv (JsMap.set k v m) -> kv = (k, v) \/ In kv m.
Proof.
  induction m as [|[k' v'] m IH]; simpl.
  - intros [H|[]]. now left.
  - destruct (String.eqb k k') eqn:E; simpl.
    + apply String.eqb_eq in E. subst k'. intros [H|H]; auto.
    + intros [H|H]; auto. destruct (IH H); auto.
Qed.

End JsMapMore.

Section TableFacts.
Import ConnectionManager.

(** X1. Removing a connection twice: the first call removes the entry,
    the second finds nothing, returns [false] and changes nothing, not
    even the sockets; and removing an id that was never there does the
    same. *)
Theorem removeConnection_is_idempotent (clientId : string) (s : Server) :
  keys_unique s ->
  JsMap.get clientId (connections (exec (removeConnection clientId) s)) = None /\
  removeConnection clientId (exec (removeConnection clientId) s)
    = (Normal false, exec (removeConnection clientId) s) /\
  (JsMap.get clientId (connections s) = None ->
   removeConnection clientId s = (Normal false, s)).
Proof.
  intros Hu.
  assert (Hgone : JsMap.get clientId
                    (connections (exec (removeConnection clientId) s)) = None).
  { unfold exec. destruct (JsMap.get clientId (connections s)) as [c|] eqn:E.
    - destruct (removeConnection_present clientId c s E) as (s' & Hrun & Hc & _).
      rewrite Hrun. simpl. rewrite Hc. now apply get_delete_same.
    - now rewrite (removeConnection_absent clientId s E). }
  split; [exact Hgone|]. split.
  - now apply removeConnection_absent.
  - apply removeConnection_absent.
Qed.

Lemma removeConnection_is_idempotent_witness :
  JsMap.get "b" (connections (exec (removeConnection "b") sample_server)) = None /\
  removeConnection "b" (exec (removeConnection "b") sample_server)
    = (Normal false, exec (removeConnection "b") sample_server).
Proof.
  destruct (removeConnection_is_idempotent "b" sample_server
              sample_server_keys_unique) as (H1 & H2 & _).
  split; [exact H1|exact H2].
Defined.

Lemma addConnection_appends (w : Handle) (clientId : string) (now : Z)
    (s : Server) :
  JsMap.size (connections s) < 50 ->
  JsMap.get clientId (connections s) = None ->
  addConnection w clientId now s
    = (Normal (Some clientId),
       set_connections
         (connections s ++ [(clientId, mkClientConnection clientId w now now true)])
         s).
Proof.
  intros Hsize Hfresh.
  unfold addConnection, bind, get, ret, modify, maxConnections.
  replace (JsMap.size (connections s) >=? 50) with false
    by (symmetry; rewrite Z.geb_leb; apply Z.leb_gt; lia).
  simpl. now rewrite (set_absent _ _ _ _ Hfresh).
Qed.

(** X2. Below capacity, [addConnection] with an id not yet in the table
    returns that id and appends one entry, which holds the socket, both
    times set to now and [isAlive] set; the new id looks up to that
    entry, every other id looks up as before, and nothing else in the
    state changes. *)
Theorem addConnection_stores_entry (w : Handle) (clientId : string) (now : Z)
    (s : Server) :
  JsMap.size (connections s) < 50 ->
  JsMap.get clientId (connections s) = None ->
  addConnection w clientId now s
    = (Normal (Some clientId),
       set_connections
         (connections s ++ [(clientId, mkClientConnection clientId w now now true)])
         s) /\
  JsMap.get clientId (connections (exec (addConnection w clientId now) s))
    = Some (mkClientConnection clientId w now now true) /\
  JsMap.size (connections (exec (addConnection w clientId now) s))
    = JsMap.size (connections s) + 1 /\
  forall k, k <> clientId ->
    JsMap.get k (connections (exec (addConnection w clientId now) s))
      = JsMap.get k (connections s).
Proof.
  intros Hsize Hfresh.
  pose proof (addConnection_appends w clientId now s Hsize Hfresh) as E.
  split; [exact E|]. unfold exec. rewrite E. simpl.
  split; [|split].
  - rewrite (get_app_absent _ _ _ _ Hfresh). simpl. now rewrite String.eqb_refl.
  - unfold JsMap.size. rewrite length_app. simpl. lia.
  - intros k Hk. rewrite <- (set_absent _ _ _ _ Hfresh).
    apply get_set_other. congruence.
Qed.

Lemma addConnection_stores_entry_witness :
  JsMap.get "d" (connections (exec (addConnection 4%nat "d" 9) sample_server))
    = Some (mkClientConnection "d" 4%nat 9 9 true) /\
  JsMap.size (connections (exec (addConnection 4%nat "d" 9) sample_server))
    = JsMap.size (connections sample_server) + 1.
Proof.
  assert (Hsize : JsMap.size (connections sample_server) < 50)
    by (vm_compute; reflexivity).
  destruct (addConnection_stores_entry 4%nat "d" 9 sample_server Hsize eq_refl)
    as (_ & H1 & H2 & _).
  split; [exact H1|exact H2].
Defined.

(** X3. Adding a connection under a new id and removing it again gives
    back the table as it was, entry for entry and in the same order. *)
Theorem add_then_remove_restores_table (w : Handle) (clientId : string)
    (now : Z) (s : Server) :
  JsMap.size (connections s) < 50 ->
  JsMap.get clientId (connections s) = None ->
  result (removeConnection clientId) (exec (addConnection w clientId now) s)
    = Normal true /\
  connections (exec (removeConnection clientId)
                    (exec (addConnection w clientId now) s))
    = connections s.
Proof.
  intros Hsize Hfresh.
  pose proof (addConnection_appends w clientId now s Hsize Hfresh) as E.
  assert (Hget : JsMap.get clientId
                   (connections (exec (addConnection w clientId now) s))
                 = Some (mkClientConnection clientId w now now true)).
  { unfold exec. rewrite E. simpl.
    rewrite (get_app_absent _ _ _ _ Hfresh). simpl. now rewrite String.eqb_refl. }
  destruct (removeConnection_present clientId _ _ Hget) as (s' & Hrun & Hc & _).
  split; [unfold result; now rewrite Hrun|].
  change (connections
            (snd (removeConnection clientId (exec (addConnection w clientId now) s)))
          = connections s).
  rewrite Hrun. simpl. rewrite Hc. unfold exec. rewrite E. simpl.
  now apply delete_last.
Qed.

Lemma add_then_remove_restores_table_witness :
  connections (exec (removeConnection "d")
                    (exec (addConnection 4%nat "d" 9) sample_server))
    = connections sample_server.
Proof.
  assert (Hsize : JsMap.size (connections sample_server) < 50)
    by (vm_compute; reflexivity).
  exact (proj2 (add_then_remove_restores_table 4%nat "d" 9 sample_server
                  Hsize eq_refl)).
Defined.

End TableFacts.

Section FillFacts.
Context {P : Platform}.

Lemma adds_from now : forall (adds : list (Handle * string)) (s : Server),
  (List.length (connections s) <= 50)%nat ->
  NoDup (JsMap.keys (connections s) ++ map snd adds) ->
  JsMap.keys (connections
    (EventLoop.runOps
       (map (fun a => (now, OpAddConnection (fst a) (snd a))) adds) s))
  = firstn 50 (JsMap.keys (connections s) ++ map snd adds).
Proof.
  induction adds as [|[w k] adds IH]; intros s Hlen Hnd.
  - cbn [map EventLoop.runOps]. rewrite app_nil_r. symmetry. apply firstn_all2.
    unfold JsMap.keys. now rewrite length_map.
  - cbn [map EventLoop.runOps fst snd].
    assert (Hfresh : JsMap.get k (connections s) = None).
    { apply not_key_get_None. apply NoDup_remove_2 in Hnd.
      intros Hin. apply Hnd. apply in_or_app. now left. }
    destruct (Z_lt_ge_dec (JsMap.size (connections s)) 50) as [Hlt|Hge].
    + pose proof (addConnection_appends w k now s Hlt Hfresh) as E.
      assert (Hs : exec (EventLoop.runOp now (OpAddConnection w k)) s
                   = set_connections
                       (connections s ++ [(k, mkClientConnection k w now now true)]) s).
      { unfold exec. cbn [EventLoop.runOp]. unfold EventLoop.void, bind.
        now rewrite E. }
      rewrite Hs.
      assert (Hkeys : JsMap.keys (connections (set_connections
                 (connections s ++ [(k, mkClientConnection k w now now true)]) s))
               = JsMap.keys (connections s) ++ [k]).
      { cbn [connections set_connections]. unfold JsMap.keys.
        now rewrite map_app. }
      rewrite IH.
      * rewrite Hkeys, <- app_assoc. reflexivity.
      * cbn [connections set_connections]. rewrite length_app.
        cbn [List.length]. unfold JsMap.size in Hlt. lia.
      * rewrite Hkeys, <- app_assoc. exact Hnd.
    + assert (Hs : exec (EventLoop.runOp now (OpAddConnection w k)) s = s).
      { unfold exec. cbn [EventLoop.runOp]. unfold EventLoop.void, bind.
        now rewrite (addConnection_full w k now s Hge). }
      rewrite Hs. rewrite IH; [|assumption|now apply NoDup_remove_1 in Hnd].
      assert (Hk : List.length (JsMap.keys (connections s)) = 50%nat).
      { unfold JsMap.keys. rewrite length_map. unfold JsMap.size in Hge. lia. }
      rewrite !firstn_app, Hk, Nat.sub_diag, !firstn_O. reflexivity.
Qed.

(** X4. Adding connections one after another to a new manager under
    distinct ids stores exactly the first fifty, in the order they came;
    every later one is turned away. *)
Theorem first_fifty_adds_are_stored (now : Z) (socks : Handle -> WebSocket)
    (adds : list (Handle * string)) :
  NoDup (map snd adds) ->
  JsMap.keys (connections
    (EventLoop.runOps
       (map (fun a => (now, OpAddConnection (fst a) (snd a))) adds)
       (ConnectionManager.create socks)))
  = firstn 50 (map snd adds).
Proof.
  intros Hnd. apply (adds_from now adds (ConnectionManager.create socks)).
  - cbn [connections ConnectionManager.create List.length]. lia.
  - exact Hnd.
Qed.

End FillFacts.

Lemma distinct_NoDup l : distinct l = true -> NoDup l.
Proof.
  induction l as [|x l IH]; simpl; [constructor|].
  intros H. apply andb_true_iff in H as [Hx Hl]. apply negb_true_iff in Hx.
  constructor; [|auto]. intros Hin.
  assert (existsb (String.eqb x) l = true)
    by (apply existsb_exists; exists x; split; [exact Hin|apply String.eqb_refl]).
  congruence.
Qed.

(** Fifty-two arrivals: the first fifty are stored, the last two, [3]
    and [4] by their ids, are turned away. *)
Lemma first_fifty_adds_are_stored_witness :
  List.length sample_arrivals = 52%nat /\
  JsMap.keys (connections
    (EventLoop.runOps (P := Reference.platform)
       (map (fun a => (0, OpAddConnection (fst a) (snd a))) sample_arrivals)
       (ConnectionManager.create sample_sockets)))
  = firstn 50 (map snd sample_arrivals) /\
  List.length (JsMap.keys (connections
    (EventLoop.runOps (P := Reference.platform)
       (map (fun a => (0, OpAddConnection (fst a) (snd a))) sample_arrivals)
       (ConnectionManager.create sample_sockets)))) = 50%nat /\
  map snd (skipn 50 sample_arrivals) = ["3"; "4"] /\
  ~ In "3" (JsMap.keys (connections
    (EventLoop.runOps (P := Reference.platform)
       (map (fun a => (0, OpAddConnection (fst a) (snd a))) sample_arrivals)
       (ConnectionManager.create sample_sockets)))).
Proof.
  assert (Hnd : NoDup (map snd sample_arrivals))
    by (apply distinct_NoDup; vm_compute; reflexivity).
  pose proof (first_fifty_adds_are_stored (P := Reference.platform) 0
                sample_sockets sample_arrivals Hnd) as H.
  split; [vm_compute; reflexivity|]. split; [exact H|].
  split; [rewrite H; vm_compute; reflexivity|].
  split; [vm_compute; reflexivity|].
  rewrite H. intros Hin.
  assert (Hd : distinct ("3" :: firstn 50 (map snd sample_arrivals)) = true)
    by (vm_compute; reflexivity).
  apply distinct_NoDup in Hd. inversion Hd; contradiction.
Defined.

(** ** The heartbeat *)

Section HeartbeatFacts.
Import ConnectionManager.

(** The table around the entry a loop is visiting. *)
Lemma get_middle (pre es : JsMap.t ClientConnection) k c :
  ~ In k (JsMap.keys pre) -> JsMap.get k (pre ++ (k, c) :: es) = Some c.
Proof.
  intros H. rewrite get_app_absent by now apply not_key_get_None.
  simpl. now rewrite String.eqb_refl.
Qed.

Lemma delete_middle (pre es : JsMap.t ClientConnection) k c :
  ~ In k (JsMap.keys pre) -> JsMap.delete k (pre ++ (k, c) :: es) = pre ++ es.
Proof.
  intros H. rewrite delete_app_absent by now apply not_key_get_None.
  simpl. now rewrite String.eqb_refl.
Qed.

Lemma set_middle (pre es : JsMap.t ClientConnection) k c c' :
  ~ In k (JsMap.keys pre) ->
  JsMap.set k c' (pre ++ (k, c) :: es) = pre ++ (k, c') :: es.
Proof.
  intros H. rewrite set_app_absent by now apply not_key_get_None.
  simpl. now rewrite String.eqb_refl.
Qed.

Lemma NoDup_keys_middle (pre es : JsMap.t ClientConnection) k c :
  NoDup (JsMap.keys (pre ++ (k, c) :: es)) ->
  ~ In k (JsMap.keys pre) /\ NoDup (JsMap.keys (pre ++ es)).
Proof.
  unfold JsMap.keys. rewrite !map_app. simpl. intros H. split.
  - apply NoDup_remove_2 in H. intros Hin. apply H. apply in_or_app. now left.
  - now apply NoDup_remove_1 in H.
Qed.

(** One round of the probe over the entries [es] that follow [pre]. *)
Lemma forEachKey_pingTick : forall es pre s,
  connections s = pre ++ es ->
  NoDup (JsMap.keys (pre ++ es)) ->
  (forall k c, In (k, c) es -> id c = k) ->
  exists s',
    forEachKey (map fst es) pingTick_cb tt s = (Normal tt, s') /\
    connections s' = pre ++ map probed (filter alive es) /\
    pingTimer s' = pingTimer s /\ timeoutTimer s' = timeoutTimer s /\
    outbox s' = outbox s /\ console s' = console s.
Proof.
  induction es as [|[k c] es IH]; intros pre s Hc Hnd Hid.
  - exists s. simpl. unfold ret. rewrite Hc. tauto.
  - destruct (NoDup_keys_middle pre es k c Hnd) as [Hk Hnd'].
    simpl. rewrite Hc, (get_middle pre es k c Hk).
    unfold bind at 1. unfold pingTick_cb, alive. simpl.
    assert (Hidc : id c = k) by (apply Hid; now left).
    destruct (isAlive c) eqn:Ea; simpl.
    + (* alive: marked and pinged *)
      assert (Hstep : exists s1,
        (modify (fun s0 => set_connections
                   (JsMap.set k (set_isAlive false c) (connections s0)) s0) ;;;
         open <- Ws.isOpen (ws c) ;;
         (if open then Ws.ping (ws c) else ret tt)) s = (Normal tt, s1) /\
        connections s1 = pre ++ (k, set_isAlive false c) :: es /\
        pingTimer s1 = pingTimer s /\ timeoutTimer s1 = timeoutTimer s /\
        outbox s1 = outbox s /\ console s1 = console s).
      { unfold bind, modify, Ws.isOpen, Ws.getReadyState, Ws.ping, ret. simpl.
        rewrite Hc, (set_middle pre es k c _ Hk).
        destruct (ReadyState_eqb (readyState (sockets s (ws c))) OPEN);
          eexists; (split; [reflexivity|]); simpl; tauto. }
      destruct Hstep as (s1 & Hrun & Hc1 & Hp1 & Ht1 & Ho1 & Hl1).
      rewrite Hrun.
      destruct (IH (pre ++ [(k, set_isAlive false c)]) s1)
        as (s2 & Hrun2 & Hc2 & Hp2 & Ht2 & Ho2 & Hl2).
      * now rewrite Hc1, <- app_assoc.
      * rewrite <- app_assoc. simpl. unfold JsMap.keys in *.
        rewrite map_app in *. simpl in *. exact Hnd.
      * intros k' c' Hin. apply Hid. now right.
      * exists s2. split; [exact Hrun2|].
        split; [rewrite Hc2, <- app_assoc; reflexivity|].
        repeat split; congruence.
    + (* silent since the last probe: removed *)
      rewrite Hidc.
      assert (Hget : JsMap.get k (connections s) = Some c)
        by (rewrite Hc; now apply get_middle).
      destruct (removeConnection_present k c s Hget)
        as (s1 & Hrun & Hc1 & Hp1 & Ht1 & Hl1 & Ho1 & _).
      unfold bind at 1. rewrite Hrun. unfold ret at 1.
      rewrite Hc, (delete_middle pre es k c Hk) in Hc1.
      destruct (IH pre s1 Hc1 Hnd')
        as (s2 & Hrun2 & Hc2 & Hp2 & Ht2 & Ho2 & Hl2).
      * intros k' c' Hin. apply Hid. now right.
      * exists s2. split; [exact Hrun2|]. split; [exact Hc2|].
        repeat split; congruence.
Qed.

Lemma pingTick_sweep (s : Server) :
  keys_unique s -> ids_match s ->
  result pingTick s = Normal tt /\
  connections (exec pingTick s) = map probed (filter alive (connections s)).
Proof.
  intros Hu0 Hid0. unfold result, exec, pingTick, forEach, JsMap.keys.
  destruct (forEachKey_pingTick (connections s) [] s eq_refl Hu0 Hid0)
    as (s' & Hrun & Hc & _).
  rewrite Hrun. simpl. auto.
Qed.

(** X5. The probe sweep.  On a table with unique keys whose entries are
    stored under their own ids, [pingTick] returns, removes every entry
    that has not answered since the last sweep, and keeps the others,
    in order, each marked as waiting for its answer.  Hence a second
    sweep with no answer in between empties the table. *)
Theorem pingTick_removes_the_silent (s : Server) :
  keys_unique s -> ids_match s ->
  result pingTick s = Normal tt /\
  connections (exec pingTick s) = map probed (filter alive (connections s)) /\
  connections (exec pingTick (exec pingTick s)) = [].
Proof.
  intros Hu Hid.
  destruct (pingTick_sweep s Hu Hid) as [Hr Hc].
  split; [exact Hr|]. split; [exact Hc|].
  destruct (pingTick_sweep (exec pingTick s)) as [_ Hc2].
  - unfold keys_unique. rewrite Hc. clear - Hu. unfold keys_unique, JsMap.keys in *.
    induction (connections s) as [|[k c] m IH]; simpl; [constructor|].
    inversion Hu as [|? ? Hnot Hrest]; subst. unfold alive at 1. simpl.
    destruct (isAlive c); simpl; [|auto].
    constructor; [|auto]. intros Hin. apply Hnot.
    apply in_map_iff in Hin as ([k' c'] & Hk & Hin). simpl in Hk. subst k'.
    apply in_map_iff in Hin as ([k2 c2] & Hp & Hin). unfold probed in Hp.
    simpl in Hp. inversion Hp; subst. apply filter_In in Hin as [Hin _].
    apply in_map_iff. now exists (k, c2).
  - unfold ids_match, ids_match_in. rewrite Hc. intros k c Hin.
    apply in_map_iff in Hin as ([k' c'] & Hp & Hin). unfold probed in Hp.
    simpl in Hp. inversion Hp; subst. apply filter_In in Hin as [Hin _].
    simpl. now apply Hid.
  - rewrite Hc2, Hc. clear. induction (connections s) as [|[k c] m IH];
      simpl; [reflexivity|].
    unfold alive at 2. simpl. destruct (isAlive c); simpl; auto.
Qed.

End HeartbeatFacts.

Lemma sample_server_ids_match : ids_match sample_server.
Proof.
  intros k c H. simpl in H.
  destruct H as [H|[H|[H|[]]]]; inversion H; reflexivity.
Qed.

Lemma pingTick_removes_the_silent_witness :
  connections (exec ConnectionManager.pingTick sample_server)
    = map probed (filter alive (connections sample_server)) /\
  connections (exec ConnectionManager.pingTick
                 (exec ConnectionManager.pingTick sample_server)) = [].
Proof.
  destruct (pingTick_removes_the_silent sample_server
              sample_server_keys_unique sample_server_ids_match)
    as (_ & H1 & H2).
  split; [exact H1|exact H2].
Defined.

Section HeartbeatMore.
Import ConnectionManager.

Lemma filter_alive_after_answer k v : forall (m : JsMap.t ClientConnection) c1,
  NoDup (JsMap.keys m) ->
  (forall kc, In kc m -> alive kc = false) ->
  JsMap.get k m = Some c1 ->
  isAlive v = true ->
  filter alive (JsMap.set k v m) = [(k, v)].
Proof.
  unfold JsMap.keys.
  induction m as [|[k' c'] m IH]; intros c1 Hnd Hdead Hget Hv; simpl in *;
    [discriminate|].
  inversion Hnd as [|? ? Hnot Hrest]; subst.
  destruct (String.eqb k k') eqn:E.
  - apply String.eqb_eq in E. subst k'. simpl. unfold alive at 1. simpl.
    rewrite Hv. f_equal.
    clear - Hdead. induction m as [|kc m IH]; simpl; [reflexivity|].
    rewrite (Hdead kc) by (right; now left). apply IH.
    intros kc' [H|H]; apply Hdead; [now left|right; now right].
  - simpl. rewrite (Hdead (k', c')) by now left.
    apply (IH c1); auto.
Qed.

(** X6. A connection that answers a probe survives the next one.  Let
    a sweep run, let the pong of connection [k] arrive, and let the next
    sweep run: [k] is then the only connection left, with the time of its
    answer recorded, and every connection that stayed silent is gone. *)
Theorem answered_probe_survives (k : string) (c : ClientConnection) (now : Z)
    (s : Server) :
  keys_unique s -> ids_match s ->
  JsMap.get k (connections s) = Some c ->
  isAlive c = true ->
  connections
    (exec pingTick (exec (onPong k now) (exec pingTick s)))
  = [(k, mkClientConnection (id c) (ws c) (connectedAt c) now false)].
Proof.
  intros Hu Hid Hget Halive.
  destruct (pingTick_sweep s Hu Hid) as (_ & Hc1).
  set (s1 := exec pingTick s) in *.
  assert (Hu1 : NoDup (JsMap.keys (connections s1))).
  { rewrite Hc1. clear - Hu. unfold keys_unique, JsMap.keys in *.
    induction (connections s) as [|[k0 c0] m IH]; simpl; [constructor|].
    inversion Hu as [|? ? Hnot Hrest]; subst. unfold alive at 1. simpl.
    destruct (isAlive c0); simpl; [|auto].
    constructor; [|auto]. intros Hin. apply Hnot.
    apply in_map_iff in Hin as ([k' c'] & Hk & Hin). simpl in Hk. subst k'.
    apply in_map_iff in Hin as ([k2 c2] & Hp & Hin). unfold probed in Hp.
    simpl in Hp. inversion Hp; subst. apply filter_In in Hin as [Hin _].
    apply in_map_iff. now exists (k0, c2). }
  assert (Hdead1 : forall kc, In kc (connections s1) -> alive kc = false).
  { intros kc Hin. rewrite Hc1 in Hin.
    apply in_map_iff in Hin as (kc0 & Hp & _). now subst kc. }
  assert (Hget1 : JsMap.get k (connections s1) = Some (set_isAlive false c)).
  { apply get_In; [exact Hu1|]. rewrite Hc1.
    apply in_map_iff. exists (k, c). split; [reflexivity|].
    apply filter_In. split; [now apply get_Some_In|exact Halive]. }
  assert (Hid1 : ids_match s1).
  { intros k0 c0 Hin. rewrite Hc1 in Hin.
    apply in_map_iff in Hin as ([k' c'] & Hp & Hin). unfold probed in Hp.
    simpl in Hp. inversion Hp; subst. apply filter_In in Hin as [Hin _].
    simpl. now apply Hid. }
  set (v := set_lastPing now (set_isAlive true (set_isAlive false c))).
  assert (E2 : exec (onPong k now) s1
               = set_connections (JsMap.set k v (connections s1)) s1).
  { unfold exec, onPong, bind, get, modify. now rewrite Hget1. }
  rewrite E2.
  assert (Hu2 : keys_unique (set_connections (JsMap.set k v (connections s1)) s1)).
  { unfold keys_unique. simpl. now apply NoDup_keys_set. }
  assert (Hid2 : ids_match (set_connections (JsMap.set k v (connections s1)) s1)).
  { intros k0 c0 Hin. simpl in Hin. apply In_set in Hin as [Hin|Hin].
    - inversion Hin; subst. simpl.
      apply (Hid k c). now apply get_Some_In.
    - now apply Hid1. }
  destruct (pingTick_sweep _ Hu2 Hid2) as (_ & Hc3).
  rewrite Hc3. simpl connections.
  rewrite (filter_alive_after_answer k v (connections s1) _ Hu1 Hdead1 Hget1 eq_refl).
  reflexivity.
Qed.

Lemma answered_probe_survives_witness :
  connections
    (exec pingTick (exec (onPong "b" 40) (exec pingTick sample_server)))
  = [("b", mkClientConnection "b" 2%nat 0 40 false)].
Proof.
  exact (answered_probe_survives "b" _ 40 sample_server
           sample_server_keys_unique sample_server_ids_match eq_refl eq_refl).
Defined.

(** One round of the timeout sweep over the entries [es] after [pre]. *)
Lemma forEachKey_timeoutTick now : forall es pre s,
  connections s = pre ++ es ->
  NoDup (JsMap.keys (pre ++ es)) ->
  (forall k c, In (k, c) es -> id c = k) ->
  exists s',
    forEachKey (map fst es) (timeoutTick_cb now) tt s = (Normal tt, s') /\
    connections s' = pre ++ filter (fun kc => negb (timed_out now kc)) es.
Proof.
  induction es as [|[k c] es IH]; intros pre s Hc Hnd Hid.
  - exists s. simpl. unfold ret. rewrite Hc. tauto.
  - destruct (NoDup_keys_middle pre es k c Hnd) as [Hk Hnd'].
    simpl. rewrite Hc, (get_middle pre es k c Hk).
    unfold bind. unfold timeoutTick_cb at 1. unfold timed_out. cbn [snd lastPing].
    assert (Hidc : id c = k) by (apply Hid; now left).
    destruct (now - lastPing c >? timeoutInterval); cbn [negb].
    + rewrite Hidc.
      assert (Hget : JsMap.get k (connections s) = Some c)
        by (rewrite Hc; now apply get_middle).
      destruct (removeConnection_present k c s Hget) as (s1 & Hrun & Hc1 & _).
      unfold bind, ret. rewrite Hrun.
      rewrite Hc, (delete_middle pre es k c Hk) in Hc1.
      destruct (IH pre s1 Hc1 Hnd') as (s2 & Hrun2 & Hc2).
      * intros k' c' Hin. apply Hid. now right.
      * exists s2. split; [exact Hrun2|exact Hc2].
    + unfold ret at 1.
      destruct (IH (pre ++ [(k, c)]) s) as (s2 & Hrun2 & Hc2).
      * now rewrite Hc, <- app_assoc.
      * now rewrite <- app_assoc.
      * intros k' c' Hin. apply Hid. now right.
      * exists s2. split; [exact Hrun2|]. rewrite Hc2, <- app_assoc. reflexivity.
Qed.

(** X7. The timeout sweep.  On a table with unique keys whose entries
    are stored under their own ids, [timeoutTick] at time [now] returns
    and removes exactly the entries last heard of more than 60000 ms
    before [now]; an entry heard of exactly 60000 ms ago stays. *)
Theorem timeoutTick_removes_the_stale (now : Z) (s : Server) :
  keys_unique s -> ids_match s ->
  result (timeoutTick now) s = Normal tt /\
  connections (exec (timeoutTick now) s)
    = filter (fun kc => negb (timed_out now kc)) (connections s) /\
  forall k c, In (k, c) (connections s) ->
    (In (k, c) (connections (exec (timeoutTick now) s))
     <-> now - lastPing c <= 60000).
Proof.
  intros Hu Hid. unfold result, exec, timeoutTick, forEach, JsMap.keys.
  destruct (forEachKey_timeoutTick now (connections s) [] s eq_refl Hu Hid)
    as (s' & Hrun & Hc).
  rewrite Hrun. simpl. rewrite Hc. simpl. repeat split; auto.
  - intros Hin. apply filter_In in Hin as [_ Hin]. unfold timed_out in Hin.
    simpl in Hin. unfold timeoutInterval in Hin.
    apply negb_true_iff in Hin. rewrite Z.gtb_ltb in Hin.
    apply Z.ltb_ge in Hin. exact Hin.
  - intros Hle. apply filter_In. split; [assumption|].
    unfold timed_out, timeoutInterval. simpl. apply negb_true_iff.
    rewrite Z.gtb_ltb. apply Z.ltb_ge. exact Hle.
Qed.

Lemma timeoutTick_removes_the_stale_witness :
  connections (exec (timeoutTick 60000) sample_server)
    = connections sample_server /\
  connections (exec (timeoutTick 60001) sample_server) = [].
Proof.
  split.
  - exact (proj1 (proj2 (timeoutTick_removes_the_stale 60000 sample_server
                           sample_server_keys_unique sample_server_ids_match))).
  - exact (proj1 (proj2 (timeoutTick_removes_the_stale 60001 sample_server
                           sample_server_keys_unique sample_server_ids_match))).
Defined.

End HeartbeatMore.

(** ** Shutting the table down *)

Section DisconnectFacts.
Import ConnectionManager.

(** The closing loop over the entries [es], each still in the table. *)
Lemma forEachKey_disconnectAll : forall es s,
  (forall k c, In (k, c) es -> JsMap.get k (connections s) = Some c) ->
  exists s' closes,
    forEachKey (map fst es) disconnectAll_cb tt s = (Normal tt, s') /\
    connections s' = connections s /\
    pingTimer s' = pingTimer s /\ timeoutTimer s' = timeoutTimer s /\
    console s' = console s /\ outbox s' = outbox s /\
    wire s' = wire s ++ closes /\ Forall is_close closes /\
    (forall h, readyState (sockets s' h) = OPEN -> readyState (sockets s h) = OPEN) /\
    (forall k c, In (k, c) es -> readyState (sockets s' (ws c)) <> OPEN) /\
    (forall k c, In (k, c) es -> live (sockets s) c = true ->
                 In (WClose (ws c) None) closes).
Proof.
  induction es as [|[k c] es IH]; intros s Hget.
  - exists s, []. simpl. unfold ret. rewrite app_nil_r.
    repeat split; auto; intros; contradiction.
  - simpl. rewrite (Hget k c) by now left. unfold bind at 1.
    assert (Hstep : exists s1,
      disconnectAll_cb c k tt s = (Normal tt, s1) /\
      connections s1 = connections s /\
      pingTimer s1 = pingTimer s /\ timeoutTimer s1 = timeoutTimer s /\
      console s1 = console s /\ outbox s1 = outbox s /\
      wire s1 = wire s ++ (if live (sockets s) c then [WClose (ws c) None] else []) /\
      readyState (sockets s1 (ws c)) <> OPEN /\
      (forall h, h <> ws c -> sockets s1 h = sockets s h) /\
      (forall h, readyState (sockets s1 h) = OPEN -> readyState (sockets s h) = OPEN)).
    { unfold disconnectAll_cb, live, Ws.isOpen, Ws.getReadyState, Ws.close,
        bind, ret. simpl.
      destruct (readyState (sockets s (ws c))) eqn:E; simpl; rewrite ?E;
        eexists; (split; [reflexivity|]); simpl; rewrite ?app_nil_r;
        unfold update_socket; rewrite ?Nat.eqb_refl; simpl;
        repeat split; auto; try congruence;
        try (intros h Hh; apply Nat.eqb_neq in Hh; now rewrite Hh);
        intros h; destruct (Nat.eqb h (ws c)) eqn:Eh; simpl; auto;
        try discriminate. }
    destruct Hstep as (s1 & Hrun & Hc1 & Hp1 & Ht1 & Hl1 & Ho1 & Hw1 & Hclosed
                       & Hsame & Hmono).
    rewrite Hrun.
    destruct (IH s1) as (s2 & cl2 & Hrun2 & Hc2 & Hp2 & Ht2 & Hl2 & Ho2 & Hw2
                         & Hcl2 & Hmono2 & Hclosed2 & Hev2).
    { intros k' c' Hin. rewrite Hc1. apply Hget. now right. }
    exists s2, ((if live (sockets s) c then [WClose (ws c) None] else []) ++ cl2).
    split; [exact Hrun2|].
    repeat split; try congruence.
    + rewrite Hw2, Hw1. now rewrite app_assoc.
    + apply Forall_app. split; [|exact Hcl2].
      destruct (live (sockets s) c); repeat constructor.
    + intros h Hh. apply Hmono. now apply Hmono2.
    + intros k' c' [Hin|Hin].
      * inversion Hin; subst. intros Hopen. apply Hclosed. now apply Hmono2.
      * now apply (Hclosed2 k' c').
    + intros k' c' [Hin|Hin] Hlive.
      * inversion Hin; subst. rewrite Hlive. apply in_or_app. left. now left.
      * apply in_or_app.
        destruct (Nat.eq_dec (ws c') (ws c)) as [Heq|Hne].
        -- left. unfold live in Hlive. rewrite Heq in Hlive.
           unfold live. rewrite Hlive, Heq. now left.
        -- right. apply (Hev2 k' c' Hin). unfold live in *.
           now rewrite (Hsame (ws c') Hne).
Qed.

(** X8. [disconnectAll] on a table with unique keys returns, leaves the
    table empty and both heartbeat timers cleared, and does nothing to
    the sockets but close them: every connection whose socket was open
    gets a [close], and no socket of a former connection is still open.
    A second call finds nothing to do and changes nothing. *)
Theorem disconnectAll_closes_everything (s : Server) :
  keys_unique s ->
  exists closes,
    result disconnectAll s = Normal tt /\
    connections (exec disconnectAll s) = [] /\
    pingTimer (exec disconnectAll s) = false /\
    timeoutTimer (exec disconnectAll s) = false /\
    wire (exec disconnectAll s) = wire s ++ closes /\
    Forall is_close closes /\
    (forall k c, In (k, c) (connections s) ->
       readyState (sockets (exec disconnectAll s) (ws c)) <> OPEN /\
       (live (sockets s) c = true -> In (WClose (ws c) None) closes)) /\
    disconnectAll (exec disconnectAll s) = (Normal tt, exec disconnectAll s).
Proof.
  intros Hu.
  destruct (forEachKey_disconnectAll (connections s) s)
    as (s1 & closes & Hrun & Hc & Hp & Ht & Hl & Ho & Hw & Hcl & Hmono
        & Hclosed & Hev).
  { intros k c Hin. now apply get_In. }
  assert (E : disconnectAll s
              = (Normal tt, set_timers false false (set_connections [] s1))).
  { unfold disconnectAll, forEach, JsMap.keys. unfold bind at 1.
    rewrite Hrun. reflexivity. }
  exists closes. unfold result, exec. rewrite E. simpl.
  repeat split; auto.
  - now apply (Hclosed k c).
  - now apply (Hev k c).
Qed.

Lemma disconnectAll_closes_everything_witness :
  connections (exec disconnectAll sample_server) = [] /\
  disconnectAll (exec disconnectAll sample_server)
    = (Normal tt, exec disconnectAll sample_server).
Proof.
  destruct (disconnectAll_closes_everything sample_server
              sample_server_keys_unique)
    as (closes & _ & H1 & _ & _ & _ & _ & _ & H2).
  split; [exact H1|exact H2].
Defined.

End DisconnectFacts.

(** ** Entries are stored under their own ids *)

Section KeepsFacts.
Variable Q : JsMap.t ClientConnection -> Prop.

Lemma keeps_ret {A} (a : A) : keeps Q (ret a).
Proof. intros s H. exact H. Qed.

Lemma keeps_unchanged {A} (m : Js Server A) :
  (forall s, connections (snd (m s)) = connections s) -> keeps Q m.
Proof. intros H s Hq. now rewrite H. Qed.

Lemma keeps_bind {A B} (m : Js Server A) (k : A -> Js Server B) :
  keeps Q m -> (forall a, keeps Q (k a)) -> keeps Q (bind m k).
Proof.
  intros Hm Hk s Hq. unfold bind. specialize (Hm s Hq).
  destruct (m s) as [[a|e] s1]; simpl in *; [|assumption].
  now apply Hk.
Qed.

Lemma keeps_try_catch {A} (m : Js Server A) (h : string -> Js Server A) :
  keeps Q m -> (forall e, keeps Q (h e)) -> keeps Q (try_catch m h).
Proof.
  intros Hm Hh s Hq. unfold try_catch. specialize (Hm s Hq).
  destruct (m s) as [[a|e] s1]; simpl in *; [assumption|].
  now apply Hh.
Qed.

Lemma keeps_forEachKey {A}
    (cb : ClientConnection -> string -> A -> Js Server A) :
  (forall conn k acc s,
      JsMap.get k (connections s) = Some conn ->
      Q (connections s) -> Q (connections (snd (cb conn k acc s)))) ->
  forall ks acc, keeps Q (ConnectionManager.forEachKey ks cb acc).
Proof.
  intros Hcb ks. induction ks as [|k ks IH]; intros acc s Hq; simpl.
  - exact Hq.
  - destruct (JsMap.get k (connections s)) as [conn|] eqn:E; [|now apply IH].
    unfold bind. specialize (Hcb conn k acc s E Hq).
    destruct (cb conn k acc s) as [[acc'|e] s1]; simpl in *; [|assumption].
    now apply IH.
Qed.

End KeepsFacts.

Create HintDb keeps.

Lemma keeps_removal Q clientId :
  (forall m m', (forall kv, In kv m' -> In kv m) -> Q m -> Q m') ->
  keeps Q (ConnectionManager.removeConnection clientId).
Proof.
  intros Hsub s Hq.
  destruct (removeConnection_frame clientId s)
    as (b & s' & cl & Hrun & _ & _ & Hin & _).
  rewrite Hrun. simpl. eapply Hsub; eauto.
Qed.

Lemma ids_match_in_sub m m' :
  (forall kv, In kv m' -> In kv m) -> ids_match_in m -> ids_match_in m'.
Proof. intros Hsub H k c Hin. apply H. now apply Hsub. Qed.

Lemma ids_keeps_removeConnection clientId :
  keeps ids_match_in (ConnectionManager.removeConnection clientId).
Proof. apply keeps_removal. exact ids_match_in_sub. Qed.

Lemma ids_keeps_set k c c' s :
  JsMap.get k (connections s) = Some c -> id c' = id c ->
  ids_match_in (connections s) ->
  ids_match_in (JsMap.set k c' (connections s)).
Proof.
  intros Hget Hid H k0 c0 Hin. apply In_set in Hin as [Hin|Hin]; [|now apply H].
  inversion Hin; subst. rewrite Hid. apply H. now apply get_Some_In.
Qed.

#[local] Hint Resolve keeps_ret ids_keeps_removeConnection : keeps.

Ltac keeps_same := apply keeps_unchanged; intros ?; reflexivity.

Lemma ids_keeps_isOpen h : keeps ids_match_in (Ws.isOpen h).
Proof. keeps_same. Qed.

Lemma ids_keeps_send h data : keeps ids_match_in (Ws.send h data).
Proof.
  apply keeps_unchanged. intros s. unfold Ws.send.
  now destruct (sendThrows (sockets s h)).
Qed.

Lemma ids_keeps_close h code : keeps ids_match_in (Ws.close h code).
Proof.
  apply keeps_unchanged. intros s. unfold Ws.close.
  now destruct (readyState (sockets s h)).
Qed.

Lemma ids_keeps_ping h : keeps ids_match_in (Ws.ping h).
Proof. keeps_same. Qed.

Lemma ids_keeps_log l : keeps ids_match_in (modify (log l)).
Proof. keeps_same. Qed.

Lemma ids_keeps_get : keeps ids_match_in (@get Server).
Proof. keeps_same. Qed.

Lemma ids_keeps_throw {A} e : keeps ids_match_in (@throw Server A e).
Proof. keeps_same. Qed.

Lemma ids_keeps_record m : keeps ids_match_in (modify (record_broadcast m)).
Proof. keeps_same. Qed.

Lemma ids_keeps_timers p t : keeps ids_match_in (modify (set_timers p t)).
Proof. keeps_same. Qed.

#[local] Hint Resolve ids_keeps_isOpen ids_keeps_send ids_keeps_close
  ids_keeps_ping ids_keeps_log ids_keeps_get ids_keeps_throw ids_keeps_record
  ids_keeps_timers : keeps.

Ltac keeps_step :=
  first [ solve [auto with keeps]
        | apply keeps_bind; [|intros ?]
        | apply keeps_try_catch; [|intros ?]
        | match goal with |- keeps _ (if ?b then _ else _) => destruct b end
        | match goal with |- keeps _ (match ?x with _ => _ end) => destruct x end ].

Lemma ids_keeps_removeAll dead :
  keeps ids_match_in (ConnectionManager.removeAll dead).
Proof. induction dead; simpl; repeat keeps_step. Qed.

Lemma ids_keeps_sendToClient clientId message :
  keeps ids_match_in (ConnectionManager.sendToClient clientId message).
Proof. unfold ConnectionManager.sendToClient. repeat keeps_step. Qed.

Lemma ids_keeps_updatePing clientId now :
  keeps ids_match_in (ConnectionManager.updatePing clientId now).
Proof.
  intros s H. unfold ConnectionManager.updatePing, bind, get, modify.
  destruct (JsMap.get clientId (connections s)) eqn:E; [|exact H].
  simpl. eapply ids_keeps_set; eauto.
Qed.

Lemma ids_keeps_onPong clientId now :
  keeps ids_match_in (ConnectionManager.onPong clientId now).
Proof.
  intros s H. unfold ConnectionManager.onPong, bind, get, modify.
  destruct (JsMap.get clientId (connections s)) eqn:E; [|exact H].
  simpl. eapply ids_keeps_set; eauto.
Qed.

Lemma ids_keeps_addConnection w clientId now :
  keeps ids_match_in (ConnectionManager.addConnection w clientId now).
Proof.
  intros s H. unfold ConnectionManager.addConnection, bind, get, ret, modify.
  destruct (_ >=? _); simpl; [exact H|].
  intros k c Hin. apply In_set in Hin as [Hin|Hin]; [|now apply H].
  now inversion Hin.
Qed.

#[local] Hint Resolve ids_keeps_removeAll ids_keeps_sendToClient
  ids_keeps_updatePing ids_keeps_onPong ids_keeps_addConnection : keeps.

Lemma ids_keeps_forEach {A}
    (cb : ClientConnection -> string -> A -> Js Server A) acc :
  (forall conn k acc s,
      JsMap.get k (connections s) = Some conn ->
      ids_match_in (connections s) ->
      ids_match_in (connections (snd (cb conn k acc s)))) ->
  keeps ids_match_in (ConnectionManager.forEach cb acc).
Proof.
  intros H s. unfold ConnectionManager.forEach. now apply keeps_forEachKey.
Qed.

Ltac to_keeps :=
  match goal with
  | H : ?Q (connections ?s) |- ?Q (connections (snd (?m ?s))) =>
      apply (fun K : keeps Q m => K s H)
  end.

Lemma ids_keeps_broadcast message :
  keeps ids_match_in (ConnectionManager.broadcast message).
Proof.
  unfold ConnectionManager.broadcast, ConnectionManager.deliver.
  apply keeps_bind; [|auto with keeps].
  apply ids_keeps_forEach. intros conn k acc s _ H.
  unfold ConnectionManager.broadcast_cb. to_keeps. repeat keeps_step.
Qed.

Lemma ids_keeps_pingTick : keeps ids_match_in ConnectionManager.pingTick.
Proof.
  apply ids_keeps_forEach. intros conn k [] s Hget H.
  unfold ConnectionManager.pingTick_cb.
  destruct (negb (isAlive conn)).
  - to_keeps. repeat keeps_step.
  - unfold bind at 1, modify at 1.
    assert (H1 : ids_match_in (connections (set_connections
                   (JsMap.set k (set_isAlive false conn) (connections s)) s))).
    { simpl. eapply ids_keeps_set; eauto. }
    to_keeps. repeat keeps_step.
Qed.

Lemma ids_keeps_timeoutTick now :
  keeps ids_match_in (ConnectionManager.timeoutTick now).
Proof.
  apply ids_keeps_forEach. intros conn k [] s _ H.
  unfold ConnectionManager.timeoutTick_cb. to_keeps. repeat keeps_step.
Qed.

Lemma ids_keeps_disconnectAll : keeps ids_match_in ConnectionManager.disconnectAll.
Proof.
  unfold ConnectionManager.disconnectAll.
  apply keeps_bind; [|intros _; apply keeps_bind; [|intros _]].
  - apply ids_keeps_forEach. intros conn k [] s _ H.
    unfold ConnectionManager.disconnectAll_cb. to_keeps. repeat keeps_step.
  - intros s _ k c [].
  - unfold ConnectionManager.stopHeartbeat. auto with keeps.
Qed.

#[local] Hint Resolve ids_keeps_broadcast ids_keeps_pingTick
  ids_keeps_timeoutTick ids_keeps_disconnectAll : keeps.

Section ReachableTable.
Context {P : Platform}.

Lemma ids_keeps_parse raw : keeps ids_match_in (MessageBroker.parse raw).
Proof. unfold MessageBroker.parse. repeat keeps_step. Qed.

Lemma ids_keeps_get_type message :
  keeps ids_match_in (MessageBroker.get_type message).
Proof. destruct message; simpl; auto with keeps. Qed.

#[local] Hint Resolve ids_keeps_parse ids_keeps_get_type : keeps.

Lemma ids_keeps_runOp now op : keeps ids_match_in (EventLoop.runOp now op).
Proof.
  destruct op; simpl; unfold EventLoop.void;
    solve [repeat keeps_step].
Qed.

(** X9. In every state a new manager can reach, under any sequence of
    socket events, interval ticks, acceptances and method calls, each
    entry of the table is stored under its own [id] and no key occurs
    twice. *)
Theorem reachable_tables_are_well_keyed (socks : Handle -> WebSocket)
    (ops : list (Z * ServerOp)) :
  ids_match (EventLoop.runOps ops (ConnectionManager.create socks)) /\
  keys_unique (EventLoop.runOps ops (ConnectionManager.create socks)).
Proof.
  split; [|apply runOps_invariant; constructor].
  assert (H : forall ops s, ids_match s -> ids_match (EventLoop.runOps ops s)).
  { clear. intros ops. induction ops as [|[now op] ops IH]; intros s H; simpl;
      [exact H|].
    apply IH. apply (ids_keeps_runOp now op s H). }
  apply H. intros k c [].
Qed.

End ReachableTable.

(** ** The messages the router acts on *)

Section PingFacts.
Context {P : Platform}.

Lemma handleStudentMessage_ping clientId raw now s v :
  JSON_parse raw = Some v ->
  MessageBroker.is_type PING (type_field v) = true ->
  MessageBroker.handleStudentMessage clientId raw now s
    = try_catch
        (ConnectionManager.updatePing clientId now ;;;
         MessageBroker.sendPong clientId now)
        (fun _ => modify (log (LogError "Error parsing message from client"
                                        clientId))) s.
Proof.
  intros Hv Hping.
  unfold MessageBroker.handleStudentMessage, MessageBroker.parse.
  rewrite Hv. unfold try_catch, bind at 1, ret at 1.
  destruct v; simpl in Hping; try discriminate.
  unfold bind at 1. simpl. unfold ret at 1. simpl in Hping. now rewrite Hping.
Qed.

(** X10. A message whose [type] is [ping] from a client of the table
    refreshes that client's entry ([lastPing] becomes the time of
    arrival, [isAlive] becomes true) and, if its socket is open and
    accepts the frame, sends it exactly one [pong] carrying that time;
    with a socket that is not open the entry is refreshed and nothing
    is sent.  A [ping] under an id that is not in the table, and an
    [auth] message, change nothing at all.  The handler returns
    normally in each case. *)
Theorem ping_is_answered_with_pong (clientId raw : string) (now : Z)
    (s : Server) (v : Json) :
  JSON_parse raw = Some v ->
  let run := MessageBroker.handleStudentMessage clientId raw now in
  (MessageBroker.is_type PING (type_field v) = true ->
   forall c, JsMap.get clientId (connections s) = Some c ->
     let refreshed :=
       set_connections
         (JsMap.set clientId (set_isAlive true (set_lastPing now c))
                    (connections s)) s in
     (readyState (sockets s (ws c)) = OPEN ->
      sendThrows (sockets s (ws c)) = false ->
      run s = (Normal tt,
               emit (WSend (ws c) (JSON_stringify (PongMessage now)))
                    refreshed)) /\
     (readyState (sockets s (ws c)) <> OPEN ->
      run s = (Normal tt, refreshed))) /\
  (MessageBroker.is_type PING (type_field v) = true ->
   JsMap.get clientId (connections s) = None ->
   run s = (Normal tt, s)) /\
  (MessageBroker.is_type PING (type_field v) = false ->
   MessageBroker.is_type AUTH (type_field v) = true ->
   run s = (Normal tt, s)).
Proof.
  intros Hv run. subst run. split; [|split].
  - intros Hping c Hget refreshed.
    rewrite (handleStudentMessage_ping _ _ _ _ _ Hv Hping).
    assert (Hget' : JsMap.get clientId (connections refreshed)
                    = Some (set_isAlive true (set_lastPing now c))).
    { unfold refreshed. simpl. apply get_set_same. }
    assert (Hup : ConnectionManager.updatePing clientId now s
                  = (Normal tt, refreshed)).
    { unfold ConnectionManager.updatePing, bind, get, modify.
      now rewrite Hget. }
    assert (Hrun : forall r,
              MessageBroker.sendPong clientId now refreshed = (Normal tt, r) ->
              try_catch
                (ConnectionManager.updatePing clientId now ;;;
                 MessageBroker.sendPong clientId now)
                (fun _ => modify (log (LogError
                   "Error parsing message from client" clientId))) s
              = (Normal tt, r)).
    { intros r Hr. unfold try_catch, bind. now rewrite Hup, Hr. }
    split.
    + intros Hopen Hsend. apply Hrun.
      unfold MessageBroker.sendPong, ConnectionManager.sendToClient,
        Ws.isOpen, Ws.getReadyState, bind, get, ret.
      rewrite Hget'. cbv beta iota.
      change (sockets refreshed) with (sockets s).
      change (ws (set_isAlive true (set_lastPing now c))) with (ws c).
      rewrite Hopen. simpl. unfold try_catch, Ws.send.
      change (sockets refreshed) with (sockets s). now rewrite Hsend.
    + intros Hclosed. apply Hrun.
      unfold MessageBroker.sendPong, ConnectionManager.sendToClient,
        Ws.isOpen, Ws.getReadyState, bind, get, ret.
      rewrite Hget'. cbv beta iota.
      change (sockets refreshed) with (sockets s).
      change (ws (set_isAlive true (set_lastPing now c))) with (ws c).
      destruct (readyState (sockets s (ws c))); try reflexivity.
      now elim Hclosed.
  - intros Hping Hget.
    rewrite (handleStudentMessage_ping _ _ _ _ _ Hv Hping).
    unfold try_catch, ConnectionManager.updatePing, MessageBroker.sendPong,
      ConnectionManager.sendToClient, bind, get, ret.
    rewrite Hget. cbv beta iota. now rewrite Hget.
  - intros Hping Hauth.
    unfold MessageBroker.handleStudentMessage, MessageBroker.parse.
    rewrite Hv. unfold try_catch, bind at 1, ret at 1.
    destruct v; simpl in Hauth; try discriminate.
    unfold bind at 1. simpl. unfold ret at 1. simpl in Hping.
    now rewrite Hping, Hauth.
Qed.

End PingFacts.

Lemma ping_is_answered_with_pong_witness :
  MessageBroker.handleStudentMessage (P := Reference.platform)
    "c" (Reference.typeOnly "ping") 7 sample_server
    = (Normal tt,
       emit (WSend 3%nat (Reference.typeOnly "pong"))
         (set_connections
            (JsMap.set "c" (mkClientConnection "c" 3%nat 0 7 true)
                       (connections sample_server)) sample_server)) /\
  MessageBroker.handleStudentMessage (P := Reference.platform)
    "b" (Reference.typeOnly "ping") 7 sample_server
    = (Normal tt,
       set_connections
         (JsMap.set "b" (mkClientConnection "b" 2%nat 0 7 true)
                    (connections sample_server)) sample_server) /\
  MessageBroker.handleStudentMessage (P := Reference.platform)
    "zz" (Reference.typeOnly "ping") 7 sample_server
    = (Normal tt, sample_server) /\
  MessageBroker.handleStudentMessage (P := Reference.platform)
    "c" (Reference.typeOnly "auth") 7 sample_server
    = (Normal tt, sample_server).
Proof.
  assert (Hp : JSON_parse (Platform := Reference.platform)
                 (Reference.typeOnly "ping")
               = Some (JObject [("type", JString "ping")]))
    by (vm_compute; reflexivity).
  assert (Ha : JSON_parse (Platform := Reference.platform)
                 (Reference.typeOnly "auth")
               = Some (JObject [("type", JString "auth")]))
    by (vm_compute; reflexivity).
  split; [|split; [|split]].
  - destruct (ping_is_answered_with_pong (P := Reference.platform)
                "c" _ 7 sample_server _ Hp) as (H & _ & _).
    destruct (H eq_refl (mkClientConnection "c" 3%nat 0 0 true) eq_refl)
      as (H1 & _).
    apply H1; reflexivity.
  - destruct (ping_is_answered_with_pong (P := Reference.platform)
                "b" _ 7 sample_server _ Hp) as (H & _ & _).
    destruct (H eq_refl (mkClientConnection "b" 2%nat 0 0 true) eq_refl)
      as (_ & H2).
    apply H2. discriminate.
  - destruct (ping_is_answered_with_pong (P := Reference.platform)
                "zz" _ 7 sample_server _ Hp) as (_ & H & _).
    apply H; reflexivity.
  - destruct (ping_is_answered_with_pong (P := Reference.platform)
                "c" _ 7 sample_server _ Ha) as (_ & _ & H).
    apply H; reflexivity.
Defined.

(** ** Accepting a student *)

Section AcceptFacts.
Context {P : Platform}.

Lemma handleWebSocketConnection_joined sc w clientId now s :
  JsMap.size (connections s) < 50 ->
  clientId <> EmptyString ->
  JsMap.get clientId (connections s) = None ->
  WebSocketServer.handleWebSocketConnection sc w clientId now s
    = match sc with
      | Some c =>
          MessageBroker.sendConnected clientId (cfg_sessionId c) None now
      | None => ret tt
      end
        (log (LogInfo "New client connected" clientId)
           (set_connections
              (connections s
               ++ [(clientId, mkClientConnection clientId w now now true)]) s)).
Proof.
  intros Hsize Hne Hfresh.
  unfold WebSocketServer.handleWebSocketConnection. unfold bind at 1.
  change (ConnectionManager.getConnectionCount s)
    with (Normal (JsMap.size (connections s)), s).
  cbv iota beta.
  replace (JsMap.size (connections s) >=? 50) with false
    by (symmetry; rewrite Z.geb_leb; apply Z.leb_gt; lia).
  unfold bind at 1.
  rewrite (addConnection_appends w clientId now s Hsize Hfresh).
  destruct clientId as [|a k]; [now elim Hne|].
  reflexivity.
Qed.

(** X11. Accepting a student below capacity.  With fewer than fifty
    connections and a new id, the socket is entered in the table and the
    arrival is logged; when a session is configured and the socket is
    open and accepts the frame, the newcomer, and nobody else, is sent
    one [connected] message that carries the session id and the time.
    If that first send throws, the newcomer is dropped again and the
    table ends as it began.  With no session configured nothing is
    sent. *)
Theorem accepted_student_is_welcomed (w : Handle) (clientId : string)
    (now : Z) (s : Server) :
  JsMap.size (connections s) < 50 ->
  clientId <> EmptyString ->
  JsMap.get clientId (connections s) = None ->
  let joined :=
    log (LogInfo "New client connected" clientId)
      (set_connections
         (connections s
          ++ [(clientId, mkClientConnection clientId w now now true)]) s) in
  (forall c,
     readyState (sockets s w) = OPEN -> sendThrows (sockets s w) = false ->
     WebSocketServer.handleWebSocketConnection (Some c) w clientId now s
       = (Normal tt,
          emit (WSend w (JSON_stringify
                           (ConnectedMessage now (cfg_sessionId c) None)))
               joined)) /\
  (forall c,
     readyState (sockets s w) = OPEN -> sendThrows (sockets s w) = true ->
     result (WebSocketServer.handleWebSocketConnection (Some c) w clientId now) s
       = Normal tt /\
     connections
       (exec (WebSocketServer.handleWebSocketConnection (Some c) w clientId now) s)
       = connections s) /\
  WebSocketServer.handleWebSocketConnection None w clientId now s
    = (Normal tt, joined).
Proof.
  intros Hsize Hne Hfresh joined.
  assert (Hget : JsMap.get clientId (connections joined)
                 = Some (mkClientConnection clientId w now now true)).
  { unfold joined. simpl. rewrite (get_app_absent _ _ _ _ Hfresh). simpl.
    now rewrite String.eqb_refl. }
  split; [|split].
  - intros c Hopen Hsend.
    rewrite (handleWebSocketConnection_joined _ _ _ _ _ Hsize Hne Hfresh).
    fold joined.
    unfold MessageBroker.sendConnected, ConnectionManager.sendToClient,
      Ws.isOpen, Ws.getReadyState, bind, get, ret.
    rewrite Hget. cbv beta iota.
    change (sockets joined) with (sockets s).
    change (ws (mkClientConnection clientId w now now true)) with w.
    rewrite Hopen. simpl. unfold try_catch, Ws.send.
    change (sockets joined) with (sockets s). now rewrite Hsend.
  - intros c Hopen Hsend. unfold result, exec.
    rewrite (handleWebSocketConnection_joined _ _ _ _ _ Hsize Hne Hfresh).
    fold joined.
    set (data := JSON_stringify (ConnectedMessage now (cfg_sessionId c) None)).
    set (s1 := log (LogError "Error sending message to client" clientId)
                   (emit (WSendThrow w data) joined)).
    assert (Hget1 : JsMap.get clientId (connections s1)
                    = Some (mkClientConnection clientId w now now true))
      by exact Hget.
    destruct (removeConnection_present clientId _ s1 Hget1)
      as (s2 & Hrun & Hc2 & _).
    assert (E : MessageBroker.sendConnected clientId (cfg_sessionId c) None
                  now joined = (Normal tt, s2)).
    { unfold MessageBroker.sendConnected, ConnectionManager.sendToClient,
        Ws.isOpen, Ws.getReadyState.
      unfold bind at 1. unfold bind at 1, get at 1. rewrite Hget.
      unfold bind at 1, bind at 1, ret at 1.
      change (sockets joined) with (sockets s).
      change (ws (mkClientConnection clientId w now now true)) with w.
      rewrite Hopen. change (ReadyState_eqb OPEN OPEN) with true.
      unfold try_catch, bind at 1, Ws.send. cbv beta iota.
      change (sockets joined) with (sockets s). rewrite Hsend.
      fold data. unfold bind at 1, modify at 1. fold s1.
      unfold bind at 1. rewrite Hrun. reflexivity. }
    rewrite E. simpl. split; [reflexivity|].
    rewrite Hc2. unfold s1, joined. simpl. now apply delete_last.
  - now rewrite (handleWebSocketConnection_joined _ _ _ _ _ Hsize Hne Hfresh).
Qed.

End AcceptFacts.

Lemma accepted_student_is_welcomed_witness :
  WebSocketServer.handleWebSocketConnection (P := Reference.platform)
    (Some (mkSessionConfig "lesson" None 8765 0)) 4%nat "d" 9 sample_server
    = (Normal tt,
       emit (WSend 4%nat (Reference.typeOnly "connected"))
         (log (LogInfo "New client connected" "d")
            (set_connections
               (connections sample_server
                ++ [("d", mkClientConnection "d" 4%nat 9 9 true)])
               sample_server))) /\
  connections
    (exec (WebSocketServer.handleWebSocketConnection (P := Reference.platform)
             (Some (mkSessionConfig "lesson" None 8765 0)) 1%nat "d" 9)
          sample_server)
    = connections sample_server.
Proof.
  assert (Hsize : JsMap.size (connections sample_server) < 50)
    by (vm_compute; reflexivity).
  assert (Hne : "d" <> EmptyString) by discriminate.
  split.
  - destruct (accepted_student_is_welcomed (P := Reference.platform)
                4%nat "d" 9 sample_server Hsize Hne eq_refl) as (H & _ & _).
    apply H; reflexivity.
  - destruct (accepted_student_is_welcomed (P := Reference.platform)
                1%nat "d" 9 sample_server Hsize Hne eq_refl) as (_ & H & _).
    destruct (H (mkSessionConfig "lesson" None 8765 0) eq_refl eq_refl)
      as (_ & H2).
    exact H2.
Defined.

(** ** Shutting the server down *)

Section StopFacts.
Context {P : Platform}.

Lemma disconnectAll_empties (s : Server) :
  exists s', ConnectionManager.disconnectAll s = (Normal tt, s') /\
             connections s' = [] /\ pingTimer s' = false /\
             timeoutTimer s' = false /\ outbox s' = outbox s.
Proof.
  unfold ConnectionManager.disconnectAll, ConnectionManager.forEach.
  assert (H : forall ks s0, exists s1,
             ConnectionManager.forEachKey ks ConnectionManager.disconnectAll_cb
               tt s0 = (Normal tt, s1) /\ outbox s1 = outbox s0).
  { induction ks as [|k ks IH]; intros s0; simpl.
    - eexists; split; reflexivity.
    - destruct (JsMap.get k (connections s0)) as [c|]; [|apply IH].
      unfold bind at 1.
      assert (Hcb : exists s1,
                ConnectionManager.disconnectAll_cb c k tt s0 = (Normal tt, s1)
                /\ outbox s1 = outbox s0).
      { unfold ConnectionManager.disconnectAll_cb, Ws.isOpen, Ws.getReadyState,
          Ws.close, bind, ret.
        destruct (readyState (sockets s0 (ws c))) eqn:E; simpl; rewrite ?E;
          eexists; split; reflexivity. }
      destruct Hcb as (s1 & E1 & Ho1). rewrite E1.
      destruct (IH s1) as (s2 & E2 & Ho2). exists s2. split; [exact E2|congruence]. }
  destruct (H (JsMap.keys (connections s)) s) as (s1 & E1 & Ho1).
  unfold bind at 1. rewrite E1.
  eexists. split; [reflexivity|]. simpl. auto.
Qed.

(** X12. Stopping the server.  [stop] announces the shutdown, by one
    [server_closing] message handed to the broadcast, exactly when the
    table is not empty at that moment; with an empty table nothing is
    announced.  Whatever happens during the grace period that follows,
    the final [disconnectAll] returns and leaves an empty table with
    both interval timers cleared. *)
Theorem stop_announces_then_disconnects (now : Z) (s : Server)
    (during : list (Z * ServerOp)) :
  let announced := WebSocketServer.stop_notify now s in
  (connections s <> [] ->
   fst announced = Normal true /\
   outbox (snd announced)
     = outbox s ++ [ServerClosingMessage now "Server is shutting down"]) /\
  (connections s = [] -> announced = (Normal false, s)) /\
  let stopped :=
    ConnectionManager.disconnectAll (EventLoop.runOps during (snd announced)) in
  fst stopped = Normal tt /\
  connections (snd stopped) = [] /\
  pingTimer (snd stopped) = false /\ timeoutTimer (snd stopped) = false.
Proof.
  intros announced. split; [|split].
  - intros Hne.
    assert (Hgt : (JsMap.size (connections s) >? 0) = true).
    { apply Z.gtb_lt. unfold JsMap.size.
      destruct (connections s); [now elim Hne|simpl List.length; lia]. }
    destruct (broker_broadcast_spec
                (ServerClosingMessage now "Server is shutting down") s)
      as (s1 & E & Ho).
    assert (E0 : WebSocketServer.stop_notify now s = (Normal true, s1)).
    { unfold WebSocketServer.stop_notify. unfold bind at 1.
      change (ConnectionManager.getConnectionCount s)
        with (Normal (JsMap.size (connections s)), s).
      cbv iota beta. rewrite Hgt.
      unfold MessageBroker.broadcastServerClosing, bind. now rewrite E. }
    unfold announced. rewrite E0. simpl. auto.
  - intros He. unfold announced, WebSocketServer.stop_notify.
    unfold bind at 1.
    change (ConnectionManager.getConnectionCount s)
      with (Normal (JsMap.size (connections s)), s).
    cbv iota beta. rewrite He. reflexivity.
  - intros stopped.
    destruct (disconnectAll_empties (EventLoop.runOps during (snd announced)))
      as (s' & E & Hc & Hp & Ht & _).
    unfold stopped. rewrite E. simpl. auto.
Qed.

End StopFacts.

Lemma stop_announces_then_disconnects_witness :
  outbox (snd (WebSocketServer.stop_notify (P := Reference.platform) 3
                 sample_server))
    = [ServerClosingMessage 3 "Server is shutting down"] /\
  WebSocketServer.stop_notify (P := Reference.platform) 3
    (ConnectionManager.create sample_sockets)
    = (Normal false, ConnectionManager.create sample_sockets) /\
  connections
    (snd (ConnectionManager.disconnectAll
            (EventLoop.runOps (P := Reference.platform)
               [(5, OpAccept None 4%nat "d")]
               (snd (WebSocketServer.stop_notify (P := Reference.platform) 3
                       sample_server)))))
    = [].
Proof.
  split; [|split].
  - destruct (stop_announces_then_disconnects (P := Reference.platform)
                3 sample_server []) as (H & _).
    apply H. discriminate.
  - destruct (stop_announces_then_disconnects (P := Reference.platform)
                3 (ConnectionManager.create sample_sockets) [])
      as (_ & H & _).
    apply H. reflexivity.
  - destruct (stop_announces_then_disconnects (P := Reference.platform)
                3 sample_server [(5, OpAccept None 4%nat "d")])
      as (_ & _ & _ & H & _).
    exact H.
Defined.

(** ** The number a [stats] message reports *)

Section StatsFacts.
Context {P : Platform}.

Lemma filter_length_all {A} (f : A -> bool) (l : list A) :
  List.length (filter f l) = List.length l <-> (forall x, In x l -> f x = true).
Proof.
  induction l as [|a l IH]; simpl; [tauto|].
  pose proof (filter_length_le f l) as Hle.
  destruct (f a) eqn:E; simpl.
  - split.
    + intros H x [Hx|Hx]; [now subst|]. apply IH; [lia|exact Hx].
    + intros H. f_equal. apply IH. auto.
  - split; [lia|]. intros H. rewrite (H a) in E by now left. discriminate.
Qed.

(** X13. [broadcastStats] returns and hands on one [stats] message whose
    [connectedStudents] is the size of the table when the call began.
    That is counted before the broadcast drops the connections it cannot
    reach: the table afterwards holds exactly the connections the
    message was delivered to, so the reported number is never below the
    number of students that received it, and equals it only when every
    socket was open and accepted the frame. *)
Theorem broadcastStats_counts_before_cleanup (now : Z) (s : Server) :
  keys_unique s ->
  let n := JsMap.size (connections s) in
  let s' := exec (MessageBroker.broadcastStats now) s in
  result (MessageBroker.broadcastStats now) s = Normal tt /\
  outbox s' = outbox s ++ [StatsMessage now n] /\
  connections s'
    = filter (fun kc => delivered (sockets s) (snd kc)) (connections s) /\
  JsMap.size (connections s') <= n /\
  (JsMap.size (connections s') = n <->
   forall k c, In (k, c) (connections s) -> delivered (sockets s) c = true).
Proof.
  intros Hu n s'.
  destruct (broker_broadcast_spec (StatsMessage now n) s) as (s1 & E & Ho).
  assert (E0 : MessageBroker.broadcastStats now s = (Normal tt, s1)).
  { unfold MessageBroker.broadcastStats. unfold bind at 1.
    change (ConnectionManager.getConnectionCount s)
      with (Normal (JsMap.size (connections s)), s).
    cbv iota beta. exact E. }
  assert (Hc : connections s1
    = filter (fun kc => delivered (sockets s) (snd kc)) (connections s)).
  { pose proof (broadcast_connections
                  (JSON_stringify (StatsMessage now n))
                  (record_broadcast (StatsMessage now n) s) Hu) as H.
    unfold exec in H. simpl sockets in H. simpl connections in H at 2.
    rewrite <- H. f_equal.
    unfold MessageBroker.broadcast, bind at 1, modify in E.
    cbv iota beta in E.
    destruct (ConnectionManager.broadcast _ _) as [r s2]. simpl.
    now inversion E. }
  unfold s', result, exec. rewrite E0. simpl.
  split; [reflexivity|]. split; [exact Ho|]. split; [exact Hc|].
  rewrite Hc. unfold n, JsMap.size. split.
  - apply Nat2Z.inj_le. apply filter_length_le.
  - rewrite Nat2Z.inj_iff, filter_length_all. split.
    + intros H k c Hin. exact (H (k, c) Hin).
    + intros H [k c] Hin. exact (H k c Hin).
Qed.

End StatsFacts.

Lemma broadcastStats_counts_before_cleanup_witness :
  outbox (exec (MessageBroker.broadcastStats (P := Reference.platform) 8)
               sample_server)
    = [StatsMessage 8 3] /\
  JsMap.keys
    (connections (exec (MessageBroker.broadcastStats (P := Reference.platform) 8)
                       sample_server))
    = ["c"].
Proof.
  destruct (broadcastStats_counts_before_cleanup (P := Reference.platform)
              8 sample_server sample_server_keys_unique)
    as (_ & H1 & H2 & _).
  split; [exact H1|]. rewrite H2. reflexivity.
Defined.

(** ** What the patterns of the filter can and cannot do *)

Section PatternFacts.
Context {P : Platform}.

Lemma existsb_incl {A} (f : A -> bool) (l l' : list A) :
  incl l l' -> existsb f l = true -> existsb f l' = true.
Proof.
  intros Hi H. apply existsb_exists in H as (x & Hin & Hx).
  apply existsb_exists. exists x. split; [now apply Hi|exact Hx].
Qed.

Lemma shares_unfold cfg filePath folder this :
  shares cfg filePath folder this
  = FileFilter.decide filePath folder
      (FileFilter.mk (includes_of cfg) (excludes_of cfg)
                     (get_or (maxFileSize_setting cfg) 1048576)).
Proof. reflexivity. Qed.

(** X14. Exclude patterns only ever withhold.  If two settings have the
    same include list and every exclude pattern in force under the first
    is also in force under the second, then every file the second
    shares, the first shares too; the fields the filter held before the
    call play no part. *)
Theorem more_excludes_share_less (cfg1 cfg2 : SyncConfig) (filePath : string)
    (folder : option string) (this1 this2 : FileFilter.t) :
  includes_of cfg1 = includes_of cfg2 ->
  incl (excludes_of cfg1) (excludes_of cfg2) ->
  shares cfg2 filePath folder this2 = true ->
  shares cfg1 filePath folder this1 = true.
Proof.
  intros Hinc Hexc. rewrite !shares_unfold. unfold FileFilter.decide. simpl.
  rewrite Hinc.
  destruct (match folder with
            | Some f => negb (String.prefix (path_normalize f)
                                            (path_normalize filePath))
            | None => false
            end); [discriminate|].
  destruct (existsb _ (excludes_of cfg2)) eqn:E2; [discriminate|].
  destruct (existsb _ (excludes_of cfg1)) eqn:E1; [|auto].
  rewrite (existsb_incl _ _ _ Hexc E1) in E2. discriminate.
Qed.

(** X15. Include patterns.  With the same exclude list in force, a
    setting with no include pattern shares every file that any include
    list would let through; and once a list has a pattern, adding
    further patterns to it can only share more. *)
Theorem include_list_narrows_then_widens (cfg1 cfg2 : SyncConfig)
    (filePath : string) (folder : option string) (this1 this2 : FileFilter.t) :
  excludes_of cfg1 = excludes_of cfg2 ->
  (includes_of cfg1 = [] ->
   shares cfg2 filePath folder this2 = true ->
   shares cfg1 filePath folder this1 = true) /\
  (includes_of cfg1 <> [] ->
   incl (includes_of cfg1) (includes_of cfg2) ->
   shares cfg1 filePath folder this1 = true ->
   shares cfg2 filePath folder this2 = true).
Proof.
  intros Hexc. rewrite !shares_unfold. unfold FileFilter.decide. simpl.
  rewrite Hexc.
  destruct (match folder with
            | Some f => negb (String.prefix (path_normalize f)
                                            (path_normalize filePath))
            | None => false
            end); [split; intros; discriminate|].
  destruct (existsb _ (excludes_of cfg2)); [split; intros; discriminate|].
  split.
  - intros He. rewrite He. simpl.
    destruct (FileFilter.isBinaryFile filePath);
      [|reflexivity].
    destruct (_ && _)%bool; auto.
  - intros Hne Hi.
    destruct (includes_of cfg1) as [|p1 l1] eqn:E1; [now elim Hne|].
    destruct (includes_of cfg2) as [|p2 l2] eqn:E2.
    { exfalso. apply (Hi p1). now left. }
    cbn [List.length Nat.eqb negb andb].
    destruct (existsb _ (p1 :: l1)) eqn:M1; [|discriminate].
    now rewrite (existsb_incl _ _ _ Hi M1).
Qed.

Lemma backslashes_to_slashes_clean s :
  ~ has_backslash (FileFilter.backslashes_to_slashes s).
Proof.
  unfold has_backslash. induction s as [|c s IH]; simpl; [tauto|].
  intros [H|H]; [|auto].
  destruct (Ascii.eqb c "\"%char) eqn:E; [discriminate|].
  apply Ascii.eqb_neq in E. congruence.
Qed.

Lemma backslashes_to_slashes_map s :
  list_ascii_of_string (FileFilter.backslashes_to_slashes s)
  = map slash_for_backslash (list_ascii_of_string s).
Proof. induction s as [|c s IH]; simpl; [reflexivity|]. now rewrite IH. Qed.

(** X16. The patterns are matched against the relative path (the
    normalized path when there is no workspace folder) with every
    backslash, not only the first, turned into a slash and every other
    character kept in its place.  So, whatever the platform's path
    functions return, the path handed to [minimatch] holds no backslash,
    has the length of the relative path, and is that path itself when it
    had no backslash. *)
Theorem pattern_path_has_no_backslash (filePath : string)
    (folder : option string) :
  list_ascii_of_string (FileFilter.patternPath filePath folder)
  = map slash_for_backslash
      (list_ascii_of_string
         match folder with
         | Some f => path_relative f (path_normalize filePath)
         | None => path_normalize filePath
         end) /\
  ~ has_backslash (FileFilter.patternPath filePath folder) /\
  (forall s, list_ascii_of_string (FileFilter.backslashes_to_slashes s)
             = map slash_for_backslash (list_ascii_of_string s)) /\
  (forall s, String.length (FileFilter.backslashes_to_slashes s)
             = String.length s) /\
  (forall s, ~ has_backslash s -> FileFilter.backslashes_to_slashes s = s).
Proof.
  split; [apply backslashes_to_slashes_map|].
  split; [apply backslashes_to_slashes_clean|].
  split; [apply backslashes_to_slashes_map|]. split.
  - induction s as [|c s IH]; simpl; congruence.
  - unfold has_backslash. induction s as [|c s IH]; simpl; [reflexivity|].
    intros H. destruct (Ascii.eqb c "\"%char) eqn:E.
    + apply Ascii.eqb_eq in E. subst c. tauto.
    + f_equal. apply IH. tauto.
Qed.

End PatternFacts.

Lemma more_excludes_share_less_witness :
  shares (P := Reference.platform)
    (mkSyncConfig None (Some ["**/*.md"]) None None)
    "/ws/a.ts" (Some "/ws") FileFilter.initial = true.
Proof.
  apply (more_excludes_share_less (P := Reference.platform)
           (mkSyncConfig None (Some ["**/*.md"]) None None)
           (mkSyncConfig None (Some ["**/*.md"; "**/.env"]) None None)
           "/ws/a.ts" (Some "/ws") FileFilter.initial FileFilter.initial).
  - reflexivity.
  - intros x [Hx|[]]. now left.
  - vm_compute; reflexivity.
Defined.

Lemma include_list_narrows_then_widens_witness :
  shares (P := Reference.platform) default_settings
    "/ws/a.ts" (Some "/ws") FileFilter.initial = true /\
  shares (P := Reference.platform)
    (mkSyncConfig (Some ["**/*.md"; "**/*.ts"]) None None None)
    "/ws/a.ts" (Some "/ws") FileFilter.initial = true.
Proof.
  split.
  - destruct (include_list_narrows_then_widens (P := Reference.platform)
                default_settings
                (mkSyncConfig (Some ["**/*.ts"]) None None None)
                "/ws/a.ts" (Some "/ws") FileFilter.initial FileFilter.initial
                eq_refl) as (H & _).
    apply H; [reflexivity|vm_compute; reflexivity].
  - destruct (include_list_narrows_then_widens (P := Reference.platform)
                (mkSyncConfig (Some ["**/*.ts"]) None None None)
                (mkSyncConfig (Some ["**/*.md"; "**/*.ts"]) None None None)
                "/ws/a.ts" (Some "/ws") FileFilter.initial FileFilter.initial
                eq_refl) as (_ & H).
    apply H.
    + discriminate.
    + intros x [Hx|[]]. right. now left.
    + vm_compute; reflexivity.
Defined.

Lemma pattern_path_has_no_backslash_witness :
  list_ascii_of_string
    (FileFilter.patternPath (P := Reference.platform) "C:\ws\src\a.ts" None)
  = list_ascii_of_string "C:/ws/src/a.ts" /\
  list_ascii_of_string (FileFilter.backslashes_to_slashes "src\lib\a.ts")
  = list_ascii_of_string "src/lib/a.ts" /\
  FileFilter.backslashes_to_slashes "src/a.ts" = "src/a.ts".
Proof.
  destruct (pattern_path_has_no_backslash (P := Reference.platform)
              "C:\ws\src\a.ts" None) as (H1 & _ & H2 & _ & H3).
  split; [|split].
  - rewrite H1. vm_compute; reflexivity.
  - rewrite H2. vm_compute; reflexivity.
  - apply H3. unfold has_backslash. simpl.
    intros Hin. repeat (destruct Hin as [Hin|Hin]; [discriminate|]). exact Hin.
Defined.

(** ** Language names *)

Section LanguageFacts.
Context {P : Platform}.

Lemma inherited_iff key :
  existsb (String.eqb key) ContentProvider.objectPrototypeMembers = true
  <-> In key ContentProvider.objectPrototypeMembers.
Proof.
  rewrite existsb_exists. split.
  - intros (x & Hin & Hx). apply String.eqb_eq in Hx. now subst.
  - intros Hin. exists key. split; [exact Hin|apply String.eqb_refl].
Qed.

Lemma not_inherited key :
  ~ In key ContentProvider.objectPrototypeMembers ->
  existsb (String.eqb key) ContentProvider.objectPrototypeMembers = false.
Proof.
  intros H. destruct (existsb _ _) eqn:E; [|reflexivity].
  apply inherited_iff in E. contradiction.
Qed.

(** What [path.extname] returns is empty or starts with a dot, and no
    member of [Object.prototype] does. *)
Lemma extension_not_inherited ext :
  ext = EmptyString \/ (exists rest, ext = String "."%char rest) ->
  ~ In ext ContentProvider.objectPrototypeMembers.
Proof.
  intros [H|(rest & H)] Hin; subst ext; simpl in Hin;
    repeat (destruct Hin as [Hin|Hin]; [discriminate|]); exact Hin.
Qed.

(** X17. The language label of a file.  For a language id that is not
    the name of a member of [Object.prototype], [getLanguageName] gives
    a name that is never empty and that it maps to itself, so
    relabelling a label changes nothing; an id the table does not have
    is passed through, the empty id as [plaintext].  For an id that is
    the name of such a member ([constructor], [toString], [__proto__]
    and the like) the label is the inherited member and no string.  An
    extension as [path.extname] returns it, empty or starting with a
    dot, always gets a name, one that [getLanguageName] leaves as it is,
    and [plaintext] when the table does not have it. *)
Theorem language_labels_are_canonical :
  (forall languageId,
     ~ In languageId ContentProvider.objectPrototypeMembers ->
     exists name,
       ContentProvider.getLanguageName languageId = LanguageName name /\
       name <> EmptyString /\
       ContentProvider.getLanguageName name = LanguageName name /\
       (JsMap.get languageId ContentProvider.languageMap = None ->
        name = if String.eqb languageId EmptyString then "plaintext"
               else languageId)) /\
  (forall languageId,
     In languageId ContentProvider.objectPrototypeMembers ->
     ContentProvider.getLanguageName languageId = Inherited languageId) /\
  (forall filePath,
     let ext := toLowerCase (path_extname filePath) in
     ext = EmptyString \/ (exists rest, ext = String "."%char rest) ->
     exists name,
       ContentProvider.getLanguageFromExtension filePath = LanguageName name /\
       name <> EmptyString /\
       ContentProvider.getLanguageName name = LanguageName name /\
       (JsMap.get ext ContentProvider.extMap = None -> name = "plaintext")).
Proof.
  split; [|split].
  - intros languageId Hno.
    unfold ContentProvider.getLanguageName at 1, ContentProvider.lookup.
    destruct (JsMap.get languageId ContentProvider.languageMap) as [name|] eqn:E.
    + exists name. apply get_Some_In in E.
      unfold ContentProvider.languageMap in E. simpl in E.
      repeat (destruct E as [E|E];
              [inversion E; subst;
               split; [reflexivity|split; [discriminate|split;
                 [reflexivity|discriminate]]]|]).
      contradiction.
    + rewrite (not_inherited _ Hno).
      destruct (String.eqb languageId EmptyString) eqn:E0.
      * exists "plaintext". repeat split; auto. discriminate.
      * exists languageId. split; [reflexivity|].
        split; [now apply String.eqb_neq|]. split; [|auto].
        unfold ContentProvider.getLanguageName, ContentProvider.lookup.
        now rewrite E, (not_inherited _ Hno), E0.
  - intros languageId Hin. unfold ContentProvider.objectPrototypeMembers in Hin.
    simpl in Hin.
    repeat (destruct Hin as [Hin|Hin]; [subst; reflexivity|]). contradiction.
  - intros filePath ext Hext.
    pose proof (extension_not_inherited ext Hext) as Hno.
    unfold ContentProvider.getLanguageFromExtension, ContentProvider.lookup.
    fold ext.
    destruct (JsMap.get ext ContentProvider.extMap) as [name|] eqn:E.
    + exists name. apply get_Some_In in E.
      unfold ContentProvider.extMap in E. simpl in E.
      repeat (destruct E as [E|E];
              [inversion E; subst;
               split; [reflexivity|split; [discriminate|split;
                 [reflexivity|discriminate]]]|]).
      contradiction.
    + rewrite (not_inherited _ Hno). exists "plaintext".
      repeat split; auto. discriminate.
Qed.

End LanguageFacts.

Lemma language_labels_are_canonical_witness :
  ContentProvider.getLanguageName "cobol" = LanguageName "cobol" /\
  ContentProvider.getLanguageName "constructor" = Inherited "constructor" /\
  ContentProvider.getLanguageFromExtension (P := Reference.platform)
    "/ws/notes.txt" = LanguageName "plaintext".
Proof.
  destruct (language_labels_are_canonical (P := Reference.platform))
    as (H1 & H2 & H3).
  split; [|split].
  - destruct (H1 "cobol") as (name & E & _ & _ & Hname).
    + simpl. intros Hin.
      repeat (destruct Hin as [Hin|Hin]; [discriminate|]). exact Hin.
    + rewrite E. f_equal. apply Hname. reflexivity.
  - apply H2. simpl. tauto.
  - destruct (H3 "/ws/notes.txt") as (name & E & _ & _ & Hname).
    + right. exists "txt". vm_compute; reflexivity.
    + rewrite E. f_equal. apply Hname. vm_compute; reflexivity.
Defined.

(** ** The address the teacher advertises *)

Section NetworkFacts.
Import NetworkUtils.

Lemma firstExternal_find nets :
  firstExternal nets = option_map address (find external_IPv4 nets).
Proof.
  induction nets as [|net nets IH]; simpl; [reflexivity|].
  unfold external_IPv4 at 1. destruct (isIPv4 net && negb (internal net))%bool;
    [reflexivity|exact IH].
Qed.

Lemma find_app_first {A} (f : A -> bool) (l l' : list A) :
  find f (l ++ l')
  = match find f l with Some x => Some x | None => find f l' end.
Proof.
  induction l as [|a l IH]; simpl; [reflexivity|].
  destruct (f a); [reflexivity|exact IH].
Qed.

Lemma getLocalNetworkIP_find interfaces :
  getLocalNetworkIP interfaces
  = option_map address (find external_IPv4 (all_addresses interfaces)).
Proof.
  induction interfaces as [|[name [nets|]] rest IH]; simpl; [reflexivity| |exact IH].
  rewrite find_app_first, firstExternal_find.
  destruct (find external_IPv4 nets); [reflexivity|exact IH].
Qed.

(** X18. [getLocalNetworkIP] answers with the address of the first
    entry, in the order the interfaces and their addresses are listed,
    that is IPv4 and not internal.  So it never answers with a loopback
    or an IPv6 address, and it answers [null] exactly when no listed
    address is both IPv4 and external; in that case, and when the
    address is the empty string, the URLs shown to the teacher are the
    two localhost URLs. *)
Theorem advertised_address_is_first_external
    (interfaces : list (string * option (list NetworkInterfaceInfo)))
    (show : Z -> string) (port : Z) :
  getLocalNetworkIP interfaces
    = option_map address (find external_IPv4 (all_addresses interfaces)) /\
  (forall a, getLocalNetworkIP interfaces = Some a ->
     exists net, In net (all_addresses interfaces) /\ address net = a /\
                 isIPv4 net = true /\ internal net = false) /\
  (getLocalNetworkIP interfaces = None <->
   forall net, In net (all_addresses interfaces) -> external_IPv4 net = false) /\
  (getLocalNetworkIP interfaces = None \/
   getLocalNetworkIP interfaces = Some EmptyString ->
   let urls := formatConnectionUrls show port (getLocalNetworkIP interfaces) in
   wsUrl urls = wsLocalUrl urls /\ httpUrl urls = httpLocalUrl urls /\
   httpLocalUrl urls = ("http://localhost:" ++ show port)%string /\
   wsLocalUrl urls = ("ws://localhost:" ++ show port)%string).
Proof.
  pose proof (getLocalNetworkIP_find interfaces) as E.
  split; [exact E|]. split; [|split].
  - intros a Ha. rewrite E in Ha.
    destruct (find external_IPv4 (all_addresses interfaces)) as [net|] eqn:F;
      [|discriminate].
    apply find_some in F as [Hin Hext]. unfold external_IPv4 in Hext.
    apply andb_true_iff in Hext as [H4 Hint]. apply negb_true_iff in Hint.
    exists net. simpl in Ha. inversion Ha. auto.
  - rewrite E. split.
    + intros H net Hin.
      destruct (find external_IPv4 (all_addresses interfaces)) eqn:F;
        [discriminate|].
      exact (find_none _ _ F net Hin).
    + intros H.
      destruct (find external_IPv4 (all_addresses interfaces)) as [net|] eqn:F;
        [|reflexivity].
      apply find_some in F as [Hin Hext]. rewrite (H net Hin) in Hext.
      discriminate.
  - intros [H|H]; rewrite H; simpl; auto.
Qed.

End NetworkFacts.

Lemma advertised_address_is_first_external_witness :
  NetworkUtils.getLocalNetworkIP
    [ ("lo", Some [NetworkUtils.mkNet (NetworkUtils.FamilyName "IPv4") true
                     "127.0.0.1"]);
      ("vpn", None);
      ("en0", Some [NetworkUtils.mkNet (NetworkUtils.FamilyName "IPv6") false
                      "fe80::1";
                    NetworkUtils.mkNet (NetworkUtils.FamilyNumber 4) false
                      "192.168.1.20"]) ]
    = Some "192.168.1.20" /\
  NetworkUtils.httpUrl
    (NetworkUtils.formatConnectionUrls show_decimal 8765
       (NetworkUtils.getLocalNetworkIP
          [("lo", Some [NetworkUtils.mkNet (NetworkUtils.FamilyName "IPv4") true
                          "127.0.0.1"])]))
    = "http://localhost:8765".
Proof.
  split.
  - destruct (advertised_address_is_first_external
                [ ("lo", Some [NetworkUtils.mkNet (NetworkUtils.FamilyName "IPv4")
                                 true "127.0.0.1"]);
                  ("vpn", None);
                  ("en0", Some [NetworkUtils.mkNet (NetworkUtils.FamilyName "IPv6")
                                  false "fe80::1";
                                NetworkUtils.mkNet (NetworkUtils.FamilyNumber 4)
                                  false "192.168.1.20"]) ]
                show_decimal 8765) as (H & _).
    rewrite H. reflexivity.
  - destruct (advertised_address_is_first_external
                [("lo", Some [NetworkUtils.mkNet (NetworkUtils.FamilyName "IPv4")
                                true "127.0.0.1"])]
                show_decimal 8765) as (_ & _ & _ & H).
    destruct H as (H1 & H2 & H3 & _); [left; reflexivity|].
    rewrite H2, H3. vm_compute; reflexivity.
Defined.

(** ** The status bar *)

Section StatusBarFacts.
Import StatusBar.
Variable show : Z -> string.

Lemma updateStatusBar_idempotent this :
  updateStatusBar show (updateStatusBar show this) = updateStatusBar show this.
Proof.
  destruct this as [item mode count conn]. unfold updateStatusBar. simpl.
  destruct mode; simpl; [reflexivity| |reflexivity].
  destruct conn; reflexivity.
Qed.

Lemma updateStatusBar_fields this :
  currentMode (updateStatusBar show this) = currentMode this /\
  connectionCount (updateStatusBar show this) = connectionCount this /\
  isConnected (updateStatusBar show this) = isConnected this /\
  visible (statusBarItem (updateStatusBar show this))
    = visible (statusBarItem this).
Proof.
  destruct this as [item mode count conn]. unfold updateStatusBar. simpl.
  destruct mode; simpl; auto. destruct conn; simpl; auto.
Qed.

Lemma rendered_call c this :
  is_setter c -> rendered show this -> rendered show (call show c this).
Proof.
  unfold rendered. intros Hc H. destruct c; simpl in Hc; try contradiction; simpl.
  - apply updateStatusBar_idempotent.
  - destruct this as [item mode n conn]. unfold setConnectionCount. simpl.
    destruct mode; [apply updateStatusBar_idempotent| |].
    + unfold updateStatusBar in *. simpl in *.
      destruct conn; unfold set_item in *; simpl in *;
        inversion H as [Hi]; rewrite <- Hi at 2; rewrite <- Hi; reflexivity.
    + unfold updateStatusBar in *. simpl in *. unfold set_item in *. simpl in *.
      inversion H as [Hi]. rewrite <- Hi at 2. rewrite <- Hi. reflexivity.
  - destruct this as [item mode n conn]. unfold setConnected. simpl.
    destruct mode; [|apply updateStatusBar_idempotent|].
    + unfold updateStatusBar in *. simpl in *. unfold set_item in *. simpl in *.
      inversion H as [Hi]. rewrite <- Hi at 2. rewrite <- Hi. reflexivity.
    + unfold updateStatusBar in *. simpl in *. unfold set_item in *. simpl in *.
      inversion H as [Hi]. rewrite <- Hi at 2. rewrite <- Hi. reflexivity.
Qed.

Lemma visible_call c this :
  visible (statusBarItem (call show c this)) = visible (statusBarItem this).
Proof.
  destruct this as [item mode n conn].
  destruct c as [m|count|connected|message|message]; simpl;
    unfold setMode, setConnectionCount, setConnected, updateStatusBar; simpl;
    try reflexivity.
  - destruct m; [reflexivity| |reflexivity]. now destruct conn.
  - destruct mode; reflexivity.
  - destruct mode; [reflexivity| |reflexivity]. now destruct connected.
Qed.

(** X19. The status bar shows the state of its manager.  From a new
    manager on, after any sequence of [setMode], [setConnectionCount] and
    [setConnected], re-rendering the item would change nothing, although
    the last two re-render only in their own mode; so in teacher mode
    the text counts the students as last reported.  The item stays
    visible under every call, and after an error or loading text has
    been put up, the next [setMode] brings the regular display back. *)
Theorem status_bar_shows_its_state (cs : list Call) :
  let bar := calls show cs (create show) in
  visible (statusBarItem bar) = true /\
  (forall mode, rendered show (setMode show mode bar)) /\
  (Forall is_setter cs ->
   rendered show bar /\
   (currentMode bar = TEACHER ->
    text (statusBarItem bar)
    = if (connectionCount bar =? 0)%Z
      then "$(broadcast) Classroom: No Students"
      else ("$(broadcast) Classroom: " ++ show (connectionCount bar) ++ " "
            ++ (if (connectionCount bar =? 1)%Z then "Student" else "Students"))%string)).
Proof.
  intros bar.
  assert (Hvis : forall cs0 this, visible (statusBarItem (calls show cs0 this))
                                  = visible (statusBarItem this)).
  { induction cs0 as [|c cs0 IH]; intros this; simpl; [reflexivity|].
    unfold calls in *. simpl. rewrite IH. apply visible_call. }
  assert (Hren : forall cs0 this, Forall is_setter cs0 -> rendered show this ->
                                  rendered show (calls show cs0 this)).
  { induction cs0 as [|c cs0 IH]; intros this Hall H; simpl; [exact H|].
    inversion Hall; subst. unfold calls in *. simpl. apply IH; [assumption|].
    now apply rendered_call. }
  split; [unfold bar; rewrite Hvis; reflexivity|].
  split; [intros mode; apply updateStatusBar_idempotent|].
  intros Hall.
  assert (H : rendered show bar) by (apply Hren; [exact Hall|reflexivity]).
  split; [exact H|]. intros Hmode. unfold rendered in H.
  rewrite <- H at 1. unfold updateStatusBar. rewrite Hmode. simpl.
  destruct (connectionCount bar =? 0); reflexivity.
Qed.

End StatusBarFacts.

Lemma status_bar_shows_its_state_witness :
  StatusBar.text
    (StatusBar.statusBarItem
       (StatusBar.calls show_decimal
          [StatusBar.SetMode StatusBar.TEACHER; StatusBar.SetConnected true;
           StatusBar.SetConnectionCount 2]
          (StatusBar.create show_decimal)))
    = "$(broadcast) Classroom: 2 Students".
Proof.
  destruct (status_bar_shows_its_state show_decimal
              [StatusBar.SetMode StatusBar.TEACHER; StatusBar.SetConnected true;
               StatusBar.SetConnectionCount 2]) as (_ & _ & H).
  assert (Hall : Forall is_setter
            [StatusBar.SetMode StatusBar.TEACHER; StatusBar.SetConnected true;
             StatusBar.SetConnectionCount 2])
    by (repeat constructor).
  destruct (H Hall) as [_ Htext].
  rewrite Htext by reflexivity. vm_compute; reflexivity.
Defined.

(** ** What the sync engine announces, and when *)

Section SwitchFacts.
Context {P : Platform}.

(** [syncFileSwitch] returns, and hands on one [file_switch] with what
    the document holds, if the document is eligible. *)
Lemma syncFileSwitch_spec d a :
  exists srv ff,
    FileSyncManager.syncFileSwitch d a
      = (Normal tt, set_fileFilter ff (set_server srv a)) /\
    outbox srv = outbox (server a) ++
      (if eligible (config a) (docs a d)
       then [FileSwitchMessage (now a) (fileInfo_of (docs a d)) (cursor_of a)]
       else []).
Proof.
  unfold FileSyncManager.syncFileSwitch. unfold bind at 1.
  destruct (shouldSyncFile_spec d a) as (ff & Hrun). rewrite Hrun.
  destruct (eligible (config a) (docs a d)); simpl.
  - unfold try_catch, bind, get, ContentProvider.getFileContent,
      FileSyncManager.cursorPosition, ret, liftServer,
      MessageBroker.broadcastFileSwitch. simpl.
    destruct (broker_broadcast_spec
                (FileSwitchMessage (now a) (fileInfo_of (docs a d)) (cursor_of a))
                (server a)) as (s' & Hb & Ho).
    unfold fileInfo_of, cursor_of in Hb. rewrite Hb. simpl.
    exists s', ff. split; [now destruct a|]. exact Ho.
  - unfold ret. exists (server a), ff. rewrite app_nil_r.
    split; [now destruct a|reflexivity].
Qed.

(** X20. Switching to another document announces it at once.  When
    the editor event carries a document whose identity differs from the
    tracked one, or none is tracked, the handler returns with that
    document tracked, the event's editor recorded and no debounce timer
    remembered, and it has handed exactly one [file_switch] to the
    broadcast if the document is eligible, and nothing otherwise.  The
    message carries the document's text and the cursor of the editor
    that was switched to; an ineligible document is tracked all the
    same. *)
Theorem switch_announces_new_document (a : App) (e : EditorRef) (d : DocRef) :
  document (editors a e) = Some d ->
  FileSyncManager.differs a d = true ->
  let a' := exec (FileSyncManager.handleEditorChange (Some e)) a in
  result (FileSyncManager.handleEditorChange (Some e)) a = Normal tt /\
  currentDocument a' = Some d /\
  activeEditor a' = Some e /\
  debounceTimer a' = None /\
  outbox (server a')
  = outbox (server a) ++
    (if eligible (config a) (docs a d)
     then [FileSwitchMessage (now a) (fileInfo_of (docs a d))
             (Some (selection_active (editors a e)))]
     else []).
Proof.
  intros Hd Hs a'. unfold a', result, exec.
  rewrite (handleEditorChange_switch a e d Hd Hs).
  set (a2 := set_currentDocument (Some d)
               (cancel_debounce (set_activeEditor (Some e) a))).
  assert (H2 : currentDocument a2 = Some d /\ activeEditor a2 = Some e /\
               debounceTimer a2 = None /\ config a2 = config a /\
               docs a2 = docs a /\ now a2 = now a /\
               cursor_of a2 = Some (selection_active (editors a e)) /\
               server a2 = server a).
  { subst a2. unfold cancel_debounce, cursor_of. simpl.
    destruct (debounceTimer a) eqn:E; simpl; rewrite ?E; tauto. }
  destruct H2 as (C2 & A2 & D2 & G2 & O2 & N2 & U2 & S2).
  destruct (syncFileSwitch_spec d a2) as (srv & ff & Hrun & Ho).
  rewrite Hrun. simpl.
  rewrite Ho, G2, O2, N2, U2, S2. tauto.
Qed.

(** X21. A change of the sync settings takes effect at once.  When the
    settings change while a document is tracked, the listener reloads
    the filter and sends the tracked document again as one
    [file_switch], judged by the new settings: a document the new
    settings exclude is not sent.  A pending debounce timer is left as
    it is.  A change of other settings does nothing, and
    [syncCurrentFile] sends the tracked document under the settings in
    force. *)
Theorem settings_change_resends_current_file (a : App) (d : DocRef)
    (new : SyncConfig) :
  subscribed a = true ->
  currentDocument a = Some d ->
  let a' := exec (EventLoop.dispatch (DidChangeConfiguration new true)) a in
  outbox (server a')
  = outbox (server a) ++
    (if eligible new (docs a d)
     then [FileSwitchMessage (now a) (fileInfo_of (docs a d)) (cursor_of a)]
     else []) /\
  timers a' = timers a /\ debounceTimer a' = debounceTimer a /\
  currentDocument a' = Some d /\
  server (exec (EventLoop.dispatch (DidChangeConfiguration new false)) a)
    = server a /\
  outbox (server (exec (EventLoop.dispatch CallSyncCurrentFile) a))
  = outbox (server a) ++
    (if eligible (config a) (docs a d)
     then [FileSwitchMessage (now a) (fileInfo_of (docs a d)) (cursor_of a)]
     else []).
Proof.
  intros Hsub Hcur a'.
  assert (E : a' = exec (FileSyncManager.syncFileSwitch d)
                     (set_fileFilter
                        (FileFilter.loadConfiguration new (fileFilter a))
                        (set_config new a))).
  { unfold a', exec. simpl. unfold bind at 1, modify at 1.
    unfold bind at 1, get at 1. simpl. rewrite Hsub.
    unfold FileSyncManager.handleConfigurationChange.
    unfold bind at 1, modify at 1. unfold bind at 1, get at 1. simpl.
    now rewrite Hcur. }
  split; [|split; [|split; [|split; [|split]]]].
  - rewrite E. unfold exec.
    destruct (syncFileSwitch_spec d
                (set_fileFilter (FileFilter.loadConfiguration new (fileFilter a))
                                (set_config new a)))
      as (srv & ff & Hrun & Ho).
    rewrite Hrun. simpl. exact Ho.
  - rewrite E.
    destruct (frame_fields _ _ (framed_syncFileSwitch d
                (set_fileFilter (FileFilter.loadConfiguration new (fileFilter a))
                                (set_config new a))))
      as (_ & _ & _ & _ & _ & _ & _ & _ & Ht & _).
    unfold exec. rewrite Ht. reflexivity.
  - rewrite E.
    destruct (frame_fields _ _ (framed_syncFileSwitch d
                (set_fileFilter (FileFilter.loadConfiguration new (fileFilter a))
                                (set_config new a))))
      as (_ & _ & Hdb & _).
    unfold exec. rewrite Hdb. reflexivity.
  - rewrite E.
    destruct (frame_fields _ _ (framed_syncFileSwitch d
                (set_fileFilter (FileFilter.loadConfiguration new (fileFilter a))
                                (set_config new a))))
      as (_ & Hc & _).
    unfold exec. rewrite Hc. exact Hcur.
  - unfold exec. simpl. unfold bind at 1, modify at 1.
    unfold bind at 1, get at 1. simpl. rewrite Hsub. reflexivity.
  - unfold exec. simpl. unfold FileSyncManager.syncCurrentFile.
    unfold bind at 1, get at 1. rewrite Hcur.
    destruct (syncFileSwitch_spec d a) as (srv & ff & Hrun & Ho).
    rewrite Hrun. simpl. exact Ho.
Qed.

End SwitchFacts.

Lemma switch_announces_new_document_witness :
  outbox (server (exec (FileSyncManager.handleEditorChange
                          (P := Reference.platform) (Some 1%nat))
                       sample_tracking))
  = outbox (server sample_tracking)
    ++ [FileSwitchMessage 0
          (mkFileInfo "/ws/b.ts" "b.ts" (LanguageName "typescript") "b")
          (Some (mkCursor 0 0))] /\
  outbox (server (exec (FileSyncManager.handleEditorChange
                          (P := Reference.platform) (Some 3%nat))
                       sample_tracking))
  = outbox (server sample_tracking) /\
  currentDocument (exec (FileSyncManager.handleEditorChange
                           (P := Reference.platform) (Some 3%nat))
                        sample_tracking)
  = Some 2%nat.
Proof.
  assert (Hd1 : document (editors sample_tracking 1%nat) = Some 1%nat)
    by (vm_compute; reflexivity).
  assert (Hs1 : FileSyncManager.differs sample_tracking 1%nat = true)
    by (vm_compute; reflexivity).
  assert (Hd3 : document (editors sample_tracking 3%nat) = Some 2%nat)
    by (vm_compute; reflexivity).
  assert (Hs3 : FileSyncManager.differs sample_tracking 2%nat = true)
    by (vm_compute; reflexivity).
  destruct (switch_announces_new_document (P := Reference.platform)
              sample_tracking 1%nat 1%nat Hd1 Hs1) as (_ & _ & _ & _ & H1).
  destruct (switch_announces_new_document (P := Reference.platform)
              sample_tracking 3%nat 2%nat Hd3 Hs3) as (_ & H2 & _ & _ & H3).
  split; [|split].
  - eapply eq_trans; [exact H1|]. f_equal; vm_compute; reflexivity.
  - eapply eq_trans; [exact H3|].
    eapply eq_trans; [|apply app_nil_r]. f_equal; vm_compute; reflexivity.
  - exact H2.
Defined.

Lemma settings_change_resends_current_file_witness :
  outbox (server (exec (EventLoop.dispatch (P := Reference.platform)
                          (DidChangeConfiguration
                             (mkSyncConfig None (Some ["**/*.ts"]) None None)
                             true))
                       sample_tracking))
  = outbox (server sample_tracking) /\
  outbox (server (exec (EventLoop.dispatch (P := Reference.platform)
                          (DidChangeConfiguration
                             (mkSyncConfig None (Some ["**/*.md"]) None None)
                             true))
                       sample_tracking))
  = outbox (server sample_tracking)
    ++ [FileSwitchMessage 0 (mkFileInfo "/ws/a.ts" "a.ts" (LanguageName "typescript") "a")
          (Some (mkCursor 0 0))].
Proof.
  assert (Hsub : subscribed sample_tracking = true) by (vm_compute; reflexivity).
  assert (Hcur : currentDocument sample_tracking = Some 0%nat)
    by (vm_compute; reflexivity).
  destruct (settings_change_resends_current_file (P := Reference.platform)
              sample_tracking 0%nat
              (mkSyncConfig None (Some ["**/*.ts"]) None None) Hsub Hcur)
    as (H1 & _).
  destruct (settings_change_resends_current_file (P := Reference.platform)
              sample_tracking 0%nat
              (mkSyncConfig None (Some ["**/*.md"]) None None) Hsub Hcur)
    as (H2 & _).
  split.
  - eapply eq_trans; [exact H1|].
    eapply eq_trans; [|apply app_nil_r]. f_equal; vm_compute; reflexivity.
  - eapply eq_trans; [exact H2|]. f_equal; vm_compute; reflexivity.
Defined.

(** ** Losing the focus, stopping, and the callback's assumption *)

Section FocusFacts.
Context {P : Platform}.

(** X22. Losing the editor focus does not cancel a pending update.
    When an edit of the tracked document waits for its debounce timer
    and the active editor becomes undefined before the timer is due, the
    handler records that no editor is active and leaves timer, tracked
    document and server as they are.  When the timer then fires, the
    update is sent if the document is eligible, stamped with the timer's
    due time, and it carries no cursor position. *)
Theorem focus_loss_keeps_pending_update (a : App) (d : DocRef)
    (tid : TimerId) (due t1 T : Z) :
  subscribed a = true ->
  currentDocument a = Some d ->
  timers a = [(tid, due)] ->
  now a <= t1 -> t1 < due -> due <= T ->
  let a1 := EventLoop.step t1 (DidChangeActiveTextEditor None) a in
  timers a1 = [(tid, due)] /\
  activeEditor a1 = None /\
  currentDocument a1 = Some d /\
  server a1 = server a /\
  outbox (server (EventLoop.advance T a1))
  = outbox (server a) ++
    (if eligible (config a) (docs a d)
     then [FileUpdateMessage due (fileInfo_of (docs a d)) None]
     else []).
Proof.
  intros Hsub Hcur Hq Hnow Ht1 HT a1.
  assert (E1 : a1 = set_activeEditor None (set_now t1 a)).
  { unfold a1, EventLoop.step, EventLoop.advance. rewrite Hq. simpl.
    rewrite Hq. simpl.
    replace (due <=? t1) with false by (symmetry; apply Z.leb_gt; lia).
    rewrite Z.max_r by lia.
    unfold exec, bind, get. simpl. rewrite Hsub.
    unfold FileSyncManager.handleEditorChange, bind, modify, get, ret.
    reflexivity. }
  rewrite E1. simpl.
  split; [exact Hq|]. split; [reflexivity|]. split; [exact Hcur|].
  split; [reflexivity|].
  unfold EventLoop.advance. simpl. rewrite Hq. simpl. rewrite Hq. simpl.
  replace (due <=? T) with true by (symmetry; apply Z.leb_le; lia).
  set (a3 := set_fired _ _).
  unfold exec, FileSyncManager.debounceCallback, bind at 1, get at 1.
  assert (H3 : currentDocument a3 = Some d /\ config a3 = config a /\
               docs a3 = docs a /\ now a3 = due /\ cursor_of a3 = None /\
               outbox (server a3) = outbox (server a)).
  { subst a3. unfold cursor_of. simpl. rewrite Z.max_r by lia. tauto. }
  destruct H3 as (C3 & G3 & D3 & N3 & U3 & O3).
  rewrite C3.
  destruct (syncFileUpdate_spec d a3) as (srv & ff & Hrun & Ho).
  rewrite Hrun. simpl. rewrite Ho, G3, D3, N3, U3, O3. reflexivity.
Qed.

End FocusFacts.

Lemma focus_loss_keeps_pending_update_witness :
  outbox (server
            (EventLoop.advance (P := Reference.platform) 600
               (EventLoop.step (P := Reference.platform) 100
                  (DidChangeActiveTextEditor None) sample_pending)))
  = outbox (server sample_pending)
    ++ [FileUpdateMessage 510
          (mkFileInfo "/ws/a.ts" "a.ts" (LanguageName "typescript") "ab") None].
Proof.
  assert (Hsub : subscribed sample_pending = true) by (vm_compute; reflexivity).
  assert (Hcur : currentDocument sample_pending = Some 0%nat)
    by (vm_compute; reflexivity).
  assert (Hq : timers sample_pending = [(0%nat, 510)])
    by (vm_compute; reflexivity).
  assert (Hnow : now sample_pending <= 100) by (vm_compute; discriminate).
  assert (Ht1 : 100 < 510) by lia.
  assert (HT : 510 <= 600) by lia.
  destruct (focus_loss_keeps_pending_update (P := Reference.platform)
              sample_pending 0%nat 0%nat 510 100 600 Hsub Hcur Hq Hnow Ht1 HT)
    as (_ & _ & _ & _ & H).
  eapply eq_trans; [exact H|]. f_equal; vm_compute; reflexivity.
Defined.

Section StopSyncFacts.
Context {P : Platform}.

Lemma stop_clears a :
  one_timer a ->
  result FileSyncManager.stop a = Normal tt /\
  timers (exec FileSyncManager.stop a) = [] /\
  debounceTimer (exec FileSyncManager.stop a) = None /\
  currentDocument (exec FileSyncManager.stop a) = None /\
  activeEditor (exec FileSyncManager.stop a) = None /\
  subscribed (exec FileSyncManager.stop a) = false /\
  server (exec FileSyncManager.stop a) = server a /\
  fired (exec FileSyncManager.stop a) = fired a.
Proof.
  intros H1. destruct a as [srv ff ae cd dt sub ds es cfg nw tm nt fr].
  unfold result, exec, FileSyncManager.stop, Timers.clearTimeout,
    bind, modify, get, ret.
  unfold one_timer in H1. simpl in *.
  destruct H1 as [Hq|(tid & due & Hq & Hd)]; subst tm.
  - destruct dt; simpl; tauto.
  - rewrite Hd. simpl. rewrite Nat.eqb_refl. simpl. tauto.
Qed.

Lemma stopped_step t i b :
  is_editor_event i ->
  subscribed b = false -> timers b = [] ->
  subscribed (EventLoop.step t i b) = false /\
  timers (EventLoop.step t i b) = [] /\
  server (EventLoop.step t i b) = server b /\
  fired (EventLoop.step t i b) = fired b.
Proof.
  intros Hi Hsub Hq.
  destruct b as [srv ff ae cd dt sub ds es cfg nw tm nt fr]. simpl in *.
  subst sub tm. unfold EventLoop.step, EventLoop.advance. simpl.
  destruct i; simpl in Hi; try contradiction;
    unfold exec, EventLoop.dispatch, bind, modify, get, ret; simpl; auto.
Qed.

(** X23. A stopped manager sends nothing.  With at most the remembered
    timer pending, [stop] leaves no timer pending and forgets editor,
    document and timer.  From then on, whatever the editor does (the
    active editor changes, documents are edited, settings change, the
    cursor moves) and however far the clock advances, no callback runs
    and the server side is exactly as [stop] found it: nothing is
    broadcast until the manager is started again. *)
Theorem stopped_manager_sends_nothing (a : App) (inputs : list (Z * Input))
    (T : Z) :
  one_timer a ->
  Forall (fun ti => is_editor_event (snd ti)) inputs ->
  let a' := exec FileSyncManager.stop a in
  result FileSyncManager.stop a = Normal tt /\
  timers a' = [] /\ debounceTimer a' = None /\
  currentDocument a' = None /\ activeEditor a' = None /\
  subscribed a' = false /\
  server (EventLoop.advance T (EventLoop.run inputs a')) = server a /\
  fired (EventLoop.advance T (EventLoop.run inputs a')) = fired a.
Proof.
  intros H1 Hall a'.
  assert (Hstop : result FileSyncManager.stop a = Normal tt /\
                  timers a' = [] /\ debounceTimer a' = None /\
                  currentDocument a' = None /\ activeEditor a' = None /\
                  subscribed a' = false /\ server a' = server a /\
                  fired a' = fired a)
    by exact (stop_clears a H1).
  destruct Hstop as (Hr & Hq & Hd & Hc & Ha & Hs & Hsrv & Hf).
  repeat (split; [assumption|]).
  assert (Hrun : forall b,
            subscribed b = false -> timers b = [] ->
            subscribed (EventLoop.run inputs b) = false /\
            timers (EventLoop.run inputs b) = [] /\
            server (EventLoop.run inputs b) = server b /\
            fired (EventLoop.run inputs b) = fired b).
  { clear - Hall. induction Hall as [|[t i] rest Hi _ IH]; intros b Hs Hq;
      simpl; [auto|].
    destruct (stopped_step t i b Hi Hs Hq) as (Hs1 & Hq1 & Hv1 & Hf1).
    destruct (IH _ Hs1 Hq1) as (Hs2 & Hq2 & Hv2 & Hf2).
    repeat split; congruence. }
  destruct (Hrun a' Hs Hq) as (_ & Hq2 & Hv2 & Hf2).
  unfold EventLoop.advance. rewrite Hq2. simpl.
  split; congruence.
Qed.

End StopSyncFacts.

Lemma stopped_manager_sends_nothing_witness :
  timers (exec (FileSyncManager.stop) sample_pending) = [] /\
  server (EventLoop.advance (P := Reference.platform) 5000
            (EventLoop.run (P := Reference.platform)
               [(20, DidChangeTextDocument 0%nat "abc" 1);
                (30, DidChangeActiveTextEditor (Some 1%nat))]
               (exec (FileSyncManager.stop) sample_pending)))
  = server sample_pending.
Proof.
  assert (H1 : one_timer sample_pending).
  { right. exists 0%nat, 510. split; vm_compute; reflexivity. }
  assert (Hall : Forall (fun ti => is_editor_event (snd ti))
                   [(20, DidChangeTextDocument 0%nat "abc" 1%nat);
                    (30, DidChangeActiveTextEditor (Some 1%nat))])
    by (repeat constructor).
  destruct (stopped_manager_sends_nothing (P := Reference.platform)
              sample_pending _ 5000 H1 Hall)
    as (_ & Hq & _ & _ & _ & _ & Hsrv & _).
  split; [exact Hq|exact Hsrv].
Defined.

Section CallbackFacts.
Context {P : Platform}.

Lemma tracked_frame a a' :
  frame a a' -> tracked_while_pending a -> tracked_while_pending a'.
Proof.
  intros H. destruct (frame_fields a a' H)
    as (_ & Hc & _ & _ & _ & _ & _ & _ & Ht & _).
  unfold tracked_while_pending. now rewrite Ht, Hc.
Qed.

Lemma tracked_handleEditorChange editor a :
  one_timer a -> tracked_while_pending a ->
  tracked_while_pending (exec (FileSyncManager.handleEditorChange editor) a).
Proof.
  intros H1 Ht.
  assert (H0 : one_timer (set_activeEditor editor a)) by exact H1.
  assert (Ht0 : tracked_while_pending (set_activeEditor editor a)) by exact Ht.
  destruct editor as [e|]; [|exact Ht0].
  destruct (document (editors a e)) as [d|] eqn:Hd.
  - destruct (FileSyncManager.differs a d) eqn:Hs; unfold exec.
    + rewrite (handleEditorChange_switch a e d Hd Hs).
      eapply tracked_frame; [apply framed_syncFileSwitch|].
      right. exists d. reflexivity.
    + rewrite (handleEditorChange_same a e d Hd Hs).
      left. exact (proj1 (one_timer_cancel _ H0)).
  - unfold exec, FileSyncManager.handleEditorChange, bind, modify, get, ret.
    simpl. rewrite Hd. exact Ht0.
Qed.

Lemma tracked_handleDocumentChange d n a :
  tracked_while_pending a ->
  tracked_while_pending (exec (FileSyncManager.handleDocumentChange d n) a).
Proof.
  intros Ht. destruct a as [srv ff ae cd dt sub ds es cfg nw tm nt fr].
  unfold exec, FileSyncManager.handleDocumentChange,
    FileSyncManager.clearDebounce, Timers.clearTimeout, Timers.setTimeout,
    bind, modify, get, ret. simpl.
  destruct cd as [cur|]; [|exact Ht].
  destruct (negb (String.eqb (uri (ds d)) (uri (ds cur)))); [exact Ht|].
  destruct n as [|n]; [exact Ht|]. simpl.
  right. exists cur. destruct dt; reflexivity.
Qed.

Lemma tracked_dispatch i a :
  one_timer a -> tracked_while_pending a ->
  tracked_while_pending (exec (EventLoop.dispatch i) a).
Proof.
  intros H1 Ht. destruct i; unfold exec; simpl.
  - unfold bind, get. destruct (subscribed a); [|exact Ht].
    now apply tracked_handleEditorChange.
  - unfold bind at 1, modify at 1. unfold bind at 1, get at 1. simpl.
    destruct (subscribed a); [|exact Ht].
    now apply tracked_handleDocumentChange.
  - unfold bind at 1, modify at 1. unfold bind at 1, get at 1. simpl.
    destruct (subscribed a); [|exact Ht].
    eapply tracked_frame; [apply framed_handleConfigurationChange|exact Ht].
  - exact Ht.
  - unfold FileSyncManager.start, bind at 1, modify at 1.
    destruct activeTextEditor as [e|]; [|exact Ht].
    now apply tracked_handleEditorChange.
  - left. exact (proj1 (proj2 (stop_clears a H1))).
  - eapply tracked_frame; [apply framed_syncCurrentFile|exact Ht].
  - unfold bind, get.
    eapply tracked_frame; [apply framed_liftServer|exact Ht].
Qed.

Lemma tracked_fireDue t rounds : forall a,
  one_timer a -> tracked_while_pending a ->
  tracked_while_pending (EventLoop.fireDue rounds t a).
Proof.
  induction rounds as [|n IH]; intros a H1 Ht; simpl; [assumption|].
  destruct (Timers.earliest (timers a)) as [[x due]|] eqn:E; [|assumption].
  destruct (due <=? t); [|assumption].
  assert (Hq : timers (set_timer_queue (EventLoop.remove_timer x (timers a))
                         (nextTimer a) a) = []).
  { simpl. destruct H1 as [Hq|(tid & due' & Hq & Hd)]; rewrite Hq in *.
    - discriminate.
    - simpl in E. inversion E; subst. simpl. now rewrite Nat.eqb_refl. }
  apply IH.
  - eapply one_timer_frame; [apply framed_debounceCallback|]. left. exact Hq.
  - eapply tracked_frame; [apply framed_debounceCallback|]. left. exact Hq.
Qed.

(** X24. The debounce callback always finds its document.  In every
    state the manager can reach from its creation, under any sequence of
    editor events, calls of [start], [stop] and [syncCurrentFile], and
    server events, at most the one remembered timer is pending, and
    while it is pending a document is tracked.  With a document tracked
    the callback returns normally, so the [currentDocument!] it relies
    on is never undefined when a timer fires. *)
Theorem debounce_callback_finds_its_document (srv : Server) (cfg : SyncConfig)
    (ds : DocRef -> TextDocument) (es : EditorRef -> TextEditor) (t0 : Z)
    (inputs : list (Z * Input)) :
  let a := EventLoop.run inputs (FileSyncManager.create srv cfg ds es t0) in
  one_timer a /\
  tracked_while_pending a /\
  (forall t, In t (timers a) ->
     debounceTimer a = Some (fst t) /\
     exists d, currentDocument a = Some d) /\
  (forall b, currentDocument b <> None ->
     result FileSyncManager.debounceCallback b = Normal tt).
Proof.
  intros a.
  assert (Hrun : forall inputs0 b,
            one_timer b -> tracked_while_pending b ->
            one_timer (EventLoop.run inputs0 b) /\
            tracked_while_pending (EventLoop.run inputs0 b)).
  { induction inputs0 as [|[t i] rest IH]; intros b H1 Ht; simpl; [auto|].
    apply IH; unfold EventLoop.step, EventLoop.advance.
    - apply one_timer_dispatch. exact (one_timer_fireDue t _ b H1).
    - apply tracked_dispatch.
      + exact (one_timer_fireDue t _ b H1).
      + exact (tracked_fireDue t _ b H1 Ht). }
  destruct (Hrun inputs (FileSyncManager.create srv cfg ds es t0))
    as [H1 Ht]; [now left|now left|].
  fold a in H1, Ht.
  split; [exact H1|]. split; [exact Ht|]. split.
  - intros t Hin. split.
    + destruct H1 as [Hq|(tid & due & Hq & Hd)]; rewrite Hq in Hin.
      * contradiction.
      * destruct Hin as [Hin|[]]. subst t. exact Hd.
    + destruct Ht as [Hq|Hd]; [|exact Hd]. rewrite Hq in Hin. contradiction.
  - intros b Hb. unfold result, FileSyncManager.debounceCallback, bind, get.
    destruct (currentDocument b) as [d|]; [|now elim Hb].
    destruct (syncFileUpdate_spec d b) as (srv' & ff & Hrun' & _).
    now rewrite Hrun'.
Qed.

End CallbackFacts.

Lemma debounce_callback_finds_its_document_witness :
  exists d,
    currentDocument
      (EventLoop.run (P := Reference.platform)
         [(0, CallStart (Some 0%nat)); (10, DidChangeTextDocument 0%nat "ab" 1)]
         (FileSyncManager.create sample_server default_settings sample_docs
            sample_editors 0))
    = Some d.
Proof.
  destruct (debounce_callback_finds_its_document (P := Reference.platform)
              sample_server default_settings sample_docs sample_editors 0
              [(0, CallStart (Some 0%nat));
               (10, DidChangeTextDocument 0%nat "ab" 1%nat)])
    as (_ & _ & H & _).
  apply (H (0%nat, 510)). vm_compute. left. reflexivity.
Defined.

(** ** The socket's message handler *)

Section OnMessageFacts.
Context {P : Platform}.

Lemma handleStudentMessage_returns clientId raw now s :
  exists s', MessageBroker.handleStudentMessage clientId raw now s
             = (Normal tt, s').
Proof.
  unfold MessageBroker.handleStudentMessage, MessageBroker.parse.
  unfold try_catch, bind at 1.
  destruct (JSON_parse raw) as [v|]; [|eexists; reflexivity].
  unfold ret at 1. unfold bind at 1.
  destruct v; simpl; try (eexists; reflexivity);
    try (destruct (MessageBroker.is_type PING _) eqn:E1;
         [|destruct (MessageBroker.is_type AUTH _); eexists; reflexivity]);
    try discriminate.
  unfold bind at 1.
  destruct (updatePing_returns clientId now s) as (s1 & H1). rewrite H1.
  unfold MessageBroker.sendPong, bind at 1.
  destruct (sendToClient_returns clientId (JSON_stringify (PongMessage now)) s1)
    as (b & s2 & H2).
  rewrite H2. eexists; reflexivity.
Qed.

(** X25. The handler a socket gets for its messages never raises.  A
    payload that is not JSON is logged once, by this handler, and never
    reaches the router; so is [null] when authentication is required,
    because its [type] cannot be read.  Every other payload is routed
    exactly as [handleStudentMessage] routes it, with no further
    effect. *)
Theorem onMessage_routes_or_logs (requireAuth : bool)
    (clientId rawMessage : string) (now : Z) (s : Server) :
  result (WebSocketServer.onMessage requireAuth clientId rawMessage now) s
    = Normal tt /\
  (JSON_parse rawMessage = None \/
   (JSON_parse rawMessage = Some JNull /\ requireAuth = true) ->
   exec (WebSocketServer.onMessage requireAuth clientId rawMessage now) s
     = log (LogError "Error handling message from client" clientId) s) /\
  (forall v, JSON_parse rawMessage = Some v ->
     requireAuth = false \/ v <> JNull ->
     WebSocketServer.onMessage requireAuth clientId rawMessage now s
       = MessageBroker.handleStudentMessage clientId rawMessage now s).
Proof.
  destruct (handleStudentMessage_returns clientId rawMessage now s)
    as (s' & Hh).
  assert (Hroute : forall v, JSON_parse rawMessage = Some v ->
            requireAuth = false \/ v <> JNull ->
            WebSocketServer.onMessage requireAuth clientId rawMessage now s
              = (Normal tt, s')).
  { intros v Hv Hok. unfold WebSocketServer.onMessage, MessageBroker.parse.
    rewrite Hv. unfold try_catch, bind at 1, ret at 1.
    assert (Hauth : (if requireAuth
                     then _ <- MessageBroker.get_type v ;; ret tt
                     else ret tt) s = (Normal tt, s)).
    { destruct requireAuth; [|reflexivity].
      destruct Hok as [Hok|Hok]; [discriminate|].
      destruct v; try reflexivity. now elim Hok. }
    unfold bind at 1. rewrite Hauth. now rewrite Hh. }
  split; [|split].
  - unfold result. destruct (JSON_parse rawMessage) as [v|] eqn:Hv.
    + destruct requireAuth eqn:Ha.
      * destruct v;
          try (rewrite (Hroute _ eq_refl) by (right; discriminate);
               reflexivity).
        unfold WebSocketServer.onMessage, MessageBroker.parse.
        rewrite Hv. reflexivity.
      * rewrite (Hroute v eq_refl) by now left. reflexivity.
    + unfold WebSocketServer.onMessage, MessageBroker.parse.
      rewrite Hv. reflexivity.
  - intros [Hv|[Hv Ha]]; unfold exec, WebSocketServer.onMessage,
      MessageBroker.parse; rewrite Hv; [|rewrite Ha]; reflexivity.
  - intros v Hv Hok. rewrite Hh. now apply (Hroute v).
Qed.

End OnMessageFacts.

Lemma onMessage_routes_or_logs_witness :
  exec (WebSocketServer.onMessage (P := Reference.platform) false "a" "oops" 7)
       sample_server
    = log (LogError "Error handling message from client" "a") sample_server /\
  WebSocketServer.onMessage (P := Reference.platform) true "c"
    (Reference.typeOnly "ping") 7 sample_server
    = MessageBroker.handleStudentMessage (P := Reference.platform) "c"
        (Reference.typeOnly "ping") 7 sample_server.
Proof.
  split.
  - destruct (onMessage_routes_or_logs (P := Reference.platform)
                false "a" "oops" 7 sample_server) as (_ & H & _).
    apply H. left. reflexivity.
  - destruct (onMessage_routes_or_logs (P := Reference.platform)
                true "c" (Reference.typeOnly "ping") 7 sample_server)
      as (_ & _ & H).
    apply (H (JObject [("type", JString "ping")])).
    + vm_compute; reflexivity.
    + right. discriminate.
Defined.
